(** * Youtube_project: a shallow embedding of the discovery and
      summarisation pipeline

    Two source files are embedded:
    - [Youtube_search.py]: [format_duration], [fetch_youtube_data] and
      [on_run_button_click];
    - [excel_summarizer.py]: [extract_video_id], [get_video_title_async],
      [get_video_summary_async], [save_excel_with_formatting], [open_file]
      and, of [YouTubeSummarizerGUI], [process_excel_thread],
      [process_single_url] and [start_processing].

    Python [str] values are Rocq [string]s (the UTF-8 bytes of the text).
    What leaves the program is kept apart from what the program does with
    the answers: [fetch_youtube_data] runs against the list of answers of
    the catalogue, and the summarizer runs in a small state and exception
    monad over an abstract world whose transitions are the services it
    calls (HTTP, transcripts, completions, the environment), with a trace
    of the calls made.  The floats of [format_duration] are the rationals
    they denote, every operation rounding its exact result to 53 bits as
    the machine does.  Library functions that are not modelled in full
    ([isodate.parse_duration], [int], [strptime], percent-decoding, the
    validation of unusual network locations in [urlsplit]) are parameters
    of the sections that use them. *)

From Stdlib Require Import Bool Arith ZArith NArith List String Ascii Lia.
From Stdlib Require Import Decimal DecimalString DecimalN Sorted.
From Stdlib Require Import QArith Qround Qpower Qabs Lqa.
Import ListNotations.

#[local] Open Scope Z_scope.
#[local] Open Scope string_scope.


(* ===================================================================== *)
(** * Python built-ins used by the sources *)
(* ===================================================================== *)

Module Py.

(** [c in "0123456789"] *)
Definition is_digit (c : ascii) : bool :=
  let n := N_of_ascii c in (48 <=? n)%N && (n <=? 57)%N.

Fixpoint all_chars (p : ascii -> bool) (s : string) : bool :=
  match s with
  | EmptyString => true
  | String c s' => p c && all_chars p s'
  end.

(** [str(n)] for a natural number. *)
Definition str_N (n : N) : string := NilEmpty.string_of_uint (N.to_uint n).

(** [f"{z:02}"]: sign-aware zero padding to width 2. *)
Definition fmt02 (z : Z) : string :=
  match z with
  | Zneg p => String "-" (str_N (Npos p))
  | _ =>
      let s := str_N (Z.to_N z) in
      if (String.length s <? 2)%nat then String "0" s else s
  end.

(** Reading a decimal numeral back; [None] when a character is no digit. *)
Definition decimal_value (s : string) : option N :=
  option_map N.of_uint (NilEmpty.uint_of_string s).

End Py.

Module PyStr.

(** [s.startswith(p)] *)
Fixpoint starts_with (p s : string) : bool :=
  match p, s with
  | EmptyString, _ => true
  | String a p', String b s' => (a =? b)%char && starts_with p' s'
  | String _ _, EmptyString => false
  end.

(** [sub in s] *)
Fixpoint contains (sub s : string) : bool :=
  starts_with sub s
  || match s with
     | EmptyString => false
     | String _ s' => contains sub s'
     end.

(** [c in s] for a single character. *)
Fixpoint has_char (c : ascii) (s : string) : bool :=
  match s with
  | EmptyString => false
  | String d s' => (c =? d)%char || has_char c s'
  end.

Fixpoint take_while (p : ascii -> bool) (s : string) : string :=
  match s with
  | EmptyString => EmptyString
  | String c s' => if p c then String c (take_while p s') else EmptyString
  end.

Fixpoint drop_while (p : ascii -> bool) (s : string) : string :=
  match s with
  | EmptyString => EmptyString
  | String c s' => if p c then drop_while p s' else s
  end.

Fixpoint drop (n : nat) (s : string) : string :=
  match n, s with
  | O, _ => s
  | S n', String _ s' => drop n' s'
  | S _, EmptyString => EmptyString
  end.

Fixpoint remove_chars (p : ascii -> bool) (s : string) : string :=
  match s with
  | EmptyString => EmptyString
  | String c s' =>
      if p c then remove_chars p s' else String c (remove_chars p s')
  end.

(** [s.split(sep)] for a separator of one character: never empty. *)
Fixpoint split (sep : ascii) (s : string) : list string :=
  match s with
  | EmptyString => [EmptyString]
  | String c s' =>
      if (c =? sep)%char then EmptyString :: split sep s'
      else match split sep s' with
           | h :: t => String c h :: t
           | [] => [String c EmptyString]
           end
  end.

(** [s.split(sep, 1)]: [None] when [sep] does not occur (the list has one
    element), else what is before and after the first occurrence. *)
Fixpoint split_once (sep : ascii) (s : string) : option (string * string) :=
  match s with
  | EmptyString => None
  | String c s' =>
      if (c =? sep)%char then Some (EmptyString, s')
      else match split_once sep s' with
           | Some (a, b) => Some (String c a, b)
           | None => None
           end
  end.

(** [s.replace(a, b)] for single characters. *)
Fixpoint replace_char (a b : ascii) (s : string) : string :=
  match s with
  | EmptyString => EmptyString
  | String c s' =>
      String (if (c =? a)%char then b else c) (replace_char a b s')
  end.

Definition between (lo hi : N) (c : ascii) : bool :=
  let n := N_of_ascii c in (lo <=? n)%N && (n <=? hi)%N.

Definition is_upper := between 65 90.
Definition is_lower := between 97 122.
Definition is_alpha (c : ascii) : bool := is_upper c || is_lower c.
Definition is_ascii (c : ascii) : bool := (N_of_ascii c <? 128)%N.

(** The class [[a-zA-Z0-9_-]] of the pattern in [extract_video_id]. *)
Definition is_id_char (c : ascii) : bool :=
  is_lower c || is_upper c || Py.is_digit c
  || (c =? "_")%char || (c =? "-")%char.

End PyStr.

(* ===================================================================== *)
(** * Python floats *)
(* ===================================================================== *)

(** A finite [float] is held as the rational number it denotes.  [round]
    takes a rational to the nearest number with a 53-bit significand,
    ties to the even significand, which is what every arithmetic
    operation of the machine does with its exact result (durations stay
    far inside the range of the exponent, so there is neither overflow
    nor a subnormal result; the sign of a zero is not kept, [int] does
    not see it). *)

Module Double.

#[local] Open Scope Q_scope.

Definition double := Q.

Definition pow2 (e : Z) : Q := (2 # 1) ^ e.

Definition exponent (q : Q) : Z :=
  let l := (Z.log2 (Qnum q) - Z.log2 (Zpos (Qden q)))%Z in
  if Qle_bool (pow2 l) q then l else (l - 1)%Z.

Definition nearest_even (q : Q) : Z :=
  let f := Qfloor q in
  match Qcompare (q - inject_Z f) (1 # 2) with
  | Lt => f
  | Eq => if Z.even f then f else (f + 1)%Z
  | Gt => (f + 1)%Z
  end.

Definition mantissa_bits : Z := 53.

Definition round_positive (q : Q) : double :=
  let ulp := pow2 (exponent q - (mantissa_bits - 1)) in
  inject_Z (nearest_even (q / ulp)) * ulp.

Definition round (q : Q) : double :=
  match Qcompare q 0 with
  | Eq => 0
  | Gt => round_positive q
  | Lt => - round_positive (- q)
  end.

(** The operations of the machine: the exact result, rounded. *)
Definition sub (a b : double) : double := round (a - b).
Definition add (a b : double) : double := round (a + b).
Definition div (a b : double) : double := round (a / b).

(** [a / b] for two [int]s: the quotient, correctly rounded. *)
Definition int_truediv (a b : Z) : double := round (inject_Z a / inject_Z b).

Definition ltb (a b : double) : bool := negb (Qle_bool b a).

(** [int(x)]: the integral part, towards zero. *)
Definition to_int (x : double) : Z :=
  if Qle_bool 0 x then Qfloor x else Qceiling x.

(** C's [fmod(x, y)]: [x - n*y] for the quotient [n] truncated towards
    zero; the result is exact. *)
Definition fmod (x y : double) : double := x - y * inject_Z (to_int (x / y)).

(** C's [floor]. *)
Definition floor (x : double) : double := inject_Z (Qfloor x).

(** [divmod(vx, wx)] on floats, for [wx] other than zero. *)
Definition float_divmod (vx wx : double) : double * double :=
  let mod_ := fmod vx wx in
  let div_ := div (sub vx mod_) wx in
  let '(mod_, div_) :=
    if negb (Qeq_bool mod_ 0) then
      if negb (Bool.eqb (ltb wx 0) (ltb mod_ 0))
      then (add mod_ wx, sub div_ 1)
      else (mod_, div_)
    else (0, div_) in
  let floordiv :=
    if negb (Qeq_bool div_ 0) then
      let floordiv := floor div_ in
      if ltb (1 # 2) (sub div_ floordiv) then add floordiv 1 else floordiv
    else 0 in
  (floordiv, mod_).

End Double.

(* ===================================================================== *)
(** * Youtube_search.py *)
(* ===================================================================== *)

Module Youtube_search.

(** A [datetime.timedelta] is held as its whole number of microseconds,
    between [timedelta.min] and [timedelta.max]. *)
Definition timedelta := Z.

Definition usec_per_sec : Z := 1000000.

Definition timedelta_min : timedelta := - 999999999 * 86400 * usec_per_sec.
Definition timedelta_max : timedelta :=
  (999999999 * 86400 + 86399) * usec_per_sec + 999999.

(** [td.total_seconds()]: the true division of the microseconds by 10^6,
    a double. *)
Definition total_seconds (td : timedelta) : Double.double :=
  Double.int_truediv td usec_per_sec.

(** Lines 39-41 of [format_duration]:
[[
    hours, remainder = divmod(parsed_duration.total_seconds(), 3600)
    minutes, seconds = divmod(remainder, 60)
    return f"{int(hours):02}:{int(minutes):02}:{int(seconds):02}"
]]
    [divmod] is the one of floats, [int] drops the fraction. *)
Definition format_timedelta (parsed_duration : timedelta) : string :=
  let '(hours, remainder) :=
    Double.float_divmod (total_seconds parsed_duration) (inject_Z 3600) in
  let '(minutes, seconds) := Double.float_divmod remainder (inject_Z 60) in
  Py.fmt02 (Double.to_int hours) ++ ":" ++ Py.fmt02 (Double.to_int minutes)
    ++ ":" ++ Py.fmt02 (Double.to_int seconds).

Section FormatDuration.

(** [isodate.parse_duration]: [None] when it raises (a string that is no
    ISO 8601 duration); otherwise the [timedelta] whose [total_seconds()]
    the next line reads (for a duration with years or months, the
    [timedelta] part it delegates to). *)
Variable parse_duration : string -> option timedelta.

(** [format_duration(duration)]; [None] is the exception of the parser,
    which the function does not catch. *)
Definition format_duration (duration : string) : option string :=
  match parse_duration duration with
  | None => None
  | Some parsed_duration => Some (format_timedelta parsed_duration)
  end.

End FormatDuration.

(** ** The answers of the catalogue

    [fetch_youtube_data] talks to two endpoints one request at a time.  A
    run is determined by the answers it receives, so the answers are the
    input of the model: the list of search responses in the order of the
    requests, each hit carrying the answer the [videos] endpoint gives
    when its detail is asked for. *)

(** One element of [video_info['items']], with the keys the source reads.
    Keys read with [[...]] are required, keys read with [.get] optional. *)
Record video_data := {
  snippet_title : string;
  snippet_channelTitle : string;
  snippet_channelId : option string;
  contentDetails_duration : string;
  statistics_viewCount : option string;
  statistics_commentCount : option string;
  snippet_tags : option (list string);
  thumbnails_high_url : string;
  snippet_publishedAt : string
}.

(** [requests.get(video_details_url, timeout=10)] followed by
    [raise_for_status()]: a [RequestException] with its message, or the
    decoded body, of which only ['items'] is read (absent is empty). *)
Inductive details_response :=
| DetailsError (e : string)
| DetailsOk (video_info_items : list video_data).

(** A search hit: [item['id']['videoId']] and what the detail request for
    it is answered with. *)
Record hit := {
  videoId : string;
  details : details_response
}.

(** The search request: a [RequestException], or the decoded body with
    [.get('items', [])] and [.get('nextPageToken')]. *)
Inductive search_response :=
| SearchError (e : string)
| SearchOk (items : list hit) (nextPageToken : option string).

(** A row of the result. *)
Record video_record := {
  Index : nat;
  Title : string;
  Channel_Title : string;
  Channel_ID : string;
  Duration : string;
  Views : Z;
  Comments : Z;
  URL : string;
  Thumbnail_URL : string;
  Tags : string;
  Published_Date : string
}.

Record fetch_state := {
  video_details : list video_record;
  total_results_fetched : nat;
  next_page_token : option string;
  log : list string
}.

(** How a run stands: it returned [video_details], an exception left the
    function, or it has sent a search request that the given answers do
    not cover. *)
Inductive fetch_status := Returned | Raised | AwaitingResponse.

(** Truth value of an optional string ([None] and [''] are false). *)
Definition truthy (o : option string) : bool :=
  match o with
  | Some s => negb (s =? "")%string
  | None => false
  end.

Definition str_nat (n : nat) : string := Py.str_N (N.of_nat n).

(** [log_callback(msg)]: the messages are kept in the order they are sent. *)
Definition log_callback (log : list string) (msg : string) : list string :=
  (log ++ [msg])%list.

Section Fetch.

Variable parse_duration : string -> option timedelta.
(** [int(s)] on a string; [None] is [ValueError]. *)
Variable py_int : string -> option Z.
(** [datetime.strptime(s, '%Y-%m-%d')] printed back with
    [strftime('%Y-%m-%d')]; [None] is [ValueError]. *)
Variable strptime_ymd : string -> option string.
(** [datetime.strptime(s, '%Y-%m-%dT%H:%M:%SZ').date()]. *)
Variable strptime_published : string -> option string.

(** [int(video_data['statistics'].get(key, 0))] *)
Definition int_or_zero (v : option string) : option Z :=
  match v with
  | None => Some 0
  | Some s => py_int s
  end.

(** Lines 144-179: the record of one video; [None] when one of the
    conversions raises. *)
Definition build_record (index total_results_fetched : nat)
    (video_url : string) (video_data : video_data) : option video_record :=
  let title := snippet_title video_data in
  let channel_title := snippet_channelTitle video_data in
  let channel_id_value :=
    match snippet_channelId video_data with Some c => c | None => "" end in
  match format_duration parse_duration (contentDetails_duration video_data) with
  | None => None
  | Some duration =>
  match int_or_zero (statistics_viewCount video_data) with
  | None => None
  | Some views =>
  match int_or_zero (statistics_commentCount video_data) with
  | None => None
  | Some comments =>
  let tags :=
    match snippet_tags video_data with Some t => t | None => [] end in
  let thumbnail_url := thumbnails_high_url video_data in
  match strptime_published (snippet_publishedAt video_data) with
  | None => None
  | Some published_date =>
      Some {| Index := index + total_results_fetched;
              Title := title;
              Channel_Title := channel_title;
              Channel_ID := channel_id_value;
              Duration := duration;
              Views := views;
              Comments := comments;
              URL := video_url;
              Thumbnail_URL := thumbnail_url;
              Tags := String.concat ", " tags;
              Published_Date := published_date |}
  end end end end.

(** Lines 124-179: the loop over the hits of one page, from position
    [index].  The result is the extended [video_details] and log, or
    [None] when an exception leaves the loop. *)
Fixpoint enrich_items (index : nat) (items : list hit)
    (total_results_fetched : nat)
    (video_details : list video_record) (log : list string)
    : option (list video_record * list string) :=
  match items with
  | [] => Some (video_details, log)
  | item :: rest =>
      let video_id := videoId item in
      let video_url := "https://www.youtube.com/watch?v=" ++ video_id in
      let log :=
        log_callback log
          (str_nat index ++ "번째 동영상 상세 정보 조회 중: " ++ video_url) in
      match details item with
      | DetailsError e =>
          let log :=
            log_callback log
              ("[경고] " ++ str_nat index
                 ++ "번째 동영상 상세 정보를 가져오지 못했습니다: " ++ e) in
          enrich_items (S index) rest total_results_fetched video_details log
      | DetailsOk [] =>
          enrich_items (S index) rest total_results_fetched video_details log
      | DetailsOk (video_data :: _) =>
          match build_record index total_results_fetched video_url video_data with
          | None => None
          | Some r =>
              enrich_items (S index) rest total_results_fetched
                (video_details ++ [r])%list log
          end
      end
  end.

Variables (api_key search_query channel_id : string).
Variables (start_date end_date : option string).

(** Lines 65-92. *)
Definition base_search_url : string * list string :=
  let url :=
    "https://www.googleapis.com/youtube/v3/search?key=" ++ api_key
      ++ "&part=snippet&maxResults=50&type=video&order=date" in
  let url :=
    if negb (search_query =? "")%string then url ++ "&q=" ++ search_query
    else url in
  let url :=
    if negb (channel_id =? "")%string then url ++ "&channelId=" ++ channel_id
    else url in
  let '(url, warnings) :=
    if truthy start_date then
      let d := match start_date with Some d => d | None => "" end in
      match strptime_ymd d with
      | Some start_iso => (url ++ "&publishedAfter=" ++ start_iso ++ "T00:00:00Z", [])
      | None =>
          (url, ["[경고] 시작 날짜 형식이 올바르지 않습니다(YYYY-MM-DD): " ++ d])
      end
    else (url, []) in
  if truthy end_date then
    let d := match end_date with Some d => d | None => "" end in
    match strptime_ymd d with
    | Some end_iso =>
        (url ++ "&publishedBefore=" ++ end_iso ++ "T23:59:59Z", warnings)
    | None =>
        (url,
         log_callback warnings
           ("[경고] 종료 날짜 형식이 올바르지 않습니다(YYYY-MM-DD): " ++ d))
    end
  else (url, warnings).

(** Lines 101-186: the [while True] loop, one iteration per search
    response. *)
Fixpoint fetch_loop (responses : list search_response) (st : fetch_state)
    : fetch_status * fetch_state :=
  let search_url :=
    if truthy (next_page_token st)
    then fst base_search_url ++ "&pageToken="
           ++ match next_page_token st with Some t => t | None => "" end
    else fst base_search_url in
  let log := log_callback (log st) "검색 API를 호출하는 중입니다..." in
  match responses with
  | [] =>
      (AwaitingResponse,
       {| video_details := video_details st;
          total_results_fetched := total_results_fetched st;
          next_page_token := next_page_token st;
          log := log |})
  | SearchError e :: _ =>
      (Returned,
       {| video_details := video_details st;
          total_results_fetched := total_results_fetched st;
          next_page_token := next_page_token st;
          log :=
            log_callback log ("[에러] 검색 결과를 가져오지 못했습니다: " ++ e) |})
  | SearchOk items token :: later =>
      match enrich_items 1 items (total_results_fetched st)
              (video_details st) log with
      | None =>
          (Raised,
           {| video_details := video_details st;
              total_results_fetched := total_results_fetched st;
              next_page_token := token;
              log := log |})
      | Some (video_details', log') =>
          let total := (total_results_fetched st + List.length items)%nat in
          let st' :=
            {| video_details := video_details';
               total_results_fetched := total;
               next_page_token := token;
               log := log' |} in
          if negb (truthy token) || (200 <=? total)%nat
          then (Returned, st')
          else fetch_loop later st'
      end
  end.

(** [fetch_youtube_data(api_key, search_query, channel_id, start_date,
    end_date, log_callback)] against the given answers; the value
    returned is [video_details] of the final state. *)
Definition fetch_youtube_data (responses : list search_response)
    : fetch_status * fetch_state :=
  fetch_loop responses
    {| video_details := [];
       total_results_fetched := 0;
       next_page_token := None;
       log := ("검색 조건으로 유튜브 검색을 시작합니다..."
                 :: snd base_search_url) |}.

End Fetch.

(** ** [run_gui]: the handler of the button

    [on_run_button_click] (lines 219-345) reads the form, checks it, runs
    [fetch_youtube_data] with the log box as its [log_callback] and writes
    the spreadsheet.  The values of the fields are taken as they are after
    [.strip()]. *)

(** The log of a run as the callback receives it, also when an exception
    leaves the loop over a page: the lines up to the item that raises. *)
Section FetchLog.

Variable parse_duration : string -> option timedelta.
Variable py_int : string -> option Z.
Variable strptime_ymd : string -> option string.
Variable strptime_published : string -> option string.

Fixpoint enrich_log (index : nat) (items : list hit)
    (total_results_fetched : nat) (log : list string) : list string :=
  match items with
  | [] => log
  | item :: rest =>
      let video_id := videoId item in
      let video_url := "https://www.youtube.com/watch?v=" ++ video_id in
      let log :=
        log_callback log
          (str_nat index ++ "번째 동영상 상세 정보 조회 중: " ++ video_url) in
      match details item with
      | DetailsError e =>
          enrich_log (S index) rest total_results_fetched
            (log_callback log
               ("[경고] " ++ str_nat index
                  ++ "번째 동영상 상세 정보를 가져오지 못했습니다: " ++ e))
      | DetailsOk [] => enrich_log (S index) rest total_results_fetched log
      | DetailsOk (video_data :: _) =>
          match build_record parse_duration py_int strptime_published
                  index total_results_fetched video_url video_data with
          | None => log
          | Some _ => enrich_log (S index) rest total_results_fetched log
          end
      end
  end.

Variables (api_key search_query channel_id : string).
Variables (start_date end_date : option string).

Fixpoint fetch_log (responses : list search_response) (st : fetch_state)
    : list string :=
  match responses with
  | SearchOk items token :: later =>
      let log := log_callback (log st) "검색 API를 호출하는 중입니다..." in
      match enrich_items parse_duration py_int strptime_published
              1 items (total_results_fetched st) (video_details st) log with
      | None => enrich_log 1 items (total_results_fetched st) log
      | Some (video_details', log') =>
          let total := (total_results_fetched st + List.length items)%nat in
          if negb (truthy token) || (200 <=? total)%nat then log'
          else fetch_log later
                 {| video_details := video_details';
                    total_results_fetched := total;
                    next_page_token := token;
                    log := log' |}
      end
  | _ =>
      log (snd (fetch_loop parse_duration py_int strptime_ymd
                  strptime_published api_key search_query channel_id
                  start_date end_date responses st))
  end.

End FetchLog.

Inductive popup :=
| showerror (title message : string)
| showinfo (title message : string).

(** What the handler leaves behind: the lines of the log box, the message
    boxes shown, whether the button is enabled again, and the file that
    [df.to_excel] wrote, with its rows. *)
Record window := {
  status_text : list string;
  popups : list popup;
  run_button_enabled : bool;
  excel_file : option (string * list video_record)
}.

Section RunGui.

Variable parse_duration : string -> option timedelta.
Variable py_int : string -> option Z.
Variable strptime_ymd : string -> option string.
Variable strptime_published : string -> option string.
(** [datetime.now().strftime("%Y-%m-%d")] *)
Variable today_date : string.
(** [df.to_excel(file_path, index=False)]: [Some e] when it raises. *)
Variable to_excel : string -> list video_record -> option string.
(** Lines 311-327, opening the file: [Some e] when that raises. *)
Variable auto_open : string -> option string.
(** [str(e)] of an exception that leaves [fetch_youtube_data]. *)
Variable str_raised : string.

(** Lines 265-275: the label of the first date that is given and does not
    parse. *)
Definition invalid_date (start_date_str end_date_str : string)
    : option string :=
  let check (field : string * string) :=
    let '(label, value) := field in
    if negb (value =? "")%string then
      match strptime_ymd value with
      | Some _ => None
      | None => Some label
      end
    else None in
  match check ("시작 날짜", start_date_str) with
  | Some label => Some label
  | None => check ("종료 날짜", end_date_str)
  end.

(** [value or None] *)
Definition or_none (value : string) : option string :=
  if (value =? "")%string then None else Some value.

(** [on_run_button_click()]; [None] while the handler waits for an answer
    that the given ones do not cover. *)
Definition on_run_button_click
    (api_key search_query channel_id start_date_str end_date_str
       file_name : string)
    (responses : list search_response) : option window :=
  let log := ["설정 값을 확인하는 중입니다..."] in
  let rejected (title message : string) :=
    Some {| status_text := log;
            popups := [showerror title message];
            run_button_enabled := true;
            excel_file := None |} in
  if (api_key =? "")%string then
    rejected "환경 변수 오류"
      ("YOUTUBE_API_KEY 환경 변수가 설정되어 있지 않습니다."
         ++ String "010"
              ".env 파일 또는 시스템 환경 변수에 YOUTUBE_API_KEY를 설정해 주세요.")
  else if (search_query =? "")%string && (channel_id =? "")%string then
    rejected "입력 오류"
      "검색어 또는 채널 ID 중 하나 이상은 반드시 입력해야 합니다."
  else
    match invalid_date start_date_str end_date_str with
    | Some label =>
        rejected "입력 오류"
          (label ++ "는 YYYY-MM-DD 형식으로 입력해 주세요."
             ++ String "010" "예: 2024-01-31")
    | None =>
        let file_name :=
          if (file_name =? "")%string then "youtube_results" else file_name in
        let log := log_callback log "유튜브 데이터 조회를 시작합니다..." in
        let failed (log : list string) (e : string) :=
          Some {| status_text :=
                    log_callback log
                      ("[에러] 데이터 조회 또는 저장 중 오류가 발생했습니다: " ++ e);
                  popups :=
                    [showerror "에러"
                       ("데이터 조회 또는 저장 중 오류가 발생했습니다."
                          ++ String "010" (String "010" e))];
                  run_button_enabled := true;
                  excel_file := None |} in
        let run :=
          fetch_youtube_data parse_duration py_int strptime_ymd
            strptime_published api_key search_query channel_id
            (or_none start_date_str) (or_none end_date_str) responses in
        let fetched :=
          fetch_log parse_duration py_int strptime_ymd strptime_published
            api_key search_query channel_id
            (or_none start_date_str) (or_none end_date_str) responses
            {| video_details := [];
               total_results_fetched := 0;
               next_page_token := None;
               log := ("검색 조건으로 유튜브 검색을 시작합니다..."
                         :: snd (base_search_url strptime_ymd api_key
                                   search_query channel_id
                                   (or_none start_date_str)
                                   (or_none end_date_str))) |} in
        let log := (log ++ fetched)%list in
        match fst run with
        | AwaitingResponse => None
        | Raised => failed log str_raised
        | Returned =>
            match video_details (snd run) with
            | [] =>
                Some {| status_text :=
                          log_callback log
                            "검색 결과가 없어 엑셀 파일을 생성하지 않습니다.";
                        popups := [showinfo "알림" "검색 결과가 없습니다."];
                        run_button_enabled := true;
                        excel_file := None |}
            | videos =>
                let file_path := file_name ++ "_" ++ today_date ++ ".xlsx" in
                match to_excel file_path videos with
                | Some e => failed log e
                | None =>
                    let log :=
                      log_callback log ("엑셀 파일 저장 완료: " ++ file_path) in
                    let log :=
                      match auto_open file_path with
                      | None => log_callback log "엑셀 파일을 자동으로 열었습니다."
                      | Some e =>
                          log_callback log
                            ("[경고] 엑셀 파일 자동 열기에 실패했습니다: " ++ e)
                      end in
                    Some {| status_text := log;
                            popups :=
                              [showinfo "완료"
                                 ("데이터를 엑셀 파일로 저장했습니다."
                                    ++ String "010"
                                         (String "010" ("파일명: " ++ file_path)))];
                            run_button_enabled := true;
                            excel_file := Some (file_path, videos) |}
                end
            end
        end
    end.

End RunGui.

End Youtube_search.

(* ===================================================================== *)
(** * excel_summarizer.py *)
(* ===================================================================== *)

Module excel_summarizer.
Import PyStr.

(** The exception classes the source tells apart, with [str(e)]. *)
Inductive exn :=
| NoTranscriptFound (msg : string)
| TranscriptsDisabled (msg : string)
| Exception (msg : string).

Definition str_exn (e : exn) : string :=
  match e with
  | NoTranscriptFound msg | TranscriptsDisabled msg | Exception msg => msg
  end.

(** A function either returns or is left by an exception. *)
Inductive outcome (A : Type) :=
| Return (a : A)
| Raise (e : exn).
Arguments Return {A} a.
Arguments Raise {A} e.

(** ** Values of a spreadsheet cell *)

Inductive pyfloat :=
| NaN
| Infinity (negative : bool)
| Finite (mantissa exponent : Z).

(** What [row['URL']] can hold.  [PyObject] stands for any other object,
    with the result of its truth test ([None] when the test raises). *)
Inductive pyvalue :=
| PyNone
| PyStr (s : string)
| PyBool (b : bool)
| PyInt (z : Z)
| PyFloat (f : pyfloat)
| PyObject (truth : option bool).

(** [bool(v)]. *)
Definition truth (v : pyvalue) : outcome bool :=
  match v with
  | PyNone => Return false
  | PyStr s => Return (negb (s =? "")%string)
  | PyBool b => Return b
  | PyInt z => Return (negb (z =? 0)%Z)
  | PyFloat NaN => Return true
  | PyFloat (Infinity _) => Return true
  | PyFloat (Finite m _) => Return (negb (m =? 0)%Z)
  | PyObject (Some b) => Return b
  | PyObject None => Raise (Exception "TypeError")
  end.

(** ** The regular expression and [urllib.parse] *)

(** [re.match(r'shorts/([a-zA-Z0-9_-]+)', s)]: group 1 of a match that
    starts at the first character. *)
Definition match_shorts_here (s : string) : option string :=
  if starts_with "shorts/" s then
    let group := take_while is_id_char (drop 7 s) in
    if (group =? "")%string then None else Some group
  else None.

(** [re.search(r'shorts/([a-zA-Z0-9_-]+)', s)]: group 1 of the leftmost
    match. *)
Fixpoint re_search_shorts (s : string) : option string :=
  match match_shorts_here s with
  | Some group => Some group
  | None =>
      match s with
      | EmptyString => None
      | String _ s' => re_search_shorts s'
      end
  end.

Definition is_scheme_char (c : ascii) : bool :=
  is_alpha c || Py.is_digit c
  || (c =? "+")%char || (c =? "-")%char || (c =? ".")%char.

(** The characters [urlsplit] strips from the left (C0 controls and
    space) and those it removes everywhere (tab, newline, return). *)
Definition is_c0_or_space (c : ascii) : bool := (N_of_ascii c <=? 32)%N.
Definition is_unsafe (c : ascii) : bool :=
  let n := N_of_ascii c in (n =? 9)%N || (n =? 10)%N || (n =? 13)%N.

(** The first step of [urlsplit]: a scheme is cut off when the text
    before the first [':'] is not empty, starts with an ASCII letter and
    consists of scheme characters. *)
Definition strip_scheme (url : string) : string :=
  match split_once ":" url with
  | Some (String c0 rest, after) =>
      if is_alpha c0 && Py.all_chars is_scheme_char (String c0 rest)
      then after else url
  | _ => url
  end.

(** [_splitnetloc(url, 2)] when [url] starts with ['//']: the network
    location runs up to the first of ['/'], ['?'], ['#']. *)
Definition is_netloc_end (c : ascii) : bool :=
  (c =? "/")%char || (c =? "?")%char || (c =? "#")%char.

Section Urllib.

(** The checks of [urlsplit] on a network location that carries both
    brackets or a character outside ASCII ([_check_bracketed_netloc],
    [_checknetloc]): [false] when they raise [ValueError]. *)
Variable netloc_valid : string -> bool.
(** [urllib.parse.unquote] on a string that contains ['%']. *)
Variable percent_decode : string -> string.

(** [urlparse(url).query]. *)
Definition urlparse_query (url : string) : outcome string :=
  let url := drop_while is_c0_or_space url in
  let url := remove_chars is_unsafe url in
  let url := strip_scheme url in
  let '(netloc, url) :=
    if starts_with "//" url then
      let rest := drop 2 url in
      (take_while (fun c => negb (is_netloc_end c)) rest,
       drop_while (fun c => negb (is_netloc_end c)) rest)
    else (EmptyString, url) in
  let open := has_char "[" netloc in
  let close := has_char "]" netloc in
  if (open && negb close) || (close && negb open) then
    Raise (Exception "Invalid IPv6 URL")
  else if ((open && close) || negb (Py.all_chars is_ascii netloc))
          && negb (netloc_valid netloc) then
    Raise (Exception "netloc contains invalid characters")
  else
    let url :=
      match split_once "#" url with
      | Some (before, _) => before
      | None => url
      end in
    match split_once "?" url with
    | Some (_, query) => Return query
    | None => Return EmptyString
    end.

(** [unquote(s)]: [if '%' not in string: return string]. *)
Definition unquote (s : string) : string :=
  if has_char "%" s then percent_decode s else s.

(** [parse_qsl(qs)]: the fields are separated by ['&']; a field without
    ['='] or with an empty value is dropped; in names and values ['+']
    becomes a space before unquoting. *)
Definition parse_qsl (qs : string) : list (string * string) :=
  flat_map
    (fun name_value =>
       match split_once "=" name_value with
       | Some (name, value) =>
           if (value =? "")%string then []
           else [(unquote (replace_char "+" " " name),
                  unquote (replace_char "+" " " value))]
       | None => []
       end)
    (split "&" qs).

(** [parse_qs(qs).get(key, [None])[0]]: the first value of the key. *)
Fixpoint first_value (key : string) (pairs : list (string * string))
    : option string :=
  match pairs with
  | [] => None
  | (name, value) :: rest =>
      if (name =? key)%string then Some value else first_value key rest
  end.

(** ** [extract_video_id] *)

(** The body of the [try] block, lines 98-115. *)
Definition extract_video_id_try (url : pyvalue) : outcome (option string) :=
  match truth url with
  | Raise e => Raise e
  | Return false => Return None
  | Return true =>
      match url with
      | PyStr url =>
          let shorts_match :=
            if contains "shorts" url then re_search_shorts url else None in
          match shorts_match with
          | Some group1 => Return (Some group1)
          | None =>
              if contains "youtu.be" url then
                Return (Some (hd EmptyString
                                (split "?" (last (split "/" url) EmptyString))))
              else if contains "youtube.com" url then
                match urlparse_query url with
                | Raise e => Raise e
                | Return query =>
                    if negb (query =? "")%string
                    then Return (first_value "v" (parse_qsl query))
                    else Return None
                end
              else Return None
          end
      | _ => Return None
      end
  end.

(** [extract_video_id(url)]: [except Exception] turns every exception of
    the body into the result [None]. *)
Definition extract_video_id (url : pyvalue) : outcome (option string) :=
  match extract_video_id_try url with
  | Return r => Return r
  | Raise _ => Return None
  end.

End Urllib.

(** ** The world of the summarizer

    The services the program calls are transitions of a world [W]; the
    calls it makes are recorded, in order, in a trace. *)

(** A row of the result table: the columns ['제목'], ['URL'],
    ['원본 자막'] and ['GPT 요약']. *)
Record summary_record := {
  row_title : option string;
  row_url : pyvalue;
  row_original_text : string;
  row_summary : string
}.

(** The calls; [save_excel_call] is the body of
    [save_excel_with_formatting] at work on a table, the last two are the
    boxes of [messagebox]. *)
Inductive event :=
| get_transcript_call (video_id language : string)
| http_get_call (url : string)
| chat_completion_call (user_content : string)
| sleep_call (seconds : nat)
| log_message_call (message : string)
| update_status_call (message : string)
| progress_set_call (row total_rows : nat)
| save_excel_call (df : list summary_record) (output_file : string)
| showinfo_call (title message : string)
| showerror_call (title message : string).

(** [session.get(url)]: an exception, or the status with the decoded
    body; of the body only [data['items'][i]['snippet']['title']] is read
    ([None] where the key is missing, an absent ['items'] is empty). *)
Inductive http_response :=
| HttpRaise (e : exn)
| HttpResponse (status : nat) (json : outcome (list (option string))).

Record services (W : Type) := {
  (** [self.processing] as the worker sees it at the check before the row
      at the given position; the interface thread clears it. *)
  processing_at : nat -> bool;
  (** [os.getenv(name)] after [load_dotenv()]. *)
  os_getenv : string -> W -> option string;
  http_get : string -> W -> http_response * W;
  (** [YouTubeTranscriptApi.get_transcript(video_id, languages=[l])]: the
      texts of the entries. *)
  get_transcript : string -> string -> W -> outcome (list string) * W;
  (** [client.chat.completions.create(...)], by system and user content;
      the result is [response.choices[0].message.content]. *)
  chat_completions_create : string -> string -> W -> outcome string * W
}.
Arguments processing_at {W} _ _.
Arguments os_getenv {W} _ _ _.
Arguments http_get {W} _ _ _.
Arguments get_transcript {W} _ _ _ _.
Arguments chat_completions_create {W} _ _ _ _.

Section Summarizer.

Context {W : Type} (svc : services W).

Record state := {
  world : W;
  trace : list event
}.

(** Computations that read and change the state and may raise. *)
Definition M (A : Type) : Type := state -> outcome A * state.

Definition ret {A} (a : A) : M A := fun s => (Return a, s).
Definition raise {A} (e : exn) : M A := fun s => (Raise e, s).
Definition bind {A B} (m : M A) (k : A -> M B) : M B :=
  fun s =>
    match m s with
    | (Return a, s') => k a s'
    | (Raise e, s') => (Raise e, s')
    end.
(** [try: m  except Exception as e: handler(e)] *)
Definition try_except {A} (m : M A) (handler : exn -> M A) : M A :=
  fun s =>
    match m s with
    | (Return a, s') => (Return a, s')
    | (Raise e, s') => handler e s'
    end.

#[local] Notation "x <- m ;; k" := (bind m (fun x => k))
  (at level 61, m at next level, right associativity).
#[local] Notation "m ;;; k" := (bind m (fun _ => k))
  (at level 61, right associativity).

Definition emit (e : event) : M unit :=
  fun s => (Return tt, {| world := world s; trace := (trace s ++ [e])%list |}).

(** A call of a service: recorded, then answered by the world. *)
Definition call {A} (e : event) (f : W -> outcome A * W) : M A :=
  fun s =>
    let '(r, w) := f (world s) in
    (r, {| world := w; trace := (trace s ++ [e])%list |}).

Definition lift {A} (o : outcome A) : M A := fun s => (o, s).

Definition falsy (o : option string) : bool :=
  match o with
  | Some s => (s =? "")%string
  | None => true
  end.

(** [load_api_keys()], lines 74-86: the two keys, or [ValueError] naming
    the keys that are not set. *)
Definition load_api_keys : M (string * string) :=
  fun s =>
    let openai := os_getenv svc "OPENAI_API_KEY" (world s) in
    let youtube := os_getenv svc "YOUTUBE_API_KEY" (world s) in
    let missing_keys :=
      ((if falsy openai then ["openai"] else [])
         ++ (if falsy youtube then ["youtube"] else []))%list in
    match openai, youtube, missing_keys with
    | Some o, Some y, [] => (Return (o, y), s)
    | _, _, _ =>
        (Raise (Exception ("다음 API 키가 설정되지 않았습니다: "
                             ++ String.concat ", " missing_keys)), s)
    end.

Definition max_retries : nat := 3.
Definition retry_delay : nat := 1.

(** The [try] block of [get_video_title_async], lines 127-137. *)
Definition title_attempt (video_id : string) : M string :=
  api_keys <- load_api_keys ;;
  let youtube_api_key := snd api_keys in
  let url :=
    "https://www.googleapis.com/youtube/v3/videos?part=snippet&id="
      ++ video_id ++ "&key=" ++ youtube_api_key in
  response <- call (http_get_call url)
                (fun w =>
                   match http_get svc url w with
                   | (HttpRaise e, w') => (Raise e, w')
                   | (HttpResponse status json, w') =>
                       (Return (status, json), w')
                   end) ;;
  let '(status, json) := response in
  if (status =? 200)%nat then
    data <- lift json ;;
    match data with
    | Some title :: _ => ret title
    | None :: _ => raise (Exception "'title'")
    | [] => ret "제목을 가져올 수 없습니다"
    end
  else ret "제목을 가져올 수 없습니다".

(** [for attempt in range(max_retries)], lines 125-143.  Falling off the
    loop would return [None]. *)
Fixpoint title_loop (attempts : list nat) (video_id : string)
    : M (option string) :=
  match attempts with
  | [] => ret None
  | attempt :: rest =>
      try_except
        (title <- title_attempt video_id ;; ret (Some title))
        (fun e =>
           if (attempt <? max_retries - 1)%nat then
             emit (sleep_call retry_delay) ;;;
             title_loop rest video_id
           else ret (Some ("제목 가져오기 실패: " ++ str_exn e)))
  end.

Definition get_video_title_async (video_id : string) : M (option string) :=
  title_loop (seq 0 max_retries) video_id.

Definition system_content : string :=
  "You are a helpful assistant that summarizes YouTube video transcripts. If the transcript is in Korean, summarize it in Korean. If it's in English, translate and summarize it in Korean.".

Definition user_content (full_text : string) : string :=
  "Please summarize the following video transcript:" ++ String "010" (String "010" full_text).

(** Lines 151-157: the transcript, or the pair the function returns at
    once when neither language has one. *)
Definition fetch_transcript (video_id : string)
    : M (string * string + list string) :=
  try_except
    (transcript <- call (get_transcript_call video_id "ko")
                     (get_transcript svc video_id "ko") ;;
     ret (inr transcript))
    (fun e =>
       match e with
       | NoTranscriptFound _ =>
           try_except
             (transcript <- call (get_transcript_call video_id "en")
                              (get_transcript svc video_id "en") ;;
              ret (inr transcript))
             (fun e' =>
                match e' with
                | NoTranscriptFound _ =>
                    ret (inl (EmptyString,
                              "이 비디오에 대한 자막을 찾을 수 없습니다."))
                | _ => raise e'
                end)
       | _ => raise e
       end).

(** [get_video_summary_async(video_id)], lines 145-190: the pair of the
    transcript text and the summary. *)
Definition get_video_summary_async (video_id : string) : M (string * string) :=
  try_except
    (r <- fetch_transcript video_id ;;
     match r with
     | inl early => ret early
     | inr transcript =>
         let full_text := String.concat " " transcript in
         api_keys <- load_api_keys ;;
         content <- call (chat_completion_call (user_content full_text))
                      (chat_completions_create svc system_content
                         (user_content full_text)) ;;
         ret (full_text, content)
     end)
    (fun e =>
       match e with
       | TranscriptsDisabled _ =>
           ret (EmptyString, "스크립트가 비활성화되어 있습니다.")
       | _ => ret (EmptyString, "오류가 발생했습니다: " ++ str_exn e)
       end).

(** ** The batch *)

Variable netloc_valid : string -> bool.
Variable percent_decode : string -> string.

(** The text of a cell in a message. *)
Variable format_cell : pyvalue -> string.

(** Lines 643-673: the loop over the rows, from the row at [index].  The
    flag tells whether the loop ran to its end ([true]) or was left by the
    [return] of the cancellation check ([false]). *)
Fixpoint process_rows (total_rows index : nat) (rows : list pyvalue)
    (results : list summary_record) : M (bool * list summary_record) :=
  match rows with
  | [] => ret (true, results)
  | url :: rest =>
      if negb (processing_at svc index) then
        emit (log_message_call "처리가 중단되었습니다.") ;;;
        ret (false, results)
      else
        video_id <- lift (extract_video_id netloc_valid percent_decode url) ;;
        emit (progress_set_call (index + 1) total_rows) ;;;
        emit (update_status_call
                ("처리 중... (" ++ Youtube_search.str_nat (index + 1) ++ "/"
                   ++ Youtube_search.str_nat total_rows ++ ")")) ;;;
        match video_id with
        | Some (String c id) =>
            let video_id := String c id in
            emit (log_message_call
                    ("Processing video " ++ Youtube_search.str_nat (index + 1)
                       ++ ": " ++ format_cell url)) ;;;
            title <- get_video_title_async video_id ;;
            summary <- get_video_summary_async video_id ;;
            process_rows total_rows (S index) rest
              (results ++ [{| row_title := title;
                              row_url := url;
                              row_original_text := fst summary;
                              row_summary := snd summary |}])%list
        | _ =>
            emit (log_message_call ("잘못된 URL 형식: " ++ format_cell url)) ;;;
            process_rows total_rows (S index) rest
              (results ++ [{| row_title := Some "유효하지 않은 URL";
                              row_url := url;
                              row_original_text := EmptyString;
                              row_summary :=
                                "유효하지 않은 YouTube URL입니다." |}])%list
        end
  end.

End Summarizer.

(** ** The desktop: saving, opening and the single-URL mode *)

Record desktop (W : Type) := {
  (** [platform.system()] *)
  platform_system : W -> string;
  os_startfile : string -> W -> outcome unit * W;
  (** [subprocess.run(args)]; it raises when the command cannot be run. *)
  subprocess_run : list string -> W -> outcome unit * W;
  (** [datetime.now().strftime("%Y%m%d_%H%M%S")] *)
  now_timestamp : W -> string;
  (** [str(datetime.now() - self.start_time)] *)
  processing_time : W -> string;
  (** Lines 204-240 of [save_excel_with_formatting]: [df.to_excel] and the
      formatting of the sheet with [openpyxl], which may raise. *)
  save_excel : list summary_record -> string -> W -> outcome unit * W
}.
Arguments platform_system {W} _ _.
Arguments os_startfile {W} _ _ _.
Arguments subprocess_run {W} _ _ _.
Arguments now_timestamp {W} _ _.
Arguments processing_time {W} _ _.
Arguments save_excel {W} _ _ _ _.

Inductive desktop_event :=
| startfile_call (filepath : string)
| subprocess_run_call (args : list string)
| time_sleep_call (seconds : nat)
| print_call (message : string).

(** How [process_single_url] ends: the reference was not valid; or the
    row was saved to the output file (with the text shown, and the file
    [open_file] is scheduled for when automatic opening is ticked); or an
    exception was turned into the text shown. *)
Inductive single_result :=
| Invalid (text : string)
| Summarized (text output_file : string) (row : summary_record)
    (open_after : option string)
| Errored (text : string).

(** How [process_excel_thread] ends: the table was saved and the
    completion box shown (the file [open_file] is scheduled for when
    automatic opening is ticked); or the function was left by the
    [return] of the cancellation check, the local list [results] holding
    the rows completed so far and being dropped; or the [except] branch
    reported an exception. *)
Inductive batch_result :=
| Saved (table : list summary_record) (open_after : option string)
| Stopped (results : list summary_record)
| Failed (e : exn).

Record gui := {
  processing : bool;
  excel_start_button_enabled : bool;
  excel_stop_button_enabled : bool;
  url_start_button_enabled : bool;
  url_stop_button_enabled : bool;
  progress_var : nat
}.

Inductive gui_action :=
| messagebox_showerror (title message : string)
| thread_start_excel (input_file output_file : string)
| thread_start_url (url : string).

Section Desktop.

Context {W : Type} (svc : services W) (dsk : desktop W).
Variable netloc_valid : string -> bool.
Variable percent_decode : string -> string.
Variable format_cell : pyvalue -> string.

#[local] Notation "x <- m ;; k" := (bind m (fun x => k))
  (at level 61, m at next level, right associativity).
#[local] Notation "m ;;; k" := (bind m (fun _ => k))
  (at level 61, right associativity).

(** [save_excel_with_formatting(df, output_file)], lines 192-242: every
    exception is raised again with the prefix of line 242. *)
Definition save_excel_with_formatting (df : list summary_record)
    (output_file : string) : M unit :=
  try_except
    (call (save_excel_call df output_file) (save_excel dsk df output_file))
    (fun e =>
       raise (Exception ("엑셀 파일 저장 중 오류 발생: " ++ str_exn e))).

(** [process_excel_thread(input_file, output_file)], lines 631-704, on
    the ['URL'] column [df] of the table read from [input_file];
    [auto_open_var] is the value of the variable of the form.  The calls
    of the window ([log_message], [update_status], the boxes) are taken
    to return.  The [finally] block, which clears [self.processing] and
    resets the two buttons however the function is left, touches neither
    the world nor the trace. *)
Definition process_excel_thread (df : list pyvalue) (output_file : string)
    (auto_open_var : bool) : M batch_result :=
  let total_rows := List.length df in
  try_except
    (r <- process_rows svc netloc_valid percent_decode format_cell
            total_rows 0 df [] ;;
     match r with
     | (false, results) => ret (Stopped results)
     | (true, results) =>
         save_excel_with_formatting results output_file ;;;
         processing_time <-
           (fun s => (Return (processing_time dsk (world s)), s)) ;;
         emit (update_status_call "처리가 완료되었습니다!") ;;;
         emit (log_message_call ("총 처리 시간: " ++ processing_time)) ;;;
         emit (showinfo_call "완료"
                 ("요약이 완료되었습니다." ++ String "010"
                  ("결과가 " ++ output_file ++ "에 저장되었습니다."
                   ++ String "010" ("총 처리 시간: " ++ processing_time)))) ;;;
         ret (Saved results (if auto_open_var then Some output_file else None))
     end)
    (fun e =>
       emit (update_status_call ("오류가 발생했습니다: " ++ str_exn e)) ;;;
       emit (log_message_call ("심각한 오류 발생: " ++ str_exn e)) ;;;
       emit (showerror_call "오류"
               ("처리 중 오류가 발생했습니다:" ++ String "010" (str_exn e))) ;;;
       ret (Failed e)).

(** One pass through the [try] block of [open_file], lines 254-260: the
    outcome, the world after it and the call that was made. *)
Definition open_attempt (filepath : string) (w : W)
    : outcome unit * W * desktop_event :=
  if (platform_system dsk w =? "Windows")%string then
    let '(r, w') := os_startfile dsk filepath w in
    (r, w', startfile_call filepath)
  else if (platform_system dsk w =? "Darwin")%string then
    let '(r, w') := subprocess_run dsk ["open"; filepath] w in
    (r, w', subprocess_run_call ["open"; filepath])
  else
    let '(r, w') := subprocess_run dsk ["xdg-open"; filepath] w in
    (r, w', subprocess_run_call ["xdg-open"; filepath]).

Definition open_file_max_retries : nat := 3.
Definition open_file_retry_delay : nat := 1.

(** [for attempt in range(max_retries)], lines 252-266. *)
Fixpoint open_file_loop (attempts : list nat) (filepath : string) (w : W)
    (calls : list desktop_event) : option bool * W * list desktop_event :=
  match attempts with
  | [] => (None, w, calls)
  | attempt :: rest =>
      let '(r, w', made) := open_attempt filepath w in
      let calls := (calls ++ [made])%list in
      match r with
      | Return _ => (Some true, w', calls)
      | Raise e =>
          if (attempt <? open_file_max_retries - 1)%nat then
            open_file_loop rest filepath w'
              (calls ++ [time_sleep_call open_file_retry_delay])%list
          else
            (Some false, w',
             (calls ++ [print_call ("파일을 열 수 없습니다: " ++ str_exn e)])%list)
      end
  end.

(** [open_file(filepath)]: the value returned ([None] would be falling
    off the loop), the world and the calls made. *)
Definition open_file (filepath : string) (w : W)
    : option bool * W * list desktop_event :=
  open_file_loop (seq 0 open_file_max_retries) filepath w [].

(** [str(title)] in an f-string. *)
Definition str_title (title : option string) : string :=
  match title with
  | Some t => t
  | None => "None"
  end.

(** [process_single_url(url)], lines 496-540; [url_output_var] and
    [auto_open_var] are the values of the two variables of the form. *)
Definition process_single_url (url url_output_var : string)
    (auto_open_var : bool) : M single_result :=
  try_except
    (video_id <- lift (extract_video_id netloc_valid percent_decode
                         (PyStr url)) ;;
     match video_id with
     | Some (String c id) =>
         let video_id := String c id in
         emit (log_message_call ("Processing URL: " ++ url)) ;;;
         title <- get_video_title_async svc video_id ;;
         summary <- get_video_summary_async svc video_id ;;
         let '(original_text, summary) := summary in
         let result :=
           "제목: " ++ str_title title ++ String "010" (String "010"
           ("URL: " ++ url ++ String "010" (String "010"
           ("원본 자막:" ++ String "010" (original_text
              ++ String "010" (String "010"
           ("GPT 요약:" ++ String "010" (summary ++ String "010" ""))))))))
         in
         output_file <-
           (if (url_output_var =? "")%string then
              fun s =>
                (Return ("youtube_summary_" ++ now_timestamp dsk (world s)
                           ++ ".xlsx"), s)
            else ret url_output_var) ;;
         let row :=
           {| row_title := title;
              row_url := PyStr url;
              row_original_text := original_text;
              row_summary := summary |} in
         save_excel_with_formatting [row] output_file ;;;
         ret (Summarized result output_file row
                (if auto_open_var then Some output_file else None))
     | _ => ret (Invalid "유효하지 않은 YouTube URL입니다.")
     end)
    (fun e => ret (Errored ("처리 중 오류가 발생했습니다: " ++ str_exn e))).

(** [start_processing(mode)], lines 558-606: the state of the window
    after it and what it did.  [url_var] is the field after [.strip()]. *)
Definition start_processing (mode input_path_var output_path_var
    url_var : string) (g : gui) : M (gui * list gui_action) :=
  if processing g then ret (g, [])
  else
    try_except
      (load_api_keys svc ;;;
       if (mode =? "excel")%string then
         if (input_path_var =? "")%string || (output_path_var =? "")%string
         then
           ret (g, [messagebox_showerror "오류"
                      "입력 파일과 출력 파일을 모두 선택해주세요."])
         else
           ret ({| processing := true;
                   excel_start_button_enabled := false;
                   excel_stop_button_enabled := true;
                   url_start_button_enabled := url_start_button_enabled g;
                   url_stop_button_enabled := url_stop_button_enabled g;
                   progress_var := 0 |},
                [thread_start_excel input_path_var output_path_var])
       else
         if (url_var =? "")%string then
           ret (g, [messagebox_showerror "오류" "YouTube URL을 입력해주세요."])
         else
           ret ({| processing := true;
                   excel_start_button_enabled := excel_start_button_enabled g;
                   excel_stop_button_enabled := excel_stop_button_enabled g;
                   url_start_button_enabled := false;
                   url_stop_button_enabled := true;
                   progress_var := 0 |},
                [thread_start_url url_var]))
      (fun e => ret (g, [messagebox_showerror "API 키 오류" (str_exn e)])).

End Desktop.

End excel_summarizer.

(* ===================================================================== *)
(** * What the claims speak about *)
(* ===================================================================== *)

Module DurationSpec.
Import Py Youtube_search.


(** [int(td.total_seconds())]: the whole seconds of the double that the
    formatter computes with. *)
Definition whole_seconds (td : timedelta) : Z :=
  Double.to_int (total_seconds td).

(** The parser restricted to the example of the docstring,
    ['PT1H2M3S' -> '01:02:03'], and to the zero duration. *)
Definition docstring_parse (s : string) : option timedelta :=
  if (s =? "PT1H2M3S")%string then Some (3723 * usec_per_sec)
  else if (s =? "PT0S")%string then Some 0
  else None.

End DurationSpec.

Module SearchSpec.
Import Youtube_search.

(** The detail request of the hit suffered a transport failure. *)
Definition transport_failure (h : hit) : bool :=
  match details h with DetailsError _ => true | DetailsOk _ => false end.

(** The detail request succeeded and carried no result item. *)
Definition empty_answer (h : hit) : bool :=
  match details h with DetailsOk [] => true | _ => false end.

(** The detail request succeeded with at least one result item. *)
Definition enriched (h : hit) : bool :=
  match details h with DetailsOk (_ :: _) => true | _ => false end.

(** The positions, counted from [index], of the hits that are enriched. *)
Fixpoint kept_positions (index : nat) (items : list hit) : list nat :=
  match items with
  | [] => []
  | h :: rest =>
      if enriched h then index :: kept_positions (S index) rest
      else kept_positions (S index) rest
  end.

Definition page_size (r : search_response) : nat :=
  match r with
  | SearchError _ => 0
  | SearchOk items _ => List.length items
  end.

Definition page_hits (r : search_response) : list hit :=
  match r with
  | SearchError _ => []
  | SearchOk items _ => items
  end.

(** The page carries no continuation cursor. *)
Definition lacks_cursor (r : search_response) : bool :=
  match r with
  | SearchError _ => false
  | SearchOk _ token => negb (truthy token)
  end.

Section Convertible.

Variable parse_duration : string -> option timedelta.
Variable py_int : string -> option Z.
Variable strptime_published : string -> option string.

(** None of the conversions of [build_record] raises on the item. *)
Definition convertible (vd : video_data) : bool :=
  match format_duration parse_duration (contentDetails_duration vd),
        int_or_zero py_int (statistics_viewCount vd),
        int_or_zero py_int (statistics_commentCount vd),
        strptime_published (snippet_publishedAt vd) with
  | Some _, Some _, Some _, Some _ => true
  | _, _, _, _ => false
  end.

(** Whatever item the detail answer of the hit starts with converts. *)
Definition well_formed (h : hit) : bool :=
  match details h with
  | DetailsOk (vd :: _) => convertible vd
  | _ => true
  end.

End Convertible.

(** The numbering in the words of the specification: a hit is numbered by
    its 1-based position within its page plus the number of hits of all
    earlier pages; the column lists the numbers of the hits that made it
    into the result, page after page, up to the page that ends the run. *)
Fixpoint spec_index_column (responses : list search_response)
    (hits_before : nat) : list nat :=
  match responses with
  | SearchOk items token :: later =>
      let here := map (fun i => (i + hits_before)%nat) (kept_positions 1 items) in
      let hits := (hits_before + List.length items)%nat in
      if negb (truthy token) || (200 <=? hits)%nat then here
      else (here ++ spec_index_column later hits)%list
  | _ => []
  end.

(** A small world for examples: durations as in the docstring, decimal
    view counts of one digit, dates kept as they come. *)
Definition example_parse_duration (s : string) : option timedelta :=
  if (s =? "PT1H2M3S")%string then Some (3723 * usec_per_sec)
  else if (s =? "PT0S")%string then Some 0
  else None.

Definition example_int (s : string) : option Z :=
  match s with
  | String c EmptyString =>
      if Py.is_digit c then Some (Z.of_N (N_of_ascii c) - 48) else None
  | _ => None
  end.

Definition example_strptime (s : string) : option string := Some s.

Definition example_video : video_data :=
  {| snippet_title := "title";
     snippet_channelTitle := "channel";
     snippet_channelId := Some "UC1";
     contentDetails_duration := "PT1H2M3S";
     statistics_viewCount := Some "7";
     statistics_commentCount := None;
     snippet_tags := Some ["a"; "b"];
     thumbnails_high_url := "https://i.ytimg.com/vi/x/hqdefault.jpg";
     snippet_publishedAt := "2024-03-23T00:00:00Z" |}.

Definition hit_ok : hit :=
  {| videoId := "dQw4w9WgXcQ"; details := DetailsOk [example_video] |}.
Definition hit_failed : hit :=
  {| videoId := "aaaaaaaaaaa"; details := DetailsError "timeout" |}.
Definition hit_empty : hit :=
  {| videoId := "bbbbbbbbbbb"; details := DetailsOk [] |}.

(** A page of 49 hits that announces a further page, a full page of 50
    hits, and a last page of 10 hits without a cursor. *)
Definition page49 : search_response :=
  SearchOk (repeat hit_ok 49) (Some "CURSOR").
Definition page50 : search_response :=
  SearchOk (repeat hit_ok 50) (Some "CURSOR").
Definition last_page10 : search_response :=
  SearchOk (repeat hit_ok 10) None.

Definition example_fetch (responses : list search_response) :=
  fetch_youtube_data example_parse_duration example_int example_strptime
    example_strptime "KEY" "music" "" None None responses.

End SearchSpec.

Module ExtractSpec.
Import PyStr excel_summarizer.

(** A video identifier: not empty, of letters, digits, [_] and [-]. *)
Definition video_identifier (id : string) : Prop :=
  id <> EmptyString /\ Py.all_chars is_id_char id = true.

(** [isinstance(v, str)] *)
Definition is_str (v : pyvalue) : bool :=
  match v with PyStr _ => true | _ => false end.

(** ** Shapes of URL that [urlparse] is given *)

Definition netloc_char (c : ascii) : bool :=
  negb (is_netloc_end c) && is_ascii c && negb (is_unsafe c)
  && negb (c =? "[")%char && negb (c =? "]")%char.

Definition path_char (c : ascii) : bool :=
  negb (c =? "?")%char && negb (c =? "#")%char && negb (is_unsafe c).

Definition query_char (c : ascii) : bool :=
  negb (c =? "#")%char && negb (is_unsafe c).

(** The oracles of the examples: every network location passes the
    checks, and percent-decoding is left undone. *)
Definition example_extract : pyvalue -> outcome (option string) :=
  extract_video_id (fun _ => true) (fun s => s).

End ExtractSpec.

Module SummarizerSpec.
Import PyStr excel_summarizer.

Section Spec.

Context {W : Type} (svc : services W).

(** A run from a world, with an empty trace: the trace of the final state
    lists the calls of the run. *)
Definition start (w : W) : state := {| world := w; trace := [] |}.

(** Both keys are set in the environment. *)
Definition keys_set (w : W) : Prop :=
  falsy (os_getenv svc "OPENAI_API_KEY" w) = false
  /\ falsy (os_getenv svc "YOUTUBE_API_KEY" w) = false.

(** The URL of the title request in world [w]. *)
Definition title_url (video_id : string) (w : W) : string :=
  "https://www.googleapis.com/youtube/v3/videos?part=snippet&id="
    ++ video_id ++ "&key="
    ++ match os_getenv svc "YOUTUBE_API_KEY" w with
       | Some key => key
       | None => EmptyString
       end.

Definition is_sleep (e : event) : bool :=
  match e with sleep_call _ => true | _ => false end.




(** The summary column for an exception caught by the handlers of
    [get_video_summary_async], lines 185-190. *)
Definition summary_diagnostic (e : exn) : string :=
  match e with
  | TranscriptsDisabled _ => "스크립트가 비활성화되어 있습니다."
  | _ => "오류가 발생했습니다: " ++ str_exn e
  end.

(** The row that stands for a reference that is not valid. *)
Definition flagged_row (url : pyvalue) : summary_record :=
  {| row_title := Some "유효하지 않은 URL";
     row_url := url;
     row_original_text := EmptyString;
     row_summary := "유효하지 않은 YouTube URL입니다." |}.

(** What happens once a transcript is at hand: the keys are read and one
    completion is requested; its failure is turned into a message. *)
Definition summarize (transcript : list string) : M (string * string) :=
  try_except
    (let full_text := String.concat " " transcript in
     bind (load_api_keys svc) (fun _ =>
     bind (call (chat_completion_call (user_content full_text))
             (chat_completions_create svc system_content
                (user_content full_text)))
          (fun content => ret (full_text, content))))
    (fun e =>
       match e with
       | TranscriptsDisabled _ =>
           ret (EmptyString, "스크립트가 비활성화되어 있습니다."%string)
       | _ => ret (EmptyString, ("오류가 발생했습니다: " ++ str_exn e)%string)
       end).

End Spec.

Section NotExtracted.

Variable netloc_valid : string -> bool.
Variable percent_decode : string -> string.

(** A reference that is not valid: nothing or the empty identifier was
    extracted. *)
Definition not_extracted (url : pyvalue) : Prop :=
  extract_video_id netloc_valid percent_decode url = Return None
  \/ extract_video_id netloc_valid percent_decode url = Return (Some EmptyString).

End NotExtracted.

(** ** A scripted world for examples

    The world counts the title requests and the completion requests made
    so far; the first [http_failures] title requests and the first
    [chat_failures] completion requests fail, the later ones succeed. *)
Record counters := {
  http_calls : nat;
  chat_calls : nat
}.

Definition scripted (http_failures chat_failures : nat)
    (ko en : outcome (list string)) (processing : nat -> bool)
    : services counters :=
  {| processing_at := processing;
     os_getenv := fun _ _ => Some "key";
     http_get := fun _ w =>
       (if (http_calls w <? http_failures)%nat
        then HttpRaise (Exception "connection reset")
        else HttpResponse 200 (Return [Some "a title"]),
        {| http_calls := S (http_calls w); chat_calls := chat_calls w |});
     get_transcript := fun _ language w =>
       (if (language =? "ko")%string then ko else en, w);
     chat_completions_create := fun _ _ w =>
       (if (chat_calls w <? chat_failures)%nat
        then Raise (Exception "rate limit")
        else Return "a summary",
        {| http_calls := http_calls w; chat_calls := S (chat_calls w) |}) |}.

Definition fresh : counters := {| http_calls := 0; chat_calls := 0 |}.

Definition example_format_cell (v : pyvalue) : string :=
  match v with
  | PyStr s => s
  | PyFloat NaN => "nan"
  | PyNone => "None"
  | _ => "?"
  end.

#[local] Open Scope nat_scope.
#[local] Open Scope list_scope.



(** A video with English captions only. *)
Definition english_only : services counters :=
  scripted 0 0 (Raise (NoTranscriptFound "no ko")) (Return ["hello"]%string)
    (fun _ => true).


Definition three_rows : list pyvalue :=
  [PyStr "https://youtu.be/aaaaaaaaaaa";
   PyFloat NaN;
   PyStr "https://www.youtube.com/watch?v=ccccccccccc"].

End SummarizerSpec.

(* ===================================================================== *)
(** * What the further properties speak about *)
(* ===================================================================== *)

Module SearchMoreSpec.
Import Youtube_search.

(** The page, if one was received, brought at least one hit.  *)
Definition brings_hits (r : search_response) : Prop :=
  match r with
  | SearchError _ => True
  | SearchOk items _ => items <> []
  end.

(** An empty page that announces a further page. *)
Definition empty_with_cursor (r : search_response) : Prop :=
  match r with
  | SearchOk [] token => truthy token = true
  | _ => False
  end.


(** A parser that knows one negative duration, of one second. *)
Definition negative_parse (s : string) : option timedelta :=
  if (s =? "-PT1S")%string then Some (- usec_per_sec)%Z else None.

(** A hit whose view count is not a number, and a page that carries it
    after a hit that is in order. *)
Definition hit_malformed : hit :=
  {| videoId := "ccccccccccc";
     details :=
       DetailsOk
         [{| snippet_title := "title";
             snippet_channelTitle := "channel";
             snippet_channelId := None;
             contentDetails_duration := "PT0S";
             statistics_viewCount := Some "many";
             statistics_commentCount := None;
             snippet_tags := None;
             thumbnails_high_url := "";
             snippet_publishedAt := "2024-03-23T00:00:00Z" |}] |}.

Definition page_malformed : search_response :=
  SearchOk [SearchSpec.hit_ok; hit_malformed] None.

End SearchMoreSpec.

Module RunGuiSpec.
Import Youtube_search.

(** The form passes the checks of the handler. *)
Definition accepted (strptime_ymd : string -> option string)
    (api_key search_query channel_id start_date_str end_date_str : string)
    : Prop :=
  api_key <> EmptyString
  /\ (search_query <> EmptyString \/ channel_id <> EmptyString)
  /\ invalid_date strptime_ymd start_date_str end_date_str = None.

(** The name of the spreadsheet for a value of the file-name field. *)
Definition spreadsheet_name (file_name today_date : string) : string :=
  (if (file_name =? "")%string then "youtube_results" else file_name)
    ++ "_" ++ today_date ++ ".xlsx".

(** The oracles of the examples: the day, a spreadsheet writer and an
    opener that always succeed. *)
Definition example_click :=
  on_run_button_click SearchSpec.example_parse_duration SearchSpec.example_int
    SearchSpec.example_strptime SearchSpec.example_strptime "2024-03-23"
    (fun _ _ => None) (fun _ => None) "error".

End RunGuiSpec.

Module SummarizerMoreSpec.
Import excel_summarizer SummarizerSpec.



(** A computation that only extends the trace: what it returns, the world
    it leaves and the calls it makes do not depend on the calls made
    before it. *)
Definition framed {W A : Type} (m : @M W A) : Prop :=
  forall s,
    m s = (fst (m (start (world s))),
           {| world := world (snd (m (start (world s))));
              trace := (trace s ++ trace (snd (m (start (world s)))))%list |}).


(** The rows a run of the batch holds when it ends. *)
Definition rows_of (r : batch_result) : list summary_record :=
  match r with
  | Saved table _ => table
  | Stopped results => results
  | Failed _ => []
  end.

(** Line 242: the exception [save_excel_with_formatting] raises for the
    exception [e] of its body. *)
Definition save_error (e : exn) : exn :=
  Exception ("엑셀 파일 저장 중 오류 발생: " ++ str_exn e).

(** Lines 688-690: what a complete run does after the save. *)
Definition completion_calls (output_file processing_time : string)
    : list event :=
  [update_status_call "처리가 완료되었습니다!";
   log_message_call ("총 처리 시간: " ++ processing_time);
   showinfo_call "완료"
     ("요약이 완료되었습니다." ++ String "010"
      ("결과가 " ++ output_file ++ "에 저장되었습니다."
       ++ String "010" ("총 처리 시간: " ++ processing_time)))].

(** Lines 697-699: what the [except] branch does. *)
Definition failure_calls (e : exn) : list event :=
  [update_status_call ("오류가 발생했습니다: " ++ str_exn e);
   log_message_call ("심각한 오류 발생: " ++ str_exn e);
   showerror_call "오류"
     ("처리 중 오류가 발생했습니다:" ++ String "010" (str_exn e))].

(** How a run whose loop came to its end with [table] ends, for the
    outcome of writing the file, and the calls it makes from the save
    on; [w] is the world after the save. *)
Definition batch_end {W : Type} (dsk : desktop W)
    (table : list summary_record) (output_file : string)
    (auto_open_var : bool) (saved : outcome unit) (w : W)
    : batch_result * list event :=
  match saved with
  | Return _ =>
      (Saved table (if auto_open_var then Some output_file else None),
       save_excel_call table output_file
         :: completion_calls output_file (processing_time dsk w))
  | Raise e =>
      (Failed (save_error e),
       save_excel_call table output_file :: failure_calls (save_error e))
  end.

(** Line 522: the name of the file when the output field is empty. *)
Definition default_output_file {W : Type} (dsk : desktop W) (w : W)
    : string :=
  "youtube_summary_" ++ now_timestamp dsk w ++ ".xlsx".

(** Lines 512-515: the text shown for a row. *)
Definition result_text (url : string) (row : summary_record) : string :=
  "제목: " ++ str_title (row_title row) ++ String "010" (String "010"
  ("URL: " ++ url ++ String "010" (String "010"
  ("원본 자막:" ++ String "010" (row_original_text row
     ++ String "010" (String "010"
  ("GPT 요약:" ++ String "010" (row_summary row ++ String "010" "")))))))).

(** The calls [open_file] makes to open the file. *)
Definition is_opener (e : desktop_event) : bool :=
  match e with
  | startfile_call _ | subprocess_run_call _ => true
  | _ => false
  end.
Definition is_time_sleep (e : desktop_event) : bool :=
  match e with time_sleep_call _ => true | _ => false end.
Definition is_print (e : desktop_event) : bool :=
  match e with print_call _ => true | _ => false end.

(** The call that opens [filepath] on the platform of the world [w]:
    [os.startfile] on Windows, the command [open] on macOS and [xdg-open]
    elsewhere. *)
Definition platform_opener {W : Type} (dsk : desktop W) (filepath : string)
    (w : W) : desktop_event :=
  if (platform_system dsk w =? "Windows")%string then startfile_call filepath
  else if (platform_system dsk w =? "Darwin")%string
       then subprocess_run_call ["open"; filepath]
       else subprocess_run_call ["xdg-open"; filepath].

(** What this call answers and the world it leaves. *)
Definition platform_open {W : Type} (dsk : desktop W) (filepath : string)
    (w : W) : outcome unit * W :=
  if (platform_system dsk w =? "Windows")%string
  then os_startfile dsk filepath w
  else if (platform_system dsk w =? "Darwin")%string
       then subprocess_run dsk ["open"; filepath] w
       else subprocess_run dsk ["xdg-open"; filepath] w.

Definition is_thread_start (a : gui_action) : bool :=
  match a with
  | thread_start_excel _ _ | thread_start_url _ => true
  | messagebox_showerror _ _ => false
  end.

(** ** Worlds for examples *)

(** Only the key of the catalogue is set. *)
Definition youtube_key_only : services counters :=
  {| processing_at := fun _ => true;
     os_getenv := fun name _ =>
       if (name =? "YOUTUBE_API_KEY")%string then Some "key" else None;
     http_get := http_get english_only;
     get_transcript := fun _ _ w => (Return ["hello"], w);
     chat_completions_create := chat_completions_create english_only |}.

(** The catalogue answers every title request with status 404 and a body
    that is not JSON. *)
Definition title_not_found : services counters :=
  {| processing_at := fun _ => true;
     os_getenv := fun _ _ => Some "key";
     http_get := fun _ w =>
       (HttpResponse 404 (Raise (Exception "not JSON")),
        {| http_calls := S (http_calls w); chat_calls := chat_calls w |});
     get_transcript := get_transcript english_only;
     chat_completions_create := chat_completions_create english_only |}.

(** A Linux desktop on which saving and opening succeed. *)
Definition example_desktop : desktop counters :=
  {| platform_system := fun _ => "Linux";
     os_startfile := fun _ w => (Return tt, w);
     subprocess_run := fun _ w => (Return tt, w);
     now_timestamp := fun _ => "20240323_101500";
     processing_time := fun _ => "0:00:42.500000";
     save_excel := fun _ _ w => (Return tt, w) |}.

(** The same desktop with an output file that cannot be written. *)
Definition read_only_desktop : desktop counters :=
  {| platform_system := platform_system example_desktop;
     os_startfile := os_startfile example_desktop;
     subprocess_run := subprocess_run example_desktop;
     now_timestamp := now_timestamp example_desktop;
     processing_time := processing_time example_desktop;
     save_excel := fun _ _ w => (Raise (Exception "Permission denied"), w) |}.

Definition example_batch (svc : services counters)
    (dsk : desktop counters) :=
  process_excel_thread svc dsk (fun _ => true) (fun s => s)
    example_format_cell three_rows "out.xlsx" true (start fresh).

End SummarizerMoreSpec.

(* ===================================================================== *)
(** * Facts about the built-ins *)
(* ===================================================================== *)

Module PyFacts.
Import Py.

Lemma all_chars_app p s t :
  all_chars p (s ++ t) = all_chars p s && all_chars p t.
Proof.
  induction s as [|c s IH]; simpl; [reflexivity|].
  now rewrite IH, andb_assoc.
Qed.



Lemma str_N_value n : decimal_value (str_N n) = Some n.
Proof.
  unfold decimal_value, str_N.
  rewrite NilEmpty.usu. simpl. now rewrite DecimalN.Unsigned.of_to.
Qed.

Lemma str_N_nonempty n : (1 <= String.length (str_N n))%nat.
Proof.
  unfold str_N. destruct n as [|p]; [simpl; lia|].
  assert (H : N.to_uint (Npos p) <> Nil).
  { intro E. apply (f_equal N.of_uint) in E.
    rewrite DecimalN.Unsigned.of_to in E. discriminate. }
  destruct (N.to_uint (Npos p)); simpl; try lia. congruence.
Qed.

(** Below one hundred the numeral has at most two characters. *)
Lemma str_N_short n : (n < 100)%N -> (String.length (str_N n) <= 2)%nat.
Proof.
  intros H.
  assert (E : n = N.of_nat (N.to_nat n)) by now rewrite N2Nat.id.
  rewrite E. assert (Hn : (N.to_nat n < 100)%nat) by lia.
  generalize dependent (N.to_nat n). intros m _ Hm.
  do 100 (destruct m as [|m]; [vm_compute; lia|]). lia.
Qed.


Lemma fmt02_value z : 0 <= z -> decimal_value (fmt02 z) = Some (Z.to_N z).
Proof.
  intros Hz. destruct z as [|p|p]; try lia; unfold fmt02.
  - reflexivity.
  - destruct (_ <? _)%nat eqn:E; [|apply str_N_value].
    unfold decimal_value, str_N.
    change (NilEmpty.uint_of_string (String "0" ?s))
      with (uint_of_char "0" (NilEmpty.uint_of_string s)).
    rewrite NilEmpty.usu. cbn [uint_of_char option_map].
    f_equal. change (N.of_uint (D0 ?d)) with (N.of_uint d).
    apply DecimalN.Unsigned.of_to.
Qed.

Lemma fmt02_length_ge z : (2 <= String.length (fmt02 z))%nat.
Proof.
  destruct z as [|p|p]; unfold fmt02.
  - simpl. lia.
  - pose proof (str_N_nonempty (Z.to_N (Zpos p))) as Hne. cbv zeta.
    destruct (_ <? _)%nat eqn:E.
    + cbn [String.length]. lia.
    + apply Nat.ltb_ge in E. exact E.
  - pose proof (str_N_nonempty (Npos p)). cbn [String.length]. lia.
Qed.

Lemma fmt02_length_two z : 0 <= z < 100 -> String.length (fmt02 z) = 2%nat.
Proof.
  intros Hz. pose proof (fmt02_length_ge z) as Hge.
  assert (Hs : (String.length (str_N (Z.to_N z)) <= 2)%nat)
    by (apply str_N_short; lia).
  destruct z as [|p|p]; try lia; unfold fmt02 in *.
  - reflexivity.
  - cbv zeta in *. destruct (_ <? _)%nat eqn:E.
    + apply Nat.ltb_lt in E. cbn [String.length] in *. lia.
    + lia.
Qed.

End PyFacts.

(* ===================================================================== *)
(** * Facts about floats *)
(* ===================================================================== *)

Module DoubleFacts.
Import Double.
#[local] Open Scope Q_scope.

(** [lra] with the integers that occur taken as unknowns. *)
Ltac forget_integers :=
  repeat match goal with
         | |- context [inject_Z ?z] =>
             let v := fresh "iz" in
             let Hv := fresh in
             remember (inject_Z z) as v eqn:Hv; clear Hv
         | H : context [inject_Z ?z] |- _ =>
             let v := fresh "iz" in
             let Hv := fresh in
             remember (inject_Z z) as v eqn:Hv; clear Hv
         end.
Ltac zlra :=
  change (inject_Z 0) with 0 in *; change (inject_Z 1) with 1 in *;
  forget_integers; lra.

Lemma pow2_pos e : 0 < pow2 e.
Proof. apply Qpower_0_lt. reflexivity. Qed.

Lemma pow2_add a b : pow2 (a + b) == pow2 a * pow2 b.
Proof. apply Qpower_plus. discriminate. Qed.

Lemma pow2_Z e : (0 <= e)%Z -> pow2 e == inject_Z (2 ^ e).
Proof. intros H. unfold pow2. now rewrite Zpower_Qpower. Qed.


Lemma pow2_lt a b : (a < b)%Z -> pow2 a < pow2 b.
Proof. intros H. apply Qpower_lt_compat_l; [exact H|reflexivity]. Qed.

Lemma pow2_lt_inv a b : pow2 a < pow2 b -> (a < b)%Z.
Proof. intros H. apply (Qpower_lt_compat_l_inv (2#1)); [exact H|reflexivity]. Qed.

Lemma pow2_succ e : pow2 (e + 1) == 2 * pow2 e.
Proof. rewrite pow2_add. change (pow2 1) with (2#1). ring. Qed.

Lemma pow2_sub a b : pow2 (a - b) == pow2 a / pow2 b.
Proof. apply Qpower_minus. discriminate. Qed.

Lemma Qnum_pos q : 0 < q -> (0 < Qnum q)%Z.
Proof. destruct q as [n d]. unfold Qlt. simpl. lia. Qed.

Lemma div_le_div a b c d :
  0 < b -> 0 < d -> a * d <= c * b -> a / b <= c / d.
Proof.
  intros Hb Hd H. apply Qle_shift_div_l; [exact Hd|].
  assert (E : a / b * d == a * d / b) by (field; lra).
  rewrite E. apply Qle_shift_div_r; [exact Hb|exact H].
Qed.

Lemma div_lt_div a b c d :
  0 < b -> 0 < d -> a * d < c * b -> a / b < c / d.
Proof.
  intros Hb Hd H. apply Qlt_shift_div_l; [exact Hd|].
  assert (E : a / b * d == a * d / b) by (field; lra).
  rewrite E. apply Qlt_shift_div_r; [exact Hb|exact H].
Qed.

(** The quotient of two powers bounds the fraction. *)
Lemma exponent_rough q :
  0 < q ->
  let l := (Z.log2 (Qnum q) - Z.log2 (Zpos (Qden q)))%Z in
  pow2 (l - 1) <= q /\ q < pow2 (l + 1).
Proof.
  intros Hq. cbv zeta. pose proof (Qnum_pos q Hq) as Hn.
  destruct q as [n d]. cbn [Qnum Qden] in *.
  pose proof (Z.log2_spec n Hn) as [Ln Un].
  pose proof (Z.log2_spec (Zpos d) (Pos2Z.is_pos d)) as [Ld Ud].
  pose proof (Z.log2_nonneg n) as Nn.
  pose proof (Z.log2_nonneg (Zpos d)) as Nd.
  generalize dependent (Z.log2 n). generalize dependent (Z.log2 (Zpos d)).
  intros ld Ld Ud Nd ln Ln Un Nn.
  assert (Q : n # d == inject_Z n / inject_Z (Zpos d)) by apply Qmake_Qdiv.
  assert (Dp : 0 < inject_Z (Zpos d)) by (unfold Qlt; simpl; lia).
  assert (Ln' : pow2 ln <= inject_Z n).
  { rewrite pow2_Z by lia. rewrite <- Zle_Qle. exact Ln. }
  assert (Un' : inject_Z n < 2 * pow2 ln).
  { rewrite <- pow2_succ. rewrite pow2_Z by lia. rewrite <- Zlt_Qlt.
    unfold Z.succ in Un. exact Un. }
  assert (Ld' : pow2 ld <= inject_Z (Zpos d)).
  { rewrite pow2_Z by lia. rewrite <- Zle_Qle. exact Ld. }
  assert (Ud' : inject_Z (Zpos d) < 2 * pow2 ld).
  { rewrite <- pow2_succ. rewrite pow2_Z by lia. rewrite <- Zlt_Qlt.
    unfold Z.succ in Ud. exact Ud. }
  pose proof (pow2_pos ln) as Pn. pose proof (pow2_pos ld) as Pd.
  assert (E1 : pow2 (ln - ld - 1) == pow2 ln / (2 * pow2 ld)).
  { replace (ln - ld - 1)%Z with (ln - (ld + 1))%Z by lia.
    now rewrite pow2_sub, pow2_succ. }
  assert (E2 : pow2 (ln - ld + 1) == 2 * pow2 ln / pow2 ld).
  { replace (ln - ld + 1)%Z with ((ln + 1) - ld)%Z by lia.
    now rewrite pow2_sub, pow2_succ. }
  rewrite E1, E2, Q.
  remember (inject_Z (Zpos d)) as D. remember (inject_Z n) as N.
  remember (pow2 ln) as PN. remember (pow2 ld) as PD.
  clear - Dp Ln' Un' Ld' Ud' Pn Pd.
  split.
  - apply div_le_div; [lra|lra|].
    assert (0 <= (N - PN) * (2 * PD))
      by (apply Qmult_le_0_compat; lra).
    assert (0 <= PN * (2 * PD - D))
      by (apply Qmult_le_0_compat; lra).
    lra.
  - apply div_lt_div; [lra|lra|].
    assert (0 < (2 * PN - N) * PD)
      by (apply Qmult_lt_0_compat; lra).
    assert (0 <= (2 * PN) * (D - PD))
      by (apply Qmult_le_0_compat; lra).
    lra.
Qed.

Lemma exponent_spec q :
  0 < q -> pow2 (exponent q) <= q /\ q < pow2 (exponent q + 1).
Proof.
  intros Hq. destruct (exponent_rough q Hq) as [L U]. unfold exponent.
  destruct (Qle_bool _ q) eqn:B.
  - split; [now apply Qle_bool_iff|exact U].
  - split; [exact L|].
    replace (Z.log2 (Qnum q) - Z.log2 (Zpos (Qden q)) - 1 + 1)%Z
      with (Z.log2 (Qnum q) - Z.log2 (Zpos (Qden q)))%Z by lia.
    apply Qnot_le_lt. intros H. apply Qle_bool_iff in H. congruence.
Qed.

Lemma exponent_unique q e :
  pow2 e <= q -> q < pow2 (e + 1) -> exponent q = e.
Proof.
  intros L U.
  assert (Hq : 0 < q) by (pose proof (pow2_pos e); lra).
  destruct (exponent_spec q Hq) as [L' U'].
  assert (A : (e < exponent q + 1)%Z)
    by (apply pow2_lt_inv; lra).
  assert (B : (exponent q < e + 1)%Z)
    by (apply pow2_lt_inv; lra).
  lia.
Qed.

(** ** Rounding to the nearest integer *)


Lemma nearest_even_int q z : q == inject_Z z -> nearest_even q = z.
Proof.
  intros E. unfold nearest_even.
  assert (F : Qfloor q = z) by (rewrite E; apply Qfloor_Z).
  rewrite F.
  assert (C : Qcompare (q - inject_Z z) (1 # 2) = Lt).
  { rewrite <- Qlt_alt. rewrite E. zlra. }
  now rewrite C.
Qed.




(** ** Rounding to 53 bits *)




(** An integer below [2^53] is a double. *)
Lemma round_positive_int a z :
  (0 < z < 2 ^ 53)%Z -> a == inject_Z z -> round_positive a == inject_Z z.
Proof.
  intros [Hz Uz] E.
  pose proof (Z.log2_spec z Hz) as [L U].
  pose proof (Z.log2_nonneg z) as N.
  assert (B : (Z.log2 z < 53)%Z) by (apply Z.log2_lt_pow2; lia).
  assert (X : exponent a = Z.log2 z).
  { apply exponent_unique; rewrite E, pow2_Z by lia.
    - now rewrite <- Zle_Qle.
    - rewrite <- Zlt_Qlt. exact U. }
  unfold round_positive, mantissa_bits. rewrite X.
  set (e := Z.log2 z) in *.
  pose proof (pow2_pos (e - (53 - 1))) as Pu.
  assert (I : pow2 (e - (53 - 1)) * inject_Z (2 ^ (52 - e)) == 1).
  { rewrite <- pow2_Z by lia. rewrite <- pow2_add.
    now replace (e - (53 - 1) + (52 - e))%Z with 0%Z by lia. }
  assert (S : a / pow2 (e - (53 - 1)) == inject_Z (z * 2 ^ (52 - e))).
  { rewrite inject_Z_mult, E.
    apply Qmult_inj_r with (pow2 (e - (53 - 1))); [lra|].
    field_simplify; [|lra].
    rewrite <- (Qmult_1_r (inject_Z z)) at 1. rewrite <- I. field. }
  rewrite (nearest_even_int _ _ S), inject_Z_mult.
  rewrite <- Qmult_assoc, (Qmult_comm (inject_Z (2 ^ (52 - e)))), I. ring.
Qed.





(** ** Rounding, with sign *)

Lemma round_zero q : q == 0 -> round q == 0.
Proof.
  intros E. unfold round. rewrite Qeq_alt in E. now rewrite E.
Qed.

Lemma round_pos q : 0 < q -> round q = round_positive q.
Proof.
  intros H. unfold round. rewrite Qgt_alt in H. now rewrite H.
Qed.

Lemma round_neg q : q < 0 -> round q = - round_positive (- q).
Proof.
  intros H. unfold round. rewrite Qlt_alt in H. now rewrite H.
Qed.

Lemma round_int q z :
  (- 2 ^ 53 < z < 2 ^ 53)%Z -> q == inject_Z z -> round q == inject_Z z.
Proof.
  intros Hz E. destruct (Z.lt_trichotomy z 0) as [N|[Z0|P]].
  - assert (Hq : q < 0) by (rewrite E; change 0 with (inject_Z 0);
                           now rewrite <- Zlt_Qlt).
    rewrite (round_neg q Hq).
    rewrite (round_positive_int (- q) (- z)).
    + rewrite inject_Z_opp. ring.
    + lia.
    + rewrite E, inject_Z_opp. reflexivity.
  - subst z. now apply round_zero.
  - assert (Hq : 0 < q) by (rewrite E; change 0 with (inject_Z 0);
                           now rewrite <- Zlt_Qlt).
    rewrite (round_pos q Hq). apply round_positive_int; [lia|exact E].
Qed.




(** ** Truncation and floor *)



Lemma to_int_int x z : x == inject_Z z -> to_int x = z.
Proof.
  intros E. unfold to_int. destruct (Qle_bool 0 x).
  - rewrite E. apply Qfloor_Z.
  - rewrite E. apply Qceiling_Z.
Qed.

Lemma ltb_false a b : b <= a -> ltb a b = false.
Proof.
  intros H. unfold ltb. apply Qle_bool_iff in H. now rewrite H.
Qed.

Lemma ltb_true a b : a < b -> ltb a b = true.
Proof.
  intros H. unfold ltb. destruct (Qle_bool b a) eqn:E; [|reflexivity].
  apply Qle_bool_iff in E. lra.
Qed.

(** The snapping of the quotient, when the quotient is an integer. *)
Lemma snap_integer d k :
  d == inject_Z k ->
  to_int (if negb (Qeq_bool d 0) then
            if ltb (1 # 2) (sub d (floor d)) then add (floor d) 1
            else floor d
          else 0) = k.
Proof.
  intros E. destruct (Qeq_bool d 0) eqn:Z0; cbn [negb].
  - apply Qeq_bool_iff in Z0. apply to_int_int. rewrite <- E, Z0. reflexivity.
  - assert (F : Qfloor d = k) by (rewrite E; apply Qfloor_Z).
    unfold floor. rewrite F.
    assert (S : sub d (inject_Z k) == 0).
    { unfold sub. apply round_zero. rewrite E. ring. }
    rewrite ltb_false by (rewrite S; lra).
    now apply to_int_int.
Qed.

(** ** [divmod] of a double that is not negative *)


(** ** [divmod] of a double that is an integer *)

Lemma to_int_comp x y : x == y -> to_int x = to_int y.
Proof.
  intros E. unfold to_int. rewrite (Qleb_comp 0 0 (Qeq_refl 0) x y E).
  now rewrite (Qfloor_comp x y E), (Qceiling_comp x y E).
Qed.

(** The truncated quotient of two integers. *)
Lemma to_int_quot x z w :
  (0 < w)%Z -> x == inject_Z z -> to_int (x / inject_Z w) = (z ÷ w)%Z.
Proof.
  intros Hw E. destruct w as [|p|p]; try lia.
  assert (D : x / inject_Z (Z.pos p) == z # p).
  { rewrite E. symmetry. apply Qmake_Qdiv. }
  rewrite (to_int_comp _ _ D). unfold to_int.
  destruct (Qle_bool 0 (z # p)) eqn:S.
  - apply Qle_bool_iff in S. unfold Qle in S. cbn in S.
    cbn [Qfloor]. symmetry. apply Z.quot_div_nonneg; lia.
  - assert (N : (z < 0)%Z).
    { destruct (Z_lt_le_dec z 0) as [N|N]; [exact N|]. exfalso.
      assert (S' : Qle_bool 0 (z # p) = true)
        by (apply Qle_bool_iff; unfold Qle; cbn; lia).
      congruence. }
    unfold Qceiling. cbn [Qopp Qfloor Qnum Qden].
    rewrite <- (Z.quot_div_nonneg (- z) (Z.pos p)) by lia.
    rewrite Z.quot_opp_l by lia. lia.
Qed.

Lemma rem_bound_neg z w :
  (z <= 0)%Z -> (0 < w)%Z -> (- w < Z.rem z w <= 0)%Z.
Proof.
  intros Hz Hw. pose proof (Z.rem_bound_pos (- z) w) as B.
  rewrite Z.rem_opp_l in B by lia. lia.
Qed.

Lemma float_divmod_int x z w :
  (0 < w < 2 ^ 52)%Z -> (- 2 ^ 52 < z < 2 ^ 52)%Z -> x == inject_Z z ->
  to_int (fst (float_divmod x (inject_Z w))) = (z / w)%Z
  /\ snd (float_divmod x (inject_Z w)) == inject_Z (z mod w).
Proof.
  intros Hw Hz E.
  assert (W : 0 < inject_Z w) by (change 0 with (inject_Z 0);
                                  rewrite <- Zlt_Qlt; lia).
  pose proof (Z.quot_rem' z w) as QR.
  assert (RB : (0 <= z -> 0 <= Z.rem z w < w)%Z)
    by (intros; apply Z.rem_bound_pos; lia).
  assert (RN : (z <= 0 -> - w < Z.rem z w <= 0)%Z)
    by (intros; apply rem_bound_neg; lia).
  set (q := (z ÷ w)%Z) in *. set (r := Z.rem z w) in *.
  assert (P : (2 ^ 52 + 2 ^ 52 = 2 ^ 53)%Z) by reflexivity.
  assert (WQb : (- 2 ^ 53 < w * q < 2 ^ 53)%Z) by lia.
  assert (Qb : (- 2 ^ 53 < q < 2 ^ 53)%Z) by nia.
  unfold float_divmod, fmod. rewrite (to_int_quot x z w (proj1 Hw) E).
  fold q. set (iw := inject_Z w) in *.
  set (m := x - iw * inject_Z q).
  assert (M : m == inject_Z r).
  { unfold m, iw. rewrite E. rewrite QR at 1.
    rewrite inject_Z_plus, inject_Z_mult. ring. }
  assert (S : sub x m == inject_Z (w * q)).
  { unfold sub. apply round_int; [exact WQb|].
    rewrite M, E. rewrite QR at 1.
    rewrite inject_Z_plus, !inject_Z_mult. ring. }
  assert (D : div (sub x m) iw == inject_Z q).
  { unfold div. apply round_int; [exact Qb|].
    rewrite S, inject_Z_mult. fold iw. field. lra. }
  rewrite (ltb_false iw 0) by lra.
  destruct (Z.lt_trichotomy r 0) as [Rn|[Rz|Rp]].
  - (* the remainder of C is negative: one divisor is added *)
    assert (Zm : Qeq_bool m 0 = false).
    { destruct (Qeq_bool m 0) eqn:B; [|reflexivity].
      apply Qeq_bool_iff in B. rewrite M in B.
      change 0 with (inject_Z 0) in B. apply (proj1 (inject_Z_injective _ _)) in B. lia. }
    rewrite Zm. cbn [negb].
    rewrite (ltb_true m 0)
      by (rewrite M; change 0 with (inject_Z 0); now rewrite <- Zlt_Qlt).
    cbn [Bool.eqb negb fst snd].
    assert (A : add m iw == inject_Z (r + w)).
    { unfold add. apply round_int; [lia|].
      rewrite M, inject_Z_plus. reflexivity. }
    assert (D1 : sub (div (sub x m) iw) 1 == inject_Z (q - 1)).
    { unfold sub at 1. apply round_int; [lia|].
      rewrite D. unfold Zminus. rewrite inject_Z_plus. reflexivity. }
    assert (Zn : (z < 0)%Z) by lia.
    split.
    + rewrite (snap_integer _ _ D1).
      apply (Z.div_unique_pos z w (q - 1) (r + w)); lia.
    + rewrite A. apply inject_Z_injective.
      apply (Z.mod_unique_pos z w (q - 1) (r + w)); lia.
  - (* no remainder *)
    assert (Zm : Qeq_bool m 0 = true).
    { apply Qeq_bool_iff. rewrite M, Rz. reflexivity. }
    rewrite Zm. cbn [negb fst snd]. split.
    + rewrite (snap_integer _ _ D).
      apply (Z.div_unique_pos z w q 0); lia.
    + change 0 with (inject_Z 0). apply inject_Z_injective.
      apply (Z.mod_unique_pos z w q 0); lia.
  - assert (Zm : Qeq_bool m 0 = false).
    { destruct (Qeq_bool m 0) eqn:B; [|reflexivity].
      apply Qeq_bool_iff in B. rewrite M in B.
      change 0 with (inject_Z 0) in B. apply (proj1 (inject_Z_injective _ _)) in B. lia. }
    rewrite Zm. cbn [negb].
    rewrite (ltb_false m 0)
      by (rewrite M; change 0 with (inject_Z 0); rewrite <- Zle_Qle; lia).
    cbn [Bool.eqb negb fst snd].
    assert (Zp : (0 <= z)%Z) by lia.
    split.
    + rewrite (snap_integer _ _ D).
      apply (Z.div_unique_pos z w q r); lia.
    + rewrite M. apply inject_Z_injective.
      apply (Z.mod_unique_pos z w q r); lia.
Qed.

End DoubleFacts.

(* ===================================================================== *)
(** * Duration Formatter *)
(* ===================================================================== *)

Module DurationFormatter.
Import Py PyFacts Youtube_search DurationSpec Double DoubleFacts.

#[local] Open Scope Z_scope.






(** A whole number of seconds is a double. *)
Lemma whole_seconds_exact td :
  timedelta_min <= td <= timedelta_max -> td mod usec_per_sec = 0 ->
  (total_seconds td == inject_Z (td / usec_per_sec))%Q.
Proof.
  intros H M. unfold total_seconds, int_truediv. apply round_int.
  - unfold timedelta_min, timedelta_max, usec_per_sec in *.
    change (2 ^ 53) with 9007199254740992.
    assert (td / 1000000 < 86400000000000)
      by (apply Z.div_lt_upper_bound; lia).
    assert (- 86399999913600 <= td / 1000000)
      by (apply Z.div_le_lower_bound; lia).
    lia.
  - assert (D : td = usec_per_sec * (td / usec_per_sec))
      by (rewrite (Z.div_mod td usec_per_sec) at 1; [lia|discriminate]).
    rewrite D at 1. rewrite inject_Z_mult. field. discriminate.
Qed.









Example format_duration_docstring :
  format_duration docstring_parse "PT1H2M3S" = Some "01:02:03"
  /\ format_duration docstring_parse "PT0S" = Some "00:00:00"
  /\ format_timedelta (360000 * usec_per_sec) = "100:00:00"
  /\ format_timedelta timedelta_max = "24000000000:00:00".
Proof. repeat split; vm_compute; reflexivity. Qed.

(** From 2^34 seconds on the double has fewer than six decimal places:
    one microsecond below a full second reads as the full second. *)
Example format_duration_rounds_up :
  format_timedelta 17179948800999999 = "4772208:00:01"
  /\ 17179948800999999 / usec_per_sec = 17179948800
  /\ whole_seconds 17179948800999999 = 17179948801.
Proof. repeat split; vm_compute; reflexivity. Qed.

End DurationFormatter.

(* ===================================================================== *)
(** * Search Paginator and Detail Enricher *)
(* ===================================================================== *)

Module SearchFacts.
Import Youtube_search SearchSpec.
#[local] Open Scope nat_scope.
#[local] Open Scope list_scope.

Lemma count_partition (items : list hit) :
  List.length (filter enriched items)
  + List.length (filter transport_failure items)
  + List.length (filter empty_answer items) = List.length items.
Proof.
  induction items as [|h rest IH]; [reflexivity|].
  unfold enriched, transport_failure, empty_answer in *. simpl.
  destruct (details h) as [e|[|vd more]]; simpl; lia.
Qed.

Lemma kept_positions_length index items :
  List.length (kept_positions index items) = List.length (filter enriched items).
Proof.
  revert index. induction items as [|h rest IH]; intros index; simpl;
    [reflexivity|].
  destruct (enriched h); simpl; now rewrite IH.
Qed.

Lemma kept_positions_bounds index items :
  Forall (fun i => index <= i < index + List.length items)
    (kept_positions index items).
Proof.
  revert index. induction items as [|h rest IH]; intros index; simpl;
    [constructor|].
  assert (T : Forall (fun i => index <= i < index + S (List.length rest))
                (kept_positions (S index) rest)).
  { eapply Forall_impl; [|apply IH]. simpl. intros; lia. }
  destruct (enriched h); [constructor; [lia|exact T]|exact T].
Qed.

Lemma kept_positions_sorted index items :
  StronglySorted lt (kept_positions index items).
Proof.
  revert index. induction items as [|h rest IH]; intros index; simpl;
    [constructor|].
  destruct (enriched h); [|apply IH].
  constructor; [apply IH|].
  eapply Forall_impl; [|apply kept_positions_bounds]. simpl. intros; lia.
Qed.

Lemma kept_positions_all index items :
  forallb enriched items = true ->
  kept_positions index items = seq index (List.length items).
Proof.
  revert index. induction items as [|h rest IH]; intros index H; simpl in *;
    [reflexivity|].
  apply andb_true_iff in H as [Hh Hr]. rewrite Hh. f_equal. now apply IH.
Qed.

Lemma StronglySorted_app_lt (l1 l2 : list nat) :
  StronglySorted lt l1 -> StronglySorted lt l2 ->
  (forall x y, In x l1 -> In y l2 -> x < y) ->
  StronglySorted lt (l1 ++ l2).
Proof.
  intros S1 S2 H. induction S1 as [|a l1 S1 IH Ha]; simpl; [exact S2|].
  constructor.
  - apply IH. intros x y Hx Hy. apply H; [now right|exact Hy].
  - apply Forall_app. split; [exact Ha|].
    apply Forall_forall. intros y Hy. apply H; [now left|exact Hy].
Qed.

Lemma StronglySorted_map_add k l :
  StronglySorted lt l -> StronglySorted lt (map (fun i => i + k) l).
Proof.
  induction 1 as [|a l S IH Ha]; simpl; constructor; [exact IH|].
  apply Forall_map. eapply Forall_impl; [|exact Ha]. simpl. intros; lia.
Qed.

Lemma map_add_seq k n :
  forall a, map (fun i => i + k) (seq a n) = seq (a + k) n.
Proof.
  induction n as [|n IH]; intros a; simpl; [reflexivity|].
  f_equal. apply (IH (S a)).
Qed.

Section EnrichFacts.

Variable parse_duration : string -> option timedelta.
Variable py_int : string -> option Z.
Variable strptime_published : string -> option string.

#[local] Abbreviation build_record := (build_record parse_duration py_int strptime_published).
#[local] Abbreviation enrich_items := (enrich_items parse_duration py_int strptime_published).
#[local] Abbreviation convertible := (convertible parse_duration py_int strptime_published).
#[local] Abbreviation well_formed := (well_formed parse_duration py_int strptime_published).

Lemma build_record_Index index total url vd r :
  build_record index total url vd = Some r -> Index r = index + total.
Proof.
  unfold build_record.
  destruct (format_duration _ _); [|discriminate].
  destruct (int_or_zero _ (statistics_viewCount vd)); [|discriminate].
  destruct (int_or_zero _ (statistics_commentCount vd)); [|discriminate].
  destruct (strptime_published _); [|discriminate].
  intros E. injection E as <-. reflexivity.
Qed.

Lemma build_record_convertible index total url vd :
  convertible vd = true ->
  exists r, build_record index total url vd = Some r.
Proof.
  unfold SearchSpec.convertible, Youtube_search.build_record.
  destruct (format_duration _ _); [|discriminate].
  destruct (int_or_zero _ (statistics_viewCount vd)); [|discriminate].
  destruct (int_or_zero _ (statistics_commentCount vd)); [|discriminate].
  destruct (strptime_published _); [|discriminate].
  intros _. eexists. reflexivity.
Qed.

(** What the loop over one page adds: one record per enriched hit, in
    order, numbered with the position of the hit plus the offset. *)
Lemma enrich_items_Some items :
  forall index total acc log acc' log',
  enrich_items index items total acc log = Some (acc', log') ->
  exists new,
    acc' = acc ++ new
    /\ map Index new = map (fun i => i + total) (kept_positions index items).
Proof.
  induction items as [|h rest IH]; intros index total acc log acc' log' E;
    simpl in E.
  - injection E as <- <-. exists []. now rewrite app_nil_r.
  - unfold enriched. simpl kept_positions. unfold enriched.
    destruct (details h) as [e|[|vd more]].
    + apply IH in E. exact E.
    + apply IH in E. exact E.
    + destruct (build_record index total _ vd) as [r|] eqn:B; [|discriminate].
      apply IH in E as (new & -> & Hnew).
      exists (r :: new). split; [now rewrite <- app_assoc|].
      simpl. rewrite Hnew. f_equal. eapply build_record_Index; eauto.
Qed.

(** With well-formed answers no exception leaves the loop. *)
Lemma enrich_items_well_formed items :
  forall index total acc log,
  forallb well_formed items = true ->
  exists acc' log', enrich_items index items total acc log = Some (acc', log').
Proof.
  induction items as [|h rest IH]; intros index total acc log W; simpl in *.
  - eauto.
  - apply andb_true_iff in W as [Wh Wr]. unfold SearchSpec.well_formed in Wh.
    destruct (details h) as [e|[|vd more]]; try (apply IH; exact Wr).
    match goal with
    | |- context [Youtube_search.build_record _ _ _ index total ?u vd] =>
        destruct (build_record_convertible index total u vd Wh) as [r ->]
    end.
    apply IH; exact Wr.
Qed.

End EnrichFacts.

Section FetchFacts.

Variable parse_duration : string -> option timedelta.
Variable py_int : string -> option Z.
Variable strptime_ymd : string -> option string.
Variable strptime_published : string -> option string.
Variables (api_key search_query channel_id : string).
Variables (start_date end_date : option string).

#[local] Abbreviation enrich_items :=
  (enrich_items parse_duration py_int strptime_published).
#[local] Abbreviation well_formed :=
  (well_formed parse_duration py_int strptime_published).
#[local] Abbreviation fetch_loop :=
  (fetch_loop parse_duration py_int strptime_ymd strptime_published
     api_key search_query channel_id start_date end_date).
#[local] Abbreviation fetch_youtube_data :=
  (fetch_youtube_data parse_duration py_int strptime_ymd strptime_published
     api_key search_query channel_id start_date end_date).

(** One unfolding of the loop on a page that was received. *)
Lemma fetch_loop_page items token later st :
  fetch_loop (SearchOk items token :: later) st =
  match enrich_items 1 items (total_results_fetched st) (video_details st)
          (log_callback (log st) "검색 API를 호출하는 중입니다...") with
  | None =>
      (Raised,
       {| video_details := video_details st;
          total_results_fetched := total_results_fetched st;
          next_page_token := token;
          log := log_callback (log st) "검색 API를 호출하는 중입니다..." |})
  | Some (video_details', log') =>
      let st' :=
        {| video_details := video_details';
           total_results_fetched := total_results_fetched st + List.length items;
           next_page_token := token;
           log := log' |} in
      if negb (truthy token)
         || (200 <=? total_results_fetched st + List.length items)
      then (Returned, st')
      else fetch_loop later st'
  end.
Proof. reflexivity. Qed.

Lemma fetch_loop_error e later st :
  fst (fetch_loop (SearchError e :: later) st) = Returned
  /\ video_details (snd (fetch_loop (SearchError e :: later) st)) = video_details st
  /\ total_results_fetched (snd (fetch_loop (SearchError e :: later) st))
     = total_results_fetched st.
Proof. repeat split. Qed.

Lemma fetch_loop_nil st :
  fst (fetch_loop [] st) = AwaitingResponse
  /\ video_details (snd (fetch_loop [] st)) = video_details st
  /\ total_results_fetched (snd (fetch_loop [] st)) = total_results_fetched st.
Proof. repeat split. Qed.

(** The hit counter: below 200 whenever a page is requested, so at most
    249 once pages of at most 50 hits are added. *)
Lemma fetch_loop_total_bound responses :
  forall st,
  Forall (fun r => page_size r <= 50) responses ->
  total_results_fetched st < 200 ->
  total_results_fetched (snd (fetch_loop responses st)) <= 249.
Proof.
  induction responses as [|r later IH]; intros st Hp Hst.
  - simpl. lia.
  - inversion Hp as [|? ? Hr Hl]; subst. destruct r as [e|items token].
    + simpl. lia.
    + rewrite fetch_loop_page. simpl in Hr.
      destruct (enrich_items _ _ _ _ _) as [[vd' log']|]; [|simpl; lia].
      cbv zeta. destruct (negb (truthy token)); [simpl; lia|].
      rewrite Bool.orb_false_l. destruct (Nat.leb_spec 200 (total_results_fetched st + List.length items)).
      * simpl. lia.
      * apply IH; [exact Hl|simpl; lia].
Qed.

(** With full pages the counter moves in steps of 50 and stops at 200. *)
Lemma fetch_loop_total_full responses :
  forall st k,
  Forall (fun r => page_size r = 50 \/ page_size r = 0) responses ->
  total_results_fetched st = 50 * k -> k < 4 ->
  total_results_fetched (snd (fetch_loop responses st)) <= 200.
Proof.
  induction responses as [|r later IH]; intros st k Hp Hst Hk.
  - simpl. lia.
  - inversion Hp as [|? ? Hr Hl]; subst. destruct r as [e|items token].
    + simpl. lia.
    + rewrite fetch_loop_page. simpl in Hr.
      destruct (enrich_items _ _ _ _ _) as [[vd' log']|]; [|simpl; lia].
      cbv zeta. destruct (negb (truthy token)); [simpl; lia|].
      rewrite Bool.orb_false_l. destruct (Nat.leb_spec 200 (total_results_fetched st + List.length items)).
      * simpl. lia.
      * destruct Hr as [Hr|Hr].
        -- apply (IH _ (S k)); [exact Hl|simpl; lia|simpl in *; lia].
        -- apply (IH _ k); [exact Hl|simpl; lia|lia].
Qed.

(** No more records than hits. *)
Lemma fetch_loop_length responses :
  forall st,
  List.length (video_details st) <= total_results_fetched st ->
  List.length (video_details (snd (fetch_loop responses st)))
  <= total_results_fetched (snd (fetch_loop responses st)).
Proof.
  induction responses as [|r later IH]; intros st Hst.
  - exact Hst.
  - destruct r as [e|items token]; [exact Hst|].
    rewrite fetch_loop_page.
    destruct (enrich_items _ _ _ _ _) as [[vd' log']|] eqn:E; [|exact Hst].
    apply enrich_items_Some in E as (new & -> & Hnew).
    assert (Hlen : List.length new <= List.length items).
    { rewrite <- (length_map Index), Hnew, length_map, kept_positions_length.
      pose proof (count_partition items). lia. }
    cbv zeta. destruct (_ || _).
    + simpl. rewrite length_app. lia.
    + apply IH. simpl. rewrite length_app. lia.
Qed.

(** A page without a cursor ends the run: what would come after it is
    never asked for. *)
Lemma fetch_loop_stops before :
  forall st page after,
  lacks_cursor page = true ->
  fetch_loop (before ++ page :: after) st = fetch_loop (before ++ [page]) st
  /\ fst (fetch_loop (before ++ [page]) st) <> AwaitingResponse.
Proof.
  induction before as [|r before IH]; intros st page after Hc.
  - rewrite !app_nil_l. destruct page as [e|items token]; [discriminate|].
    simpl in Hc. rewrite !fetch_loop_page.
    destruct (enrich_items _ _ _ _ _) as [[vd' log']|]; [|split; [reflexivity|discriminate]].
    cbv zeta. rewrite Hc. simpl. split; [reflexivity|discriminate].
  - rewrite <- !app_comm_cons. destruct r as [e|items token].
    + split; [reflexivity|discriminate].
    + rewrite !fetch_loop_page.
      destruct (enrich_items _ _ _ _ _) as [[vd' log']|]; [|split; [reflexivity|discriminate]].
      cbv zeta. destruct (_ || _); [split; [reflexivity|discriminate]|].
      apply IH. exact Hc.
Qed.

(** The column of numbers of a run that did not raise. *)
Lemma fetch_loop_index_column responses :
  forall st,
  fst (fetch_loop responses st) <> Raised ->
  map Index (video_details (snd (fetch_loop responses st)))
  = map Index (video_details st)
      ++ spec_index_column responses (total_results_fetched st).
Proof.
  induction responses as [|r later IH]; intros st Hs.
  - simpl. now rewrite app_nil_r.
  - destruct r as [e|items token]; [simpl; now rewrite app_nil_r|].
    rewrite fetch_loop_page in *. simpl spec_index_column.
    destruct (enrich_items _ _ _ _ _) as [[vd' log']|] eqn:E;
      [|now elim Hs].
    apply enrich_items_Some in E as (new & -> & Hnew).
    cbv zeta in *. destruct (_ || _).
    + simpl. now rewrite map_app, Hnew.
    + rewrite IH by exact Hs. simpl. now rewrite map_app, Hnew, app_assoc.
Qed.

(** The numbers increase strictly and lie between 1 and the hit counter. *)
Lemma fetch_loop_sorted responses :
  forall st,
  StronglySorted lt (map Index (video_details st)) ->
  Forall (fun i => 1 <= i <= total_results_fetched st)
    (map Index (video_details st)) ->
  StronglySorted lt (map Index (video_details (snd (fetch_loop responses st))))
  /\ Forall (fun i => 1 <= i <= total_results_fetched (snd (fetch_loop responses st)))
       (map Index (video_details (snd (fetch_loop responses st)))).
Proof.
  induction responses as [|r later IH]; intros st S B.
  - split; assumption.
  - destruct r as [e|items token]; [split; assumption|].
    rewrite fetch_loop_page.
    destruct (enrich_items _ _ _ _ _) as [[vd' log']|] eqn:E;
      [|split; assumption].
    apply enrich_items_Some in E as (new & -> & Hnew).
    assert (Bnew : Forall (fun i => total_results_fetched st < i
                            <= total_results_fetched st + List.length items)
                     (map Index new)).
    { rewrite Hnew. apply Forall_map.
      eapply Forall_impl; [|apply (kept_positions_bounds 1 items)].
      simpl. intros; lia. }
    assert (S' : StronglySorted lt (map Index (video_details st ++ new))).
    { rewrite map_app. apply StronglySorted_app_lt.
      - exact S.
      - rewrite Hnew. apply StronglySorted_map_add, kept_positions_sorted.
      - intros x y Hx Hy.
        rewrite Forall_forall in B, Bnew.
        specialize (B x Hx). specialize (Bnew y Hy). lia. }
    assert (B' : Forall (fun i => 1 <= i
                          <= total_results_fetched st + List.length items)
                   (map Index (video_details st ++ new))).
    { rewrite map_app. apply Forall_app. split.
      - eapply Forall_impl; [|exact B]. simpl. intros; lia.
      - eapply Forall_impl; [|exact Bnew]. simpl. intros; lia. }
    cbv zeta. destruct (_ || _); [split; assumption|].
    apply IH; assumption.
Qed.

(** When every hit is enriched the numbers are 1, 2, ... without a gap. *)
Lemma fetch_loop_gap_free responses :
  forall st,
  Forall (fun r => forallb enriched (page_hits r) = true
                   /\ forallb well_formed (page_hits r) = true) responses ->
  map Index (video_details st) = seq 1 (total_results_fetched st) ->
  fst (fetch_loop responses st) <> Raised
  /\ map Index (video_details (snd (fetch_loop responses st)))
     = seq 1 (total_results_fetched (snd (fetch_loop responses st))).
Proof.
  induction responses as [|r later IH]; intros st Hp Hst.
  - split; [discriminate|exact Hst].
  - inversion Hp as [|? ? [Hr Hw] Hl]; subst.
    destruct r as [e|items token]; [split; [discriminate|exact Hst]|].
    rewrite fetch_loop_page. simpl in Hr, Hw.
    destruct (enrich_items_well_formed parse_duration py_int strptime_published
                items 1 (total_results_fetched st) (video_details st)
                (log_callback (log st) "검색 API를 호출하는 중입니다...") Hw)
      as (vd' & log' & E).
    rewrite E. apply enrich_items_Some in E as (new & -> & Hnew).
    assert (H' : map Index (video_details st ++ new)
                 = seq 1 (total_results_fetched st + List.length items)).
    { rewrite map_app, Hnew, Hst, seq_app. f_equal.
      rewrite kept_positions_all by exact Hr.
      rewrite map_add_seq. reflexivity. }
    cbv zeta. destruct (_ || _); [split; [discriminate|exact H']|].
    apply IH; assumption.
Qed.

(** C3 (as the code has it).  Whatever the answers, as long as no page
    carries more than 50 hits: the hit counter never exceeds 249 (a further
    page is requested only while it is below 200) and the result never has
    more records than hits were counted; when every page carries exactly 50
    hits the counter never exceeds 200; and a page without a continuation
    cursor ends the run, the answers after it are never requested. *)
Theorem search_paginator_bound (responses : list search_response) :
  Forall (fun r => page_size r <= 50) responses ->
  let st := snd (fetch_youtube_data responses) in
  total_results_fetched st <= 249
  /\ List.length (video_details st) <= total_results_fetched st
  /\ (Forall (fun r => page_size r = 50) responses ->
      total_results_fetched st <= 200)
  /\ (forall before page after,
        responses = before ++ page :: after ->
        lacks_cursor page = true ->
        fetch_youtube_data responses = fetch_youtube_data (before ++ [page])
        /\ fst (fetch_youtube_data (before ++ [page])) <> AwaitingResponse).
Proof.
  intros Hp. cbv zeta. unfold Youtube_search.fetch_youtube_data.
  split; [|split; [|split]].
  - apply fetch_loop_total_bound; [exact Hp|simpl; lia].
  - apply fetch_loop_length. simpl. lia.
  - intros Hfull. apply (fetch_loop_total_full responses _ 0).
    + eapply Forall_impl; [|exact Hfull]. simpl. intros r Hr. now left.
    + reflexivity.
    + lia.
  - intros before page after -> Hc. now apply fetch_loop_stops.
Qed.

(** C7 (as the code has it).  Over the hits of a page whose answers
    convert without error, no exception leaves the loop, and it adds
    exactly one record for every hit whose detail request succeeded with a
    result item: with N hits, M transport failures and E answers without
    an item that is N - M - E records (N - M when no answer is empty).
    Failing and empty hits are skipped one by one: the records carry the
    numbers of all the remaining hits, also of those after a failure. *)
Theorem detail_enricher_counts (items : list hit)
    (index total : nat) (acc : list video_record) (log : list string) :
  forallb well_formed items = true ->
  let N := List.length items in
  let M := List.length (filter transport_failure items) in
  let E := List.length (filter empty_answer items) in
  exists new log',
    enrich_items index items total acc log = Some (acc ++ new, log')
    /\ List.length new = N - M - E
    /\ (E = 0 -> List.length new = N - M)
    /\ map Index new = map (fun i => i + total) (kept_positions index items)
    /\ fst (fetch_youtube_data [SearchOk items None]) = Returned
    /\ List.length (video_details (snd (fetch_youtube_data [SearchOk items None])))
       = N - M - E.
Proof.
  intros W. cbv zeta.
  destruct (enrich_items_well_formed parse_duration py_int strptime_published
              items index total acc log W) as (acc' & log' & E).
  pose proof E as E0.
  apply enrich_items_Some in E0 as (new & -> & Hnew).
  assert (Hlen : forall l : list video_record,
             map Index l = map (fun i => i + total) (kept_positions index items) ->
             List.length l
             = List.length items - List.length (filter transport_failure items)
               - List.length (filter empty_answer items)).
  { intros l Hl. rewrite <- (length_map Index), Hl, length_map,
      kept_positions_length.
    pose proof (count_partition items). lia. }
  exists new, log'. split; [exact E|]. split; [now apply Hlen|].
  split; [intros E0; rewrite (Hlen new Hnew); lia|]. split; [exact Hnew|].
  unfold Youtube_search.fetch_youtube_data. rewrite fetch_loop_page.
  match goal with
  | |- context [Youtube_search.enrich_items _ _ _ 1 items ?t ?a ?l] =>
      destruct (enrich_items_well_formed parse_duration py_int
                  strptime_published items 1 t a l W) as (acc1 & log1 & E1)
  end.
  rewrite E1. apply enrich_items_Some in E1 as (new1 & -> & Hnew1).
  cbv zeta. simpl. split; [reflexivity|].
  rewrite <- (length_map Index), Hnew1, length_map.
  rewrite kept_positions_length. pose proof (count_partition items). lia.
Qed.

(** C8 (as the code has it).  In a run that was not left by an exception,
    the numbers of the records are those the specification describes: the
    1-based position of the hit within its page plus the number of hits of
    all earlier pages.  The column increases strictly, so no number occurs
    twice; every number lies between 1 and the number of hits counted; and
    when no hit is skipped the column is 1, 2, ..., without a gap, up to
    the number of hits.  (A skipped hit keeps its number, which then
    appears in no record.) *)
Theorem index_numbering (responses : list search_response) :
  fst (fetch_youtube_data responses) <> Raised ->
  let st := snd (fetch_youtube_data responses) in
  let column := map Index (video_details st) in
  column = spec_index_column responses 0
  /\ StronglySorted lt column
  /\ NoDup column
  /\ Forall (fun i => 1 <= i <= total_results_fetched st) column
  /\ (Forall (fun r => forallb enriched (page_hits r) = true
                       /\ forallb well_formed (page_hits r) = true) responses ->
      column = seq 1 (total_results_fetched st)).
Proof.
  intros Hs. cbv zeta. unfold Youtube_search.fetch_youtube_data in *.
  match goal with
  | |- context [Youtube_search.fetch_loop _ _ _ _ _ _ _ _ _ responses ?s] =>
      set (st0 := s) in *
  end.
  assert (S0 : StronglySorted lt (map Index (video_details st0)))
    by constructor.
  assert (B0 : Forall (fun i => 1 <= i <= total_results_fetched st0)
                 (map Index (video_details st0))) by constructor.
  destruct (fetch_loop_sorted responses st0 S0 B0) as [S B].
  split; [|split; [exact S|split; [|split; [exact B|]]]].
  - now rewrite fetch_loop_index_column.
  - clear - S. induction S as [|a l S IH Ha]; constructor; [|exact IH].
    intro Hin. rewrite Forall_forall in Ha. specialize (Ha a Hin). lia.
  - intros Hall. now apply fetch_loop_gap_free.
Qed.

End FetchFacts.

(** C3 (as stated) fails: five pages of 49 hits each, every one with a
    cursor.  After four pages 196 hits are counted, which is below 200, so
    a fifth page is requested and the run returns 245 records. *)
Lemma search_paginator_exceeds_200 :
  Forall (fun r => page_size r <= 50) (repeat page49 5)
  /\ fst (example_fetch (repeat page49 5)) = Returned
  /\ total_results_fetched (snd (example_fetch (repeat page49 5))) = 245
  /\ List.length (video_details (snd (example_fetch (repeat page49 5)))) = 245
  /\ ~ (245 <= 200).
Proof.
  split; [repeat constructor; simpl; lia|].
  split; [vm_compute; reflexivity|].
  split; [vm_compute; reflexivity|].
  split; [vm_compute; reflexivity|lia].
Qed.

(** The bound is reached: after 50, 50, 50 and 49 hits the counter is at
    199, below 200, and a further page of 50 brings it to 249. *)
Example search_paginator_bound_reached :
  total_results_fetched
    (snd (example_fetch [page50; page50; page50; page49; page50; page50]))
  = 249.
Proof. vm_compute. reflexivity. Qed.

Lemma search_paginator_bound_witness :
  let responses := [page50; page50; last_page10; page50] in
  Forall (fun r => page_size r <= 50) responses
  /\ total_results_fetched (snd (example_fetch responses)) <= 249
  /\ example_fetch responses = example_fetch [page50; page50; last_page10].
Proof.
  cbv zeta.
  assert (Hp : Forall (fun r => page_size r <= 50)
                 [page50; page50; last_page10; page50])
    by (repeat constructor; simpl; lia).
  split; [exact Hp|].
  pose proof (search_paginator_bound example_parse_duration example_int
                example_strptime example_strptime "KEY"%string "music"%string
                ""%string None None _ Hp) as (Hb & _ & _ & Hstop).
  split; [exact Hb|].
  exact (proj1 (Hstop [page50; page50] last_page10 [page50] eq_refl eq_refl)).
Defined.

(** C7 (as stated) fails: of three hits one suffers a transport failure
    and one is answered without a result item; N - M is 2, yet the run
    returns a single record. *)
Lemma detail_enricher_empty_answer :
  let items := [hit_ok; hit_empty; hit_failed] in
  let N := List.length items in
  let M := List.length (filter transport_failure items) in
  fst (example_fetch [SearchOk items None]) = Returned
  /\ List.length (video_details (snd (example_fetch [SearchOk items None]))) = 1
  /\ N - M = 2.
Proof. cbv zeta. repeat split. Qed.

Lemma detail_enricher_counts_witness :
  let items := [hit_ok; hit_failed; hit_empty; hit_ok] in
  forallb (well_formed example_parse_duration example_int example_strptime)
    items = true
  /\ exists new log',
       enrich_items example_parse_duration example_int example_strptime
         1 items 0 [] [] = Some ([] ++ new, log')
       /\ List.length new = 2
       /\ map Index new = [1; 4].
Proof.
  cbv zeta. split; [reflexivity|].
  destruct (detail_enricher_counts example_parse_duration example_int
              example_strptime example_strptime "KEY"%string "music"%string
              ""%string None None
              [hit_ok; hit_failed; hit_empty; hit_ok] 1 0 [] [] eq_refl)
    as (new & log' & E & Hlen & _ & Hidx & _).
  exists new, log'. split; [exact E|]. split; [exact Hlen|exact Hidx].
Defined.

(** C8 (as stated) fails: the detail request of the second of three hits
    fails, the hit is skipped, and the records carry the numbers 1 and 3:
    the column has a gap at 2. *)
Lemma index_numbering_gap :
  fst (example_fetch [SearchOk [hit_ok; hit_failed; hit_ok] None]) = Returned
  /\ map Index
       (video_details
          (snd (example_fetch [SearchOk [hit_ok; hit_failed; hit_ok] None])))
     = [1; 3].
Proof. split; reflexivity. Qed.

(** Two full pages: the first yields the numbers 1 to 50, the second 51
    to 100. *)
Lemma index_numbering_witness :
  fst (example_fetch [page50; page50]) <> Raised
  /\ map Index (video_details (snd (example_fetch [page50])))
     = seq 1 50
  /\ map Index (video_details (snd (example_fetch [page50; page50])))
     = seq 1 50 ++ seq 51 50.
Proof.
  assert (H1 : fst (example_fetch [page50]) <> Raised)
    by (vm_compute; discriminate).
  assert (H2 : fst (example_fetch [page50; page50]) <> Raised)
    by (vm_compute; discriminate).
  split; [exact H2|].
  pose proof (index_numbering example_parse_duration example_int
                example_strptime example_strptime "KEY"%string "music"%string
                ""%string None None [page50] H1) as (E1 & _).
  pose proof (index_numbering example_parse_duration example_int
                example_strptime example_strptime "KEY"%string "music"%string
                ""%string None None [page50; page50] H2) as (E2 & _).
  split.
  - etransitivity; [exact E1|]. vm_compute. reflexivity.
  - etransitivity; [exact E2|]. vm_compute. reflexivity.
Defined.

End SearchFacts.

(* ===================================================================== *)
(** * Identifier Extractor *)
(* ===================================================================== *)

Module ExtractFacts.
Import Py PyStr excel_summarizer ExtractSpec.

Lemma all_chars_has_char p d s :
  all_chars p s = true -> has_char d s = true -> p d = true.
Proof.
  induction s as [|c s IH]; simpl; [discriminate|].
  intros A H. apply andb_true_iff in A as [Ac As].
  apply orb_true_iff in H as [H|H]; [|now apply IH].
  apply Ascii.eqb_eq in H. now subst.
Qed.

(** A character outside the identifier class does not occur in an
    identifier. *)
Lemma id_lacks d s :
  is_id_char d = false -> all_chars is_id_char s = true -> has_char d s = false.
Proof.
  intros Hd A. destruct (has_char d s) eqn:H; [|reflexivity].
  rewrite (all_chars_has_char _ _ _ A H) in Hd. discriminate.
Qed.

Lemma starts_with_has_char d sub s :
  starts_with sub s = true -> has_char d sub = true -> has_char d s = true.
Proof.
  revert s. induction sub as [|a sub IH]; intros s; simpl; [discriminate|].
  destruct s as [|b s]; [discriminate|]. simpl.
  intros S H. apply andb_true_iff in S as [Sab Ss].
  apply Ascii.eqb_eq in Sab. subst b.
  apply orb_true_iff in H as [H|H]; [now rewrite H|].
  rewrite (IH s Ss H). apply orb_true_r.
Qed.

Lemma contains_has_char d sub s :
  contains sub s = true -> has_char d sub = true -> has_char d s = true.
Proof.
  induction s as [|c s IH]; simpl; intros C H.
  - rewrite orb_false_r in C. destruct sub; [discriminate H|discriminate C].
  - apply orb_true_iff in C as [C|C].
    + exact (starts_with_has_char d sub (String c s) C H).
    + rewrite (IH C H). apply orb_true_r.
Qed.

(** A text with a character that [s] lacks does not occur in [s]. *)
Lemma contains_lacking d sub s :
  has_char d sub = true -> has_char d s = false -> contains sub s = false.
Proof.
  intros Hsub Hs. destruct (contains sub s) eqn:C; [|reflexivity].
  rewrite (contains_has_char d sub s C Hsub) in Hs. discriminate.
Qed.

Lemma take_while_all p s : all_chars p s = true -> take_while p s = s.
Proof.
  induction s as [|c s IH]; simpl; [reflexivity|].
  intros A. apply andb_true_iff in A as [-> As]. now rewrite IH.
Qed.

Lemma replace_char_lacking a b s :
  has_char a s = false -> replace_char a b s = s.
Proof.
  induction s as [|c s IH]; simpl; [reflexivity|].
  intros H. apply orb_false_iff in H as [Hc Hs].
  rewrite Ascii.eqb_sym, Hc. now rewrite IH.
Qed.

Lemma split_lacking sep s : has_char sep s = false -> split sep s = [s].
Proof.
  induction s as [|c s IH]; simpl; [reflexivity|].
  intros H. apply orb_false_iff in H as [Hc Hs].
  rewrite Ascii.eqb_sym, Hc. now rewrite IH.
Qed.

Lemma split_once_lacking sep s :
  has_char sep s = false -> split_once sep s = None.
Proof.
  induction s as [|c s IH]; simpl; [reflexivity|].
  intros H. apply orb_false_iff in H as [Hc Hs].
  rewrite Ascii.eqb_sym, Hc. now rewrite IH.
Qed.

Lemma split_not_nil sep s : split sep s <> [].
Proof.
  destruct s as [|c s]; simpl; [discriminate|].
  destruct (c =? sep)%char; [discriminate|].
  destruct (split sep s); discriminate.
Qed.

(** [(p + sep + t).split(sep) == p.split(sep) + t.split(sep)] *)
Lemma split_app sep p t :
  split sep (p ++ String sep t) = (split sep p ++ split sep t)%list.
Proof.
  induction p as [|c p IH]; simpl.
  - now rewrite Ascii.eqb_refl.
  - destruct (c =? sep)%char; [now rewrite IH|].
    rewrite IH. pose proof (split_not_nil sep p) as N.
    destruct (split sep p) as [|h tl]; [congruence|reflexivity].
Qed.

Lemma last_split sep p t :
  has_char sep t = false ->
  last (split sep (p ++ String sep t)) EmptyString = t.
Proof.
  intros H. rewrite split_app, (split_lacking sep t H). apply last_last.
Qed.

Lemma re_search_shorts_lacking s :
  has_char "/" s = false -> re_search_shorts s = None.
Proof.
  induction s as [|c s IH]; intros H; [reflexivity|].
  assert (M : match_shorts_here (String c s) = None).
  { unfold match_shorts_here.
    destruct (starts_with "shorts/" (String c s)) eqn:S; [|reflexivity].
    rewrite (starts_with_has_char "/" _ _ S eq_refl) in H. discriminate. }
  simpl in H. apply orb_false_iff in H as [_ Hs].
  change (re_search_shorts (String c s))
    with (match match_shorts_here (String c s) with
          | Some g => Some g
          | None => re_search_shorts s
          end).
  rewrite M. now apply IH.
Qed.

Lemma eqb_empty s : (s =? "")%string = false <-> s <> EmptyString.
Proof. apply String.eqb_neq. Qed.

End ExtractFacts.

Module UrlFacts.
Import Py PyFacts PyStr excel_summarizer ExtractSpec ExtractFacts.

Lemma all_chars_impl (p q : ascii -> bool) s :
  (forall c, p c = true -> q c = true) ->
  all_chars p s = true -> all_chars q s = true.
Proof.
  intros Hpq. induction s as [|c s IH]; simpl; [reflexivity|].
  intros A. apply andb_true_iff in A as [Ac As].
  now rewrite (Hpq c Ac), IH.
Qed.

Lemma lacks (p : ascii -> bool) d s :
  p d = false -> all_chars p s = true -> has_char d s = false.
Proof.
  intros Hd A. destruct (has_char d s) eqn:H; [|reflexivity].
  rewrite (all_chars_has_char _ _ _ A H) in Hd. discriminate.
Qed.

Lemma has_char_app c a b : has_char c (a ++ b) = has_char c a || has_char c b.
Proof.
  induction a as [|d a IH]; simpl; [reflexivity|].
  now rewrite IH, orb_assoc.
Qed.

Lemma remove_chars_kept q s :
  all_chars (fun c => negb (q c)) s = true -> remove_chars q s = s.
Proof.
  induction s as [|c s IH]; simpl; [reflexivity|].
  intros A. apply andb_true_iff in A as [Ac As].
  apply negb_true_iff in Ac. now rewrite Ac, IH.
Qed.

Lemma split_once_app sep a b :
  has_char sep a = false -> split_once sep (a ++ String sep b) = Some (a, b).
Proof.
  induction a as [|c a IH]; simpl.
  - now rewrite Ascii.eqb_refl.
  - intros H. apply orb_false_iff in H as [Hc Ha].
    rewrite Ascii.eqb_sym, Hc. now rewrite IH.
Qed.

Lemma take_while_app_stop p a c b :
  all_chars p a = true -> p c = false -> take_while p (a ++ String c b) = a.
Proof.
  intros A Hc. induction a as [|d a IH]; simpl in *; [now rewrite Hc|].
  apply andb_true_iff in A as [-> Aa]. now rewrite IH.
Qed.

Lemma drop_while_app_stop p a c b :
  all_chars p a = true -> p c = false ->
  drop_while p (a ++ String c b) = String c b.
Proof.
  intros A Hc. induction a as [|d a IH]; simpl in *; [now rewrite Hc|].
  apply andb_true_iff in A as [-> Aa]. now apply IH.
Qed.

(** A fact about every character, checked on all 256 of them. *)
Ltac by_char_cases c :=
  destruct c as [[] [] [] [] [] [] [] []]; vm_compute;
  first [discriminate | intros _; repeat split].


Lemma scheme_char_facts c :
  is_scheme_char c = true ->
  negb (is_unsafe c) = true /\ (c =? ":")%char = false.
Proof. by_char_cases c. Qed.

Lemma alpha_not_space c : is_alpha c = true -> is_c0_or_space c = false.
Proof. by_char_cases c. Qed.

Lemma netloc_char_facts c :
  netloc_char c = true ->
  negb (is_unsafe c) = true /\ negb (is_netloc_end c) = true
  /\ is_ascii c = true.
Proof. by_char_cases c. Qed.

Lemma path_char_facts c : path_char c = true -> negb (is_unsafe c) = true.
Proof. by_char_cases c. Qed.

Lemma query_char_facts c : query_char c = true -> negb (is_unsafe c) = true.
Proof. by_char_cases c. Qed.

Lemma id_char_facts c :
  is_id_char c = true -> query_char c = true /\ path_char c = true.
Proof. by_char_cases c. Qed.

Section UrlparseFacts.

Variable netloc_valid : string -> bool.

(** [urlparse] on [scheme://netloc/path?query]. *)
Lemma urlparse_query_url (c0 : ascii) (scheme netloc path query : string) :
  is_alpha c0 = true ->
  all_chars is_scheme_char (String c0 scheme) = true ->
  all_chars netloc_char netloc = true ->
  all_chars path_char path = true ->
  all_chars query_char query = true ->
  urlparse_query netloc_valid
    (String c0 scheme ++ "://" ++ netloc ++ "/" ++ path ++ "?" ++ query)
  = Return query.
Proof.
  intros Hc0 Hs Hn Hp Hq.
  set (tail := netloc ++ "/" ++ path ++ "?" ++ query).
  assert (Ut : all_chars (fun c => negb (is_unsafe c)) tail = true).
  { unfold tail. rewrite !all_chars_app. simpl all_chars.
    rewrite (all_chars_impl _ _ _ (fun c H => proj1 (netloc_char_facts c H)) Hn).
    rewrite (all_chars_impl _ _ _ path_char_facts Hp).
    rewrite (all_chars_impl _ _ _ query_char_facts Hq). reflexivity. }
  assert (Us : all_chars (fun c => negb (is_unsafe c)) (String c0 scheme) = true)
    by exact (all_chars_impl _ _ _ (fun c H => proj1 (scheme_char_facts c H)) Hs).
  unfold urlparse_query.
  (* nothing is stripped or removed *)
  change (String c0 scheme ++ "://" ++ tail)
    with (String c0 (scheme ++ "://" ++ tail)).
  cbn [drop_while]. rewrite (alpha_not_space c0 Hc0).
  change (String c0 (scheme ++ "://" ++ tail))
    with (String c0 scheme ++ String ":" ("//" ++ tail)).
  rewrite remove_chars_kept
    by (rewrite all_chars_app, Us; simpl all_chars; now rewrite Ut).
  (* the scheme is cut off *)
  unfold strip_scheme.
  rewrite split_once_app
    by (apply (lacks is_scheme_char); [reflexivity|exact Hs]).
  rewrite Hc0, Hs. cbn [andb].
  (* the network location is cut off *)
  change (starts_with "//" ("//" ++ tail)) with true. cbv iota.
  change (drop 2 ("//" ++ tail)) with tail. unfold tail.
  assert (Ne : all_chars (fun c => negb (is_netloc_end c)) netloc = true)
    by exact (all_chars_impl _ _ _
                (fun c H => proj1 (proj2 (netloc_char_facts c H))) Hn).
  change (netloc ++ "/" ++ path ++ "?" ++ query)
    with (netloc ++ String "/" (path ++ "?" ++ query)).
  rewrite (take_while_app_stop _ netloc "/" _ Ne eq_refl).
  rewrite (drop_while_app_stop _ netloc "/" _ Ne eq_refl).
  rewrite (lacks netloc_char "[" netloc eq_refl Hn).
  rewrite (lacks netloc_char "]" netloc eq_refl Hn).
  rewrite (all_chars_impl _ _ _
             (fun c H => proj2 (proj2 (netloc_char_facts c H))) Hn).
  cbn [andb orb negb].
  (* no fragment; the query follows the first question mark *)
  assert (Hp' : has_char "#" (String "/" path) = false).
  { simpl. apply (lacks path_char); [reflexivity|exact Hp]. }
  rewrite (split_once_lacking "#").
  2:{ change (String "/" (path ++ "?" ++ query))
        with (String "/" path ++ String "?" query).
      rewrite has_char_app, Hp'. simpl.
      apply (lacks query_char); [reflexivity|exact Hq]. }
  change (String "/" (path ++ "?" ++ query))
    with (String "/" path ++ String "?" query).
  rewrite split_once_app; [reflexivity|].
  simpl. apply (lacks path_char); [reflexivity|exact Hp].
Qed.

End UrlparseFacts.

Section ParseQsFacts.

Variable percent_decode : string -> string.

(** The query [v=ID] has the single field [v] with value [ID]. *)
Lemma parse_qsl_v id :
  video_identifier id ->
  parse_qsl percent_decode ("v=" ++ id) = [("v", id)].
Proof.
  intros [Hne Hid]. unfold parse_qsl.
  rewrite split_lacking
    by (simpl; apply id_lacks; [reflexivity|exact Hid]).
  cbn [flat_map].
  change ("v=" ++ id) with ("v" ++ String "=" id).
  rewrite split_once_app by reflexivity.
  apply eqb_empty in Hne. rewrite Hne.
  rewrite (replace_char_lacking "+" " " id)
    by (apply id_lacks; [reflexivity|exact Hid]).
  unfold unquote.
  rewrite (id_lacks "%" id eq_refl Hid). reflexivity.
Qed.

End ParseQsFacts.

End UrlFacts.

Module ExtractorTheorems.
Import Py PyFacts PyStr excel_summarizer ExtractSpec ExtractFacts UrlFacts.

Lemma starts_with_app a b s :
  starts_with (a ++ b) s = true -> starts_with a s = true.
Proof.
  revert s. induction a as [|c a IH]; intros s; simpl; [reflexivity|].
  destruct s as [|d s]; [discriminate|].
  intros H. apply andb_true_iff in H as [-> H]. now apply IH.
Qed.

Lemma contains_starts_with sub s :
  starts_with sub s = true -> contains sub s = true.
Proof. intros H. destruct s; simpl in *; now rewrite H. Qed.

Lemma contains_tail sub c s :
  contains sub s = true -> contains sub (String c s) = true.
Proof. intros H. simpl. rewrite H. apply orb_true_r. Qed.

Lemma re_search_shorts_unfold s :
  re_search_shorts s =
  match match_shorts_here s with
  | Some group => Some group
  | None =>
      match s with
      | EmptyString => None
      | String _ s' => re_search_shorts s'
      end
  end.
Proof. destruct s; reflexivity. Qed.

(** A match of the pattern needs the word [shorts]. *)
Lemma re_search_shorts_contains s g :
  re_search_shorts s = Some g -> contains "shorts" s = true.
Proof.
  induction s as [|c s IH]; rewrite re_search_shorts_unfold;
    unfold match_shorts_here.
  - simpl. discriminate.
  - destruct (starts_with "shorts/" (String c s)) eqn:S.
    + intros _. apply contains_starts_with.
      exact (starts_with_app "shorts" "/" _ S).
    + intros H. apply contains_tail. now apply IH.
Qed.

Lemma re_search_shorts_nonempty s g :
  re_search_shorts s = Some g -> (s =? "")%string = false.
Proof. destruct s; [discriminate|reflexivity]. Qed.

Lemma contains_nonempty sub c s :
  contains (String c sub) s = true -> (s =? "")%string = false.
Proof. destruct s; [discriminate|reflexivity]. Qed.

Section Extractor.

Variable netloc_valid : string -> bool.
Variable percent_decode : string -> string.

#[local] Abbreviation extract_video_id_try :=
  (extract_video_id_try netloc_valid percent_decode).
#[local] Abbreviation extract_video_id :=
  (extract_video_id netloc_valid percent_decode).

(** The shorts pattern is tried first. *)
Lemma extract_shorts_first url g :
  re_search_shorts url = Some g ->
  extract_video_id_try (PyStr url) = Return (Some g).
Proof.
  intros R. unfold excel_summarizer.extract_video_id_try. cbn [truth].
  rewrite (re_search_shorts_nonempty url g R). cbn [negb].
  now rewrite (re_search_shorts_contains url g R), R.
Qed.

(** Without a shorts match the short domain is tried next. *)
Lemma extract_short_domain url :
  re_search_shorts url = None ->
  contains "youtu.be" url = true ->
  extract_video_id_try (PyStr url)
  = Return (Some (hd EmptyString
                    (split "?" (last (split "/" url) EmptyString)))).
Proof.
  intros R C. unfold excel_summarizer.extract_video_id_try. cbn [truth].
  rewrite (contains_nonempty _ _ url C). cbn [negb].
  rewrite R, C. now destruct (contains "shorts" url).
Qed.

(** Without either, the canonical domain is tried. *)
Lemma extract_canonical url :
  re_search_shorts url = None ->
  contains "youtu.be" url = false ->
  contains "youtube.com" url = true ->
  extract_video_id_try (PyStr url)
  = match urlparse_query netloc_valid url with
    | Raise e => Raise e
    | Return query =>
        if (query =? "")%string then Return None
        else Return (first_value "v" (parse_qsl percent_decode query))
    end.
Proof.
  intros R C1 C2. unfold excel_summarizer.extract_video_id_try. cbn [truth].
  rewrite (contains_nonempty _ _ url C2). cbn [negb].
  rewrite R, C1, C2.
  destruct (contains "shorts" url);
    destruct (urlparse_query netloc_valid url) as [q|e]; try reflexivity;
    now destruct (q =? "")%string.
Qed.

(** No pattern: the result is [None]. *)
Lemma extract_unrecognized url :
  re_search_shorts url = None ->
  contains "youtu.be" url = false ->
  contains "youtube.com" url = false ->
  extract_video_id_try (PyStr url) = Return None.
Proof.
  intros R C1 C2. unfold excel_summarizer.extract_video_id_try. cbn [truth].
  rewrite R, C1, C2.
  destruct (negb (url =? "")%string); [|reflexivity].
  now destruct (contains "shorts" url).
Qed.

Lemma extract_try_return v r :
  extract_video_id_try v = Return r -> extract_video_id v = Return r.
Proof. unfold excel_summarizer.extract_video_id. now intros ->. Qed.

(** [https://www.youtube.com/watch?v=VIDEO_ID] *)
Lemma extract_watch_url id :
  video_identifier id ->
  extract_video_id_try (PyStr ("https://www.youtube.com/watch?v=" ++ id))
  = Return (Some id).
Proof.
  intros Hv. pose proof Hv as [Hne Hid].
  set (url := "https://www.youtube.com/watch?v=" ++ id).
  assert (R : re_search_shorts url = None).
  { subst url. cbn.
    apply re_search_shorts_lacking, id_lacks; [reflexivity|exact Hid]. }
  assert (C1 : contains "youtu.be" url = false).
  { subst url. cbn. apply (contains_lacking "."); [reflexivity|].
    apply id_lacks; [reflexivity|exact Hid]. }
  assert (C2 : contains "youtube.com" url = true) by reflexivity.
  assert (Q : urlparse_query netloc_valid url = Return ("v=" ++ id)).
  { apply (urlparse_query_url netloc_valid "h" "ttps" "www.youtube.com"
             "watch" ("v=" ++ id)); try reflexivity.
    rewrite all_chars_app.
    now rewrite (all_chars_impl _ _ _
                   (fun c H => proj1 (id_char_facts c H)) Hid). }
  rewrite (extract_canonical url R C1 C2), Q.
  change (("v=" ++ id =? "")%string) with false. cbv iota.
  now rewrite (parse_qsl_v percent_decode id Hv).
Qed.

(** [https://youtu.be/VIDEO_ID] *)
Lemma extract_short_link id :
  video_identifier id ->
  extract_video_id_try (PyStr ("https://youtu.be/" ++ id)) = Return (Some id).
Proof.
  intros [Hne Hid].
  set (url := "https://youtu.be/" ++ id).
  assert (R : re_search_shorts url = None).
  { subst url. cbn.
    apply re_search_shorts_lacking, id_lacks; [reflexivity|exact Hid]. }
  assert (C : contains "youtu.be" url = true) by reflexivity.
  rewrite (extract_short_domain url R C). unfold url.
  change ("https://youtu.be/" ++ id) with ("https://youtu.be" ++ String "/" id).
  rewrite (last_split "/" "https://youtu.be" id)
    by (apply id_lacks; [reflexivity|exact Hid]).
  now rewrite (split_lacking "?" id)
    by (apply id_lacks; [reflexivity|exact Hid]).
Qed.

(** [https://youtube.com/shorts/VIDEO_ID] *)
Lemma extract_shorts_url id :
  video_identifier id ->
  extract_video_id_try (PyStr ("https://youtube.com/shorts/" ++ id))
  = Return (Some id).
Proof.
  intros [Hne Hid]. apply extract_shorts_first.
  cbn -[take_while]. rewrite (take_while_all _ id Hid).
  apply eqb_empty in Hne. now rewrite Hne.
Qed.

(** Whatever the cell holds, the function returns. *)
Lemma extract_video_id_returns v : exists r, extract_video_id v = Return r.
Proof.
  unfold excel_summarizer.extract_video_id.
  destruct (extract_video_id_try v) as [r|e]; eauto.
Qed.

(** For an identifier [id] (not empty; letters, digits, [_], [-]) the
    three URL shapes of the docstring, with nothing after the identifier,
    give back exactly [id].  The shapes
    are tried in the order shorts, short domain, canonical domain, the
    first that applies deciding: a match of the shorts pattern is returned
    whatever else the string contains; otherwise a string with the short
    domain gives its last path segment up to the query; otherwise a string
    with the canonical domain gives the first [v] parameter of its query
    ([None] when [urlparse] raises, the query is empty or has no [v]).  A
    string with none of the patterns gives [None], and for every value at
    all the function returns instead of raising. *)
Lemma identifier_extractor (id : string) :
  video_identifier id ->
  extract_video_id (PyStr ("https://www.youtube.com/watch?v=" ++ id))
    = Return (Some id)
  /\ extract_video_id (PyStr ("https://youtu.be/" ++ id)) = Return (Some id)
  /\ extract_video_id (PyStr ("https://youtube.com/shorts/" ++ id))
     = Return (Some id)
  /\ (forall url g,
        re_search_shorts url = Some g ->
        extract_video_id (PyStr url) = Return (Some g))
  /\ (forall url,
        re_search_shorts url = None ->
        contains "youtu.be" url = true ->
        extract_video_id (PyStr url)
        = Return (Some (hd EmptyString
                          (split "?" (last (split "/" url) EmptyString)))))
  /\ (forall url,
        re_search_shorts url = None ->
        contains "youtu.be" url = false ->
        contains "youtube.com" url = true ->
        extract_video_id (PyStr url)
        = match urlparse_query netloc_valid url with
          | Raise _ => Return None
          | Return query =>
              if (query =? "")%string then Return None
              else Return (first_value "v" (parse_qsl percent_decode query))
          end)
  /\ (forall url,
        re_search_shorts url = None ->
        contains "youtu.be" url = false ->
        contains "youtube.com" url = false ->
        extract_video_id (PyStr url) = Return None)
  /\ (forall v, exists r, extract_video_id v = Return r).
Proof.
  intros Hv. repeat split.
  - apply extract_try_return, extract_watch_url, Hv.
  - apply extract_try_return, extract_short_link, Hv.
  - apply extract_try_return, extract_shorts_url, Hv.
  - intros url g R. now apply extract_try_return, extract_shorts_first.
  - intros url R C. now apply extract_try_return, extract_short_domain.
  - intros url R C1 C2. unfold excel_summarizer.extract_video_id.
    rewrite (extract_canonical url R C1 C2).
    destruct (urlparse_query netloc_valid url) as [q|e]; [|reflexivity].
    now destruct (q =? "")%string.
  - intros url R C1 C2. now apply extract_try_return, extract_unrecognized.
  - apply extract_video_id_returns.
Qed.

Lemma contains_append sub p t :
  contains sub t = true -> contains sub (p ++ t) = true.
Proof.
  intros H. induction p as [|c p IH]; [exact H|].
  cbn [append]. now apply contains_tail.
Qed.

(** C6.  A canonical watch URL is not always answered with its
    identifier.  When a further parameter carries the text [youtu.be], as
    the [feature=youtu.be] of a shared link does, the test for the short
    domain, which looks for the text anywhere in the string and comes
    before the test for the canonical domain, takes the URL for a short
    link: what is returned is the last path segment up to the question
    mark, the word [watch], whatever the identifier is. *)
Theorem watch_url_taken_for_short_link (id parameters : string) :
  video_identifier id ->
  has_char "/" parameters = false ->
  contains "youtu.be" parameters = true ->
  let url := "https://www.youtube.com/watch?v=" ++ id ++ "&" ++ parameters in
  extract_video_id (PyStr url) = Return (Some "watch")
  /\ (id <> "watch" -> extract_video_id (PyStr url) <> Return (Some id)).
Proof.
  intros [Hne Hid] Hslash Hdomain url.
  assert (L : has_char "/" ("watch?v=" ++ id ++ "&" ++ parameters) = false).
  { cbn. change (id ++ "&" ++ parameters) with (id ++ String "&" parameters).
    rewrite has_char_app, (id_lacks "/" id eq_refl Hid). cbn.
    exact Hslash. }
  assert (R : re_search_shorts url = None).
  { subst url. cbn. apply re_search_shorts_lacking.
    cbn in L. exact L. }
  assert (C : contains "youtu.be" url = true).
  { subst url.
    apply (contains_append _ "https://www.youtube.com/watch?v="),
      (contains_append _ id), (contains_append _ "&"). exact Hdomain. }
  assert (E : extract_video_id (PyStr url) = Return (Some "watch")).
  { apply extract_try_return. rewrite (extract_short_domain url R C).
    unfold url.
    change ("https://www.youtube.com/watch?v=" ++ id ++ "&" ++ parameters)
      with ("https://www.youtube.com"
              ++ String "/" ("watch?v=" ++ id ++ "&" ++ parameters)).
    rewrite (last_split "/" "https://www.youtube.com" _ L).
    change ("watch?v=" ++ id ++ "&" ++ parameters)
      with ("watch" ++ String "?" ("v=" ++ id ++ "&" ++ parameters)).
    rewrite split_app. reflexivity. }
  split; [exact E|].
  intros N. rewrite E. intros H. injection H as H. now apply N.
Qed.

End Extractor.


Lemma watch_url_taken_for_short_link_witness :
  video_identifier "dQw4w9WgXcQ"
  /\ has_char "/" "feature=youtu.be" = false
  /\ contains "youtu.be" "feature=youtu.be" = true
  /\ example_extract
       (PyStr "https://www.youtube.com/watch?v=dQw4w9WgXcQ&feature=youtu.be")
     = Return (Some "watch")
  /\ example_extract
       (PyStr "https://www.youtube.com/watch?v=dQw4w9WgXcQ&feature=youtu.be")
     <> Return (Some "dQw4w9WgXcQ").
Proof.
  assert (H : video_identifier "dQw4w9WgXcQ")
    by (split; [discriminate|reflexivity]).
  split; [exact H|]. split; [reflexivity|]. split; [reflexivity|].
  destruct (watch_url_taken_for_short_link (fun _ => true) (fun s => s)
              "dQw4w9WgXcQ" "feature=youtu.be" H eq_refl eq_refl) as [E N].
  split; [exact E|]. apply N. discriminate.
Defined.

Lemma identifier_extractor_examples :
  video_identifier "dQw4w9WgXcQ"
  /\ example_extract (PyStr "https://www.youtube.com/watch?v=dQw4w9WgXcQ")
     = Return (Some "dQw4w9WgXcQ")
  /\ example_extract (PyStr "https://youtu.be/dQw4w9WgXcQ")
     = Return (Some "dQw4w9WgXcQ")
  /\ example_extract (PyStr "https://youtube.com/shorts/dQw4w9WgXcQ")
     = Return (Some "dQw4w9WgXcQ").
Proof.
  assert (H : video_identifier "dQw4w9WgXcQ")
    by (split; [discriminate|reflexivity]).
  split; [exact H|].
  destruct (identifier_extractor (fun _ => true) (fun s => s)
              "dQw4w9WgXcQ" H) as (W & L & S & _).
  split; [exact W|]. split; [exact L|exact S].
Defined.

(** The order of the patterns on strings that carry several of them, and
    strings that are not references. *)
Example extract_video_id_examples :
  example_extract (PyStr "https://youtu.be/AAAAAAAAAAA?feature=shorts/BBB")
    = Return (Some "BBB")
  /\ example_extract (PyStr "https://youtu.be/watch?v=youtube.com")
     = Return (Some "watch")
  /\ example_extract
       (PyStr "https://www.youtube.com/watch?list=PL1&v=dQw4w9WgXcQ&t=10#top")
     = Return (Some "dQw4w9WgXcQ")
  /\ example_extract (PyStr "https://www.youtube.com/watch") = Return None
  /\ example_extract (PyStr "http://[youtube.com/watch?v=abc") = Return None
  /\ example_extract (PyStr "https://example.com/video/1") = Return None
  /\ example_extract (PyStr "not a url") = Return None.
Proof. repeat split; reflexivity. Qed.

End ExtractorTheorems.

(* ===================================================================== *)
(** * Transcript Resolver, Summarizer and Batch Orchestrator *)
(* ===================================================================== *)

Module SummarizerFacts.
Import PyStr excel_summarizer SummarizerSpec.

#[local] Open Scope nat_scope.
#[local] Open Scope list_scope.

Section Facts.

Context {W : Type} (svc : services W).

Lemma load_api_keys_set w tr :
  keys_set svc w ->
  exists openai youtube,
    os_getenv svc "YOUTUBE_API_KEY" w = Some youtube
    /\ load_api_keys svc {| world := w; trace := tr |}
       = (Return (openai, youtube), {| world := w; trace := tr |}).
Proof.
  intros [Ho Hy]. unfold load_api_keys. cbn [world].
  destruct (os_getenv svc "OPENAI_API_KEY" w) as [o|]; [|discriminate].
  destruct (os_getenv svc "YOUTUBE_API_KEY" w) as [y|]; [|discriminate].
  exists o, y. split; [reflexivity|]. now rewrite Ho, Hy.
Qed.

(** The state is untouched by [load_api_keys]. *)
Lemma load_api_keys_state s :
  snd (load_api_keys svc s) = s.
Proof.
  unfold load_api_keys.
  destruct (os_getenv svc "OPENAI_API_KEY" (world s));
    destruct (os_getenv svc "YOUTUBE_API_KEY" (world s));
    try reflexivity.
  destruct (_ ++ _); reflexivity.
Qed.

(** One attempt of the title lookup makes at most one request. *)
Lemma title_attempt_trace video_id s :
  let s' := snd (title_attempt svc video_id s) in
  trace s' = trace s
  \/ exists url, trace s' = trace s ++ [http_get_call url].
Proof.
  cbv zeta. unfold title_attempt, bind.
  pose proof (load_api_keys_state s) as L.
  destruct (load_api_keys svc s) as [[[o y]|e] s0]; simpl in L; subst s0;
    [|now left].
  right. eexists. unfold call.
  destruct (http_get svc _ (world s)) as [[e|status json] w1]; cbn;
    [reflexivity|].
  destruct (status =? 200)%nat; [|reflexivity].
  unfold lift, bind. destruct json as [[|[t|] more]|e]; reflexivity.
Qed.



Ltac count_sleeps :=
  rewrite ?filter_app; cbn [filter is_sleep]; rewrite ?length_app;
  cbn [List.length]; lia.

(** The title lookup returns a string, after at most two delays. *)
Lemma get_video_title_async_returns video_id s :
  exists title s',
    get_video_title_async svc video_id s = (Return (Some title), s')
    /\ List.length (filter is_sleep (trace s'))
       <= List.length (filter is_sleep (trace s)) + 2.
Proof.
  unfold get_video_title_async. cbn [seq max_retries title_loop].
  unfold try_except at 1. unfold bind at 1.
  pose proof (title_attempt_trace video_id s) as T0. cbv zeta in T0.
  destruct (title_attempt svc video_id s) as [[t|e] s1]; cbn [snd] in T0.
  { exists t, s1. split; [reflexivity|].
    destruct T0 as [->|[u ->]]; count_sleeps. }
  cbn [Nat.ltb Nat.leb Nat.sub max_retries]. unfold bind at 1, emit at 1.
  cbn [world trace].
  set (s1' := {| world := world s1; trace := trace s1 ++ [sleep_call retry_delay] |}).
  unfold try_except at 1. unfold bind at 1.
  pose proof (title_attempt_trace video_id s1') as T1. cbv zeta in T1.
  destruct (title_attempt svc video_id s1') as [[t|e1] s2]; cbn [snd] in T1.
  { exists t, s2. split; [reflexivity|]. subst s1'. cbn [trace] in T1.
    destruct T0 as [E0|[u0 E0]]; destruct T1 as [E1|[u1 E1]];
      rewrite E1, ?E0; count_sleeps. }
  cbn [Nat.ltb Nat.leb Nat.sub max_retries]. unfold bind at 1, emit at 1.
  cbn [world trace].
  set (s2' := {| world := world s2; trace := trace s2 ++ [sleep_call retry_delay] |}).
  unfold try_except at 1. unfold bind at 1.
  pose proof (title_attempt_trace video_id s2') as T2. cbv zeta in T2.
  destruct (title_attempt svc video_id s2') as [[t|e2] s3]; cbn [snd] in T2.
  { exists t, s3. split; [reflexivity|]. subst s1' s2'. cbn [trace] in T1, T2.
    destruct T0 as [E0|[u0 E0]]; destruct T1 as [E1|[u1 E1]];
      destruct T2 as [E2|[u2 E2]];
      rewrite E2, ?E1, ?E0; count_sleeps. }
  cbn [Nat.ltb Nat.leb Nat.sub max_retries]. unfold ret.
  exists ("제목 가져오기 실패: " ++ str_exn e2)%string, s3.
  split; [reflexivity|]. subst s1' s2'. cbn [trace] in T1, T2.
  destruct T0 as [E0|[u0 E0]]; destruct T1 as [E1|[u1 E1]];
    destruct T2 as [E2|[u2 E2]];
    rewrite E2, ?E1, ?E0; count_sleeps.
Qed.

(** ** The summary *)

#[local] Abbreviation summarize := (summarize svc).

Ltac run_summary :=
  unfold get_video_summary_async, fetch_transcript, try_except, bind, call,
    ret, raise, lift, start;
  cbn [world trace app fst snd].


Lemma summary_ko_at video_id s transcript w1 :
  get_transcript svc video_id "ko" (world s) = (Return transcript, w1) ->
  get_video_summary_async svc video_id s
  = summarize transcript
      {| world := w1;
         trace := trace s ++ [get_transcript_call video_id "ko"] |}.
Proof.
  intros H. unfold SummarizerSpec.summarize. run_summary. rewrite H. reflexivity.
Qed.

Lemma summary_en_at video_id s m w1 transcript w2 :
  get_transcript svc video_id "ko" (world s)
  = (Raise (NoTranscriptFound m), w1) ->
  get_transcript svc video_id "en" w1 = (Return transcript, w2) ->
  get_video_summary_async svc video_id s
  = summarize transcript
      {| world := w2;
         trace := (trace s ++ [get_transcript_call video_id "ko"])
                    ++ [get_transcript_call video_id "en"] |}.
Proof.
  intros H1 H2. unfold SummarizerSpec.summarize. run_summary. rewrite H1. cbn [world trace app].
  rewrite H2. reflexivity.
Qed.

Lemma summary_ko video_id w transcript w1 :
  get_transcript svc video_id "ko" w = (Return transcript, w1) ->
  get_video_summary_async svc video_id (start w)
  = summarize transcript
      {| world := w1; trace := [get_transcript_call video_id "ko"] |}.
Proof. intros H. exact (summary_ko_at video_id (start w) _ _ H). Qed.

Lemma summary_en video_id w m w1 transcript w2 :
  get_transcript svc video_id "ko" w = (Raise (NoTranscriptFound m), w1) ->
  get_transcript svc video_id "en" w1 = (Return transcript, w2) ->
  get_video_summary_async svc video_id (start w)
  = summarize transcript
      {| world := w2;
         trace := [get_transcript_call video_id "ko";
                   get_transcript_call video_id "en"] |}.
Proof. intros H1 H2. exact (summary_en_at video_id (start w) _ _ _ _ H1 H2). Qed.

(** [summarize] returns, makes one completion request at most, with the
    transcript it was given, and never sleeps. *)
Lemma summarize_trace transcript s :
  exists out s',
    summarize transcript s = (Return out, s')
    /\ (trace s' = trace s
        \/ trace s' = trace s
             ++ [chat_completion_call
                   (user_content (String.concat " " transcript))]).
Proof.
  unfold SummarizerSpec.summarize, try_except, bind, call, ret.
  pose proof (load_api_keys_state s) as L.
  destruct (load_api_keys svc s) as [[k|e] s0]; simpl in L; subst s0.
  - destruct (chat_completions_create svc _ _ (world s)) as [[c|e] w1].
    + do 2 eexists. split; [reflexivity|]. now right.
    + destruct e; do 2 eexists; (split; [reflexivity|]); now right.
  - destruct e; do 2 eexists; (split; [reflexivity|]); now left.
Qed.

(** From any state the summary returns. *)
Lemma get_video_summary_async_total video_id s :
  exists out s', get_video_summary_async svc video_id s = (Return out, s').
Proof.
  destruct (get_transcript svc video_id "ko" (world s)) as [[t|e] w1] eqn:K.
  - rewrite (summary_ko_at _ _ _ _ K).
    destruct (summarize_trace t
                {| world := w1;
                   trace := trace s ++ [get_transcript_call video_id "ko"] |})
      as (out & s' & E & _).
    eauto.
  - destruct e as [m|m|m].
    + destruct (get_transcript svc video_id "en" w1) as [[t|e] w2] eqn:E.
      * rewrite (summary_en_at _ _ _ _ _ _ K E).
        destruct (summarize_trace t
                    {| world := w2;
                       trace := (trace s ++ [get_transcript_call video_id "ko"])
                                  ++ [get_transcript_call video_id "en"] |})
          as (out & s' & E' & _).
        eauto.
      * run_summary. rewrite K. cbn [world trace app]. rewrite E.
        destruct e; eauto.
    + run_summary. rewrite K. eauto.
    + run_summary. rewrite K. eauto.
Qed.

Lemma summarize_completion transcript w tr content w1 :
  keys_set svc w ->
  chat_completions_create svc system_content
    (user_content (String.concat " " transcript)) w = (Return content, w1) ->
  summarize transcript {| world := w; trace := tr |}
  = (Return (String.concat " " transcript, content),
     {| world := w1;
        trace := tr ++ [chat_completion_call
                          (user_content (String.concat " " transcript))] |}).
Proof.
  intros K H. destruct (load_api_keys_set w tr K) as (o & y & _ & L).
  unfold SummarizerSpec.summarize, try_except, bind, call, ret. rewrite L.
  cbn [world trace]. now rewrite H.
Qed.

Lemma summarize_failure transcript w tr e w1 :
  keys_set svc w ->
  chat_completions_create svc system_content
    (user_content (String.concat " " transcript)) w
  = (Raise (Exception e), w1) ->
  summarize transcript {| world := w; trace := tr |}
  = (Return (EmptyString, ("오류가 발생했습니다: " ++ e)%string),
     {| world := w1;
        trace := tr ++ [chat_completion_call
                          (user_content (String.concat " " transcript))] |}).
Proof.
  intros K H. destruct (load_api_keys_set w tr K) as (o & y & _ & L).
  unfold SummarizerSpec.summarize, try_except, bind, call, ret. rewrite L.
  cbn [world trace]. now rewrite H.
Qed.


#[local] Abbreviation ko_call v := (get_transcript_call v "ko").
#[local] Abbreviation en_call v := (get_transcript_call v "en").

(** C4.  The summary of a video starts with the request for the Korean
    transcript.  When that succeeds the English one is never requested and
    the Korean text is what is summarised.  When Korean is not found and
    English is, the English text is summarised.  When neither is found the
    result is the message that no captions exist, and when the source has
    transcripts disabled, whichever language was being asked for, the
    result is the message that they are disabled. *)
Theorem transcript_resolver (video_id : string) (w : W) :
  let run := get_video_summary_async svc video_id (start w) in
  (exists tail, trace (snd run) = ko_call video_id :: tail)
  /\ (forall t w1,
        get_transcript svc video_id "ko" w = (Return t, w1) ->
        ~ In (en_call video_id) (trace (snd run))
        /\ (forall c, In (chat_completion_call c) (trace (snd run)) ->
                      c = user_content (String.concat " " t))
        /\ (forall content w2,
              keys_set svc w1 ->
              chat_completions_create svc system_content
                (user_content (String.concat " " t)) w1
              = (Return content, w2) ->
              run = (Return (String.concat " " t, content),
                     {| world := w2;
                        trace := [ko_call video_id;
                                  chat_completion_call
                                    (user_content (String.concat " " t))] |})))
  /\ (forall m w1 t w2,
        get_transcript svc video_id "ko" w = (Raise (NoTranscriptFound m), w1) ->
        get_transcript svc video_id "en" w1 = (Return t, w2) ->
        (exists tail,
            trace (snd run) = ko_call video_id :: en_call video_id :: tail)
        /\ (forall c, In (chat_completion_call c) (trace (snd run)) ->
                      c = user_content (String.concat " " t))
        /\ (forall content w3,
              keys_set svc w2 ->
              chat_completions_create svc system_content
                (user_content (String.concat " " t)) w2
              = (Return content, w3) ->
              run = (Return (String.concat " " t, content),
                     {| world := w3;
                        trace := [ko_call video_id; en_call video_id;
                                  chat_completion_call
                                    (user_content (String.concat " " t))] |})))
  /\ (forall m w1 m' w2,
        get_transcript svc video_id "ko" w = (Raise (NoTranscriptFound m), w1) ->
        get_transcript svc video_id "en" w1 = (Raise (NoTranscriptFound m'), w2) ->
        run = (Return (EmptyString,
                       "이 비디오에 대한 자막을 찾을 수 없습니다."%string),
               {| world := w2;
                  trace := [ko_call video_id; en_call video_id] |}))
  /\ (forall m w1,
        get_transcript svc video_id "ko" w = (Raise (TranscriptsDisabled m), w1) ->
        run = (Return (EmptyString, "스크립트가 비활성화되어 있습니다."%string),
               {| world := w1; trace := [ko_call video_id] |}))
  /\ (forall m w1 m' w2,
        get_transcript svc video_id "ko" w = (Raise (NoTranscriptFound m), w1) ->
        get_transcript svc video_id "en" w1
        = (Raise (TranscriptsDisabled m'), w2) ->
        run = (Return (EmptyString, "스크립트가 비활성화되어 있습니다."%string),
               {| world := w2;
                  trace := [ko_call video_id; en_call video_id] |})).
Proof.
  cbv zeta. split; [|split; [|split; [|split; [|split]]]].
  - destruct (get_transcript svc video_id "ko" w) as [[t|e] w1] eqn:K.
    + rewrite (summary_ko _ _ _ _ K).
      destruct (summarize_trace t
                  {| world := w1; trace := [ko_call video_id] |})
        as (out & s' & -> & [T|T]); cbn [snd]; rewrite T; eexists;
        reflexivity.
    + destruct e as [m|m|m].
      * destruct (get_transcript svc video_id "en" w1) as [[t|e] w2] eqn:E.
        -- rewrite (summary_en _ _ _ _ _ _ K E).
           destruct (summarize_trace t
                       {| world := w2;
                          trace := [ko_call video_id; en_call video_id] |})
             as (out & s' & -> & [T|T]); cbn [snd]; rewrite T; eexists;
             reflexivity.
        -- run_summary. rewrite K. cbn [world trace app]. rewrite E.
           destruct e; eexists; reflexivity.
      * run_summary. rewrite K. eexists; reflexivity.
      * run_summary. rewrite K. eexists; reflexivity.
  - intros t w1 K. rewrite (summary_ko _ _ _ _ K).
    split; [|split].
    + destruct (summarize_trace t
                  {| world := w1; trace := [ko_call video_id] |})
        as (out & s' & -> & [T|T]); cbn [snd]; rewrite T; cbn;
        intros H; intuition discriminate.
    + destruct (summarize_trace t
                  {| world := w1; trace := [ko_call video_id] |})
        as (out & s' & -> & [T|T]); cbn [snd]; rewrite T; cbn;
        intros c H; intuition (try discriminate); congruence.
    + intros content w2 Ks C. now apply summarize_completion.
  - intros m w1 t w2 K E. rewrite (summary_en _ _ _ _ _ _ K E).
    split; [|split].
    + destruct (summarize_trace t
                  {| world := w2;
                     trace := [ko_call video_id; en_call video_id] |})
        as (out & s' & -> & [T|T]); cbn [snd]; rewrite T; eexists;
        reflexivity.
    + destruct (summarize_trace t
                  {| world := w2;
                     trace := [ko_call video_id; en_call video_id] |})
        as (out & s' & -> & [T|T]); cbn [snd]; rewrite T; cbn;
        intros c H; intuition (try discriminate); congruence.
    + intros content w3 Ks C. now apply summarize_completion.
  - intros m w1 m' w2 K E. run_summary. rewrite K. cbn [world trace app].
    now rewrite E.
  - intros m w1 K. run_summary. now rewrite K.
  - intros m w1 m' w2 K E. run_summary. rewrite K. cbn [world trace app].
    now rewrite E.
Qed.

Lemma summarize_raise transcript w tr e w1 :
  keys_set svc w ->
  chat_completions_create svc system_content
    (user_content (String.concat " " transcript)) w = (Raise e, w1) ->
  summarize transcript {| world := w; trace := tr |}
  = (Return (EmptyString, summary_diagnostic e),
     {| world := w1;
        trace := tr ++ [chat_completion_call
                          (user_content (String.concat " " transcript))] |}).
Proof.
  intros K H. destruct (load_api_keys_set w tr K) as (o & y & _ & L).
  unfold SummarizerSpec.summarize, try_except, bind, call, ret. rewrite L.
  cbn [world trace]. rewrite H. destruct e; reflexivity.
Qed.









End Facts.

Section BatchFacts.

Context {W : Type} (svc : services W).
Variable netloc_valid : string -> bool.
Variable percent_decode : string -> string.
Variable format_cell : pyvalue -> string.

#[local] Abbreviation extract_video_id :=
  (extract_video_id netloc_valid percent_decode).
#[local] Abbreviation not_extracted :=
  (not_extracted netloc_valid percent_decode).
#[local] Abbreviation process_rows :=
  (process_rows svc netloc_valid percent_decode format_cell).

(** One turn of the loop while the flag is set: one row is added, for the
    cell of the row; it is the flagged row, added without any call of a
    service, when no identifier was extracted. *)
Lemma process_rows_cons total_rows index url rest results s :
  processing_at svc index = true ->
  exists row s1,
    process_rows total_rows index (url :: rest) results s
    = process_rows total_rows (S index) rest (results ++ [row]) s1
    /\ row_url row = url
    /\ (not_extracted url -> row = flagged_row url /\ world s1 = world s).
Proof.
  intros F. cbn [excel_summarizer.process_rows]. rewrite F. cbn [negb].
  unfold bind at 1. unfold lift at 1.
  destruct (ExtractorTheorems.extract_video_id_returns netloc_valid
              percent_decode url) as [r E].
  rewrite E. unfold bind at 1, emit at 1. unfold bind at 1, emit at 1.
  cbn [world trace].
  destruct r as [[|c id]|].
  - unfold bind at 1, emit at 1. cbn [world trace].
    do 2 eexists. split; [reflexivity|]. split; [reflexivity|].
    intros _. split; reflexivity.
  - unfold bind at 1, emit at 1. cbn [world trace]. unfold bind at 1.
    match goal with
    | |- context [get_video_title_async svc ?v ?st] =>
        destruct (get_video_title_async_returns svc v st)
          as (t & s2 & Et & _)
    end.
    rewrite Et. unfold bind at 1.
    destruct (get_video_summary_async_total svc (String c id) s2)
      as (out & s3 & Es).
    rewrite Es.
    do 2 eexists. split; [reflexivity|]. split; [reflexivity|].
    unfold SummarizerSpec.not_extracted. rewrite E. intros [H|H]; discriminate.
  - unfold bind at 1, emit at 1. cbn [world trace].
    do 2 eexists. split; [reflexivity|]. split; [reflexivity|].
    intros _. split; reflexivity.
Qed.



(** C10.  For a cell that holds [None], the empty string or anything
    that is not a string, [extract_video_id] returns [None]; when the
    truth test of the value does not raise, it is the guard at the head of
    the function that returns it, no exception being raised at all.  In
    the batch such a cell gives the flagged row, without any service
    being called, and the loop goes on with the next row. *)
Theorem non_string_cells (url : pyvalue) :
  url = PyNone \/ url = PyStr EmptyString \/ ExtractSpec.is_str url = false ->
  extract_video_id url = Return None
  /\ ((forall e, truth url <> Raise e) ->
      extract_video_id_try netloc_valid percent_decode url = Return None)
  /\ (forall total_rows index rest results s,
        processing_at svc index = true ->
        exists s1,
          process_rows total_rows index (url :: rest) results s
          = process_rows total_rows (S index) rest
              (results ++ [flagged_row url]) s1
          /\ world s1 = world s).
Proof.
  intros H.
  assert (T : extract_video_id_try netloc_valid percent_decode url = Return None
              \/ exists e, truth url = Raise e
                           /\ extract_video_id_try netloc_valid percent_decode url
                              = Raise e).
  { destruct H as [->|[->|H]]; [now left|now left|].
    destruct url as [|s|b|z|f|[b|]]; try discriminate H;
      unfold extract_video_id_try; cbn [truth].
    - now left.
    - destruct b; now left.
    - destruct (negb (z =? 0)%Z); now left.
    - destruct f as [|n|m e]; try now left.
      destruct (negb (m =? 0)%Z); now left.
    - destruct b; now left.
    - right. eexists. split; reflexivity. }
  assert (E : extract_video_id url = Return None).
  { unfold excel_summarizer.extract_video_id.
    destruct T as [->|(e & _ & ->)]; reflexivity. }
  split; [exact E|]. split.
  - intros Hr. destruct T as [T|(e & Ht & _)]; [exact T|].
    now elim (Hr e).
  - intros total_rows index rest results s F.
    destruct (process_rows_cons total_rows index url rest results s F)
      as (row & s1 & Es & _ & Hf).
    destruct (Hf (or_introl E)) as [-> Hw].
    exists s1. split; [exact Es|exact Hw].
Qed.

End BatchFacts.

End SummarizerFacts.

Module SummarizerExamples.
Import PyStr excel_summarizer SummarizerSpec SummarizerFacts.

#[local] Open Scope nat_scope.
#[local] Open Scope list_scope.




Lemma transcript_resolver_witness :
  get_video_summary_async english_only "dQw4w9WgXcQ" (start fresh)
  = (Return ("hello"%string, "a summary"%string),
     {| world := {| http_calls := 0; chat_calls := 1 |};
        trace := [get_transcript_call "dQw4w9WgXcQ" "ko";
                  get_transcript_call "dQw4w9WgXcQ" "en";
                  chat_completion_call (user_content "hello")] |}).
Proof.
  destruct (transcript_resolver english_only "dQw4w9WgXcQ" fresh)
    as (_ & _ & H & _).
  destruct (H "no ko"%string fresh ["hello"%string] fresh eq_refl eq_refl)
    as (_ & _ & R).
  exact (R "a summary"%string {| http_calls := 0; chat_calls := 1 |}
           (conj eq_refl eq_refl) eq_refl).
Defined.

Lemma non_string_cells_witness :
  ExtractSpec.is_str (PyFloat NaN) = false
  /\ extract_video_id (fun _ => true) (fun s => s) (PyFloat NaN) = Return None
  /\ extract_video_id_try (fun _ => true) (fun s => s) (PyFloat NaN)
     = Return None.
Proof.
  split; [reflexivity|].
  destruct (non_string_cells english_only (fun _ => true) (fun s => s)
              example_format_cell (PyFloat NaN) (or_intror (or_intror eq_refl)))
    as (E & G & _).
  split; [exact E|]. apply G. intros e. discriminate.
Defined.

End SummarizerExamples.

(* ===================================================================== *)
(** * Further properties of the search *)
(* ===================================================================== *)

Module SearchMore.
Import Youtube_search SearchSpec SearchFacts SearchMoreSpec.

#[local] Open Scope nat_scope.
#[local] Open Scope list_scope.

Section FetchMore.

Variable parse_duration : string -> option timedelta.
Variable py_int : string -> option Z.
Variable strptime_ymd : string -> option string.
Variable strptime_published : string -> option string.
Variables (api_key search_query channel_id : string).
Variables (start_date end_date : option string).

#[local] Abbreviation enrich_items :=
  (enrich_items parse_duration py_int strptime_published).
#[local] Abbreviation fetch_loop :=
  (fetch_loop parse_duration py_int strptime_ymd strptime_published
     api_key search_query channel_id start_date end_date).
#[local] Abbreviation fetch_youtube_data :=
  (fetch_youtube_data parse_duration py_int strptime_ymd strptime_published
     api_key search_query channel_id start_date end_date).
#[local] Abbreviation fetch_loop_page :=
  (fetch_loop_page parse_duration py_int strptime_ymd strptime_published
     api_key search_query channel_id start_date end_date).

(** A run that waits for an answer goes on with the answers that come. *)
Lemma fetch_loop_awaiting_app before :
  forall st later,
  fst (fetch_loop before st) = AwaitingResponse ->
  exists st',
    fetch_loop (before ++ later) st = fetch_loop later st'
    /\ video_details st' = video_details (snd (fetch_loop before st))
    /\ total_results_fetched st'
       = total_results_fetched (snd (fetch_loop before st))
    /\ log (snd (fetch_loop before st))
       = log_callback (log st') "검색 API를 호출하는 중입니다...".
Proof.
  induction before as [|r before IH]; intros st later H.
  - exists st. repeat split.
  - destruct r as [e|items token]; [discriminate H|].
    rewrite <- app_comm_cons.
    rewrite (fetch_loop_page items token (before ++ later)).
    rewrite (fetch_loop_page items token before) in *.
    destruct (enrich_items _ _ _ _ _) as [[vd' log']|]; [|discriminate H].
    cbv zeta in *. destruct (_ || _); [discriminate H|].
    now apply IH.
Qed.

(** X1.  When a search request fails after some pages
    were received, the run returns at once with the records gathered from
    the earlier pages, and the failure is the last line of the log. *)
Theorem search_failure_keeps_results (before after : list search_response)
    (e : string) :
  fst (fetch_youtube_data before) = AwaitingResponse ->
  let gathered := snd (fetch_youtube_data before) in
  let run := fetch_youtube_data (before ++ SearchError e :: after) in
  fst run = Returned
  /\ video_details (snd run) = video_details gathered
  /\ total_results_fetched (snd run) = total_results_fetched gathered
  /\ log (snd run)
     = log gathered
         ++ [("[에러] 검색 결과를 가져오지 못했습니다: " ++ e)%string].
Proof.
  intros H. cbv zeta. unfold Youtube_search.fetch_youtube_data in *.
  destruct (fetch_loop_awaiting_app before _ (SearchError e :: after) H)
    as (st' & E & Hv & Ht & Hl).
  rewrite E, Hl. repeat split; assumption.
Qed.

Lemma fetch_loop_ends responses :
  forall st,
  Forall brings_hits responses ->
  total_results_fetched st < 200 ->
  200 <= List.length responses + total_results_fetched st ->
  fst (fetch_loop responses st) <> AwaitingResponse.
Proof.
  induction responses as [|r later IH]; intros st Hp Hst Hlen.
  - simpl in Hlen. lia.
  - inversion Hp as [|? ? Hr Hl]; subst. destruct r as [e|items token];
      [discriminate|].
    rewrite fetch_loop_page.
    destruct (enrich_items _ _ _ _ _) as [[vd' log']|]; [|discriminate].
    cbv zeta. destruct (negb (truthy token)); [discriminate|].
    rewrite Bool.orb_false_l.
    destruct (Nat.leb_spec 200 (total_results_fetched st + List.length items));
      [discriminate|].
    apply IH; [exact Hl|simpl; lia|]. simpl in *.
    destruct items; [congruence|]. simpl. lia.
Qed.

(** X2.  When every page received carries at least one hit,
    the run is over after 200 answers at the latest: it never asks for a
    201st page. *)
Theorem fetch_ends_within_200_requests (responses : list search_response) :
  Forall brings_hits responses ->
  200 <= List.length responses ->
  fst (fetch_youtube_data responses) <> AwaitingResponse.
Proof.
  intros Hp Hlen. apply fetch_loop_ends; [exact Hp|simpl; lia|simpl; lia].
Qed.

Lemma fetch_loop_empty_pages responses :
  forall st,
  Forall empty_with_cursor responses ->
  total_results_fetched st < 200 ->
  fst (fetch_loop responses st) = AwaitingResponse
  /\ video_details (snd (fetch_loop responses st)) = video_details st
  /\ total_results_fetched (snd (fetch_loop responses st))
     = total_results_fetched st.
Proof.
  induction responses as [|r later IH]; intros st Hp Hst.
  - repeat split.
  - inversion Hp as [|? ? Hr Hl]; subst.
    destruct r as [e|[|h items] token]; try contradiction.
    simpl in Hr. rewrite fetch_loop_page. cbn [Youtube_search.enrich_items].
    cbv zeta. rewrite Hr. cbn [negb orb List.length].
    rewrite Nat.add_0_r.
    destruct (Nat.leb_spec 200 (total_results_fetched st)); [lia|].
    destruct (IH {| video_details := video_details st;
                    total_results_fetched := total_results_fetched st;
                    next_page_token := token;
                    log := log_callback (log st)
                             "검색 API를 호출하는 중입니다..." |} Hl Hst)
      as (A & B & C).
    repeat split; assumption.
Qed.

(** X3.  The loop has no bound on the number of requests:
    as long as the catalogue answers with empty pages that carry a cursor,
    the run asks for the next page, with nothing gathered. *)
Theorem fetch_empty_pages_never_end (responses : list search_response) :
  Forall empty_with_cursor responses ->
  fst (fetch_youtube_data responses) = AwaitingResponse
  /\ video_details (snd (fetch_youtube_data responses)) = []
  /\ total_results_fetched (snd (fetch_youtube_data responses)) = 0.
Proof.
  intros Hp. apply fetch_loop_empty_pages; [exact Hp|simpl; lia].
Qed.

End FetchMore.

Lemma search_failure_keeps_results_witness :
  fst (example_fetch [page50]) = AwaitingResponse
  /\ fst (example_fetch [page50; SearchError "timeout"; page50]) = Returned
  /\ List.length
       (video_details
          (snd (example_fetch [page50; SearchError "timeout"; page50])))
     = 50.
Proof.
  assert (H : fst (example_fetch [page50]) = AwaitingResponse)
    by (vm_compute; reflexivity).
  split; [exact H|].
  destruct (search_failure_keeps_results example_parse_duration example_int
              example_strptime example_strptime "KEY"%string "music"%string
              ""%string None None [page50] [page50] "timeout"%string H)
    as (S & V & _).
  split; [exact S|]. unfold example_fetch.
  change [page50; SearchError "timeout"%string; page50]
    with ([page50] ++ SearchError "timeout"%string :: [page50]).
  rewrite V. vm_compute. reflexivity.
Defined.

Lemma fetch_ends_within_200_requests_witness :
  Forall brings_hits (repeat (SearchOk [hit_ok] (Some "CURSOR"%string)) 200)
  /\ 200 <= List.length (repeat (SearchOk [hit_ok] (Some "CURSOR"%string)) 200)
  /\ fst (example_fetch (repeat (SearchOk [hit_ok] (Some "CURSOR"%string)) 200))
     <> AwaitingResponse.
Proof.
  assert (H : Forall brings_hits
                (repeat (SearchOk [hit_ok] (Some "CURSOR"%string)) 200)).
  { apply Forall_forall. intros r Hr. apply repeat_spec in Hr. subst r.
    simpl. discriminate. }
  assert (L : 200 <= List.length
                       (repeat (SearchOk [hit_ok] (Some "CURSOR"%string)) 200))
    by (rewrite repeat_length; lia).
  split; [exact H|]. split; [exact L|].
  exact (fetch_ends_within_200_requests example_parse_duration example_int
           example_strptime example_strptime "KEY"%string "music"%string
           ""%string None None _ H L).
Defined.

Lemma fetch_empty_pages_never_end_witness :
  Forall empty_with_cursor (repeat (SearchOk [] (Some "CURSOR"%string)) 1000)
  /\ fst (example_fetch (repeat (SearchOk [] (Some "CURSOR"%string)) 1000))
     = AwaitingResponse.
Proof.
  assert (H : Forall empty_with_cursor
                (repeat (SearchOk [] (Some "CURSOR"%string)) 1000)).
  { apply Forall_forall. intros r Hr. apply repeat_spec in Hr. subst r.
    reflexivity. }
  split; [exact H|].
  exact (proj1 (fetch_empty_pages_never_end example_parse_duration example_int
                  example_strptime example_strptime "KEY"%string
                  "music"%string ""%string None None _ H)).
Defined.

End SearchMore.

(* ===================================================================== *)
(** * From the search to the summarizer *)
(* ===================================================================== *)

Module SearchToSummarizer.
Import Py PyStr Youtube_search SearchSpec SearchFacts excel_summarizer
  ExtractSpec ExtractorTheorems.

#[local] Open Scope nat_scope.
#[local] Open Scope list_scope.

Section UrlsBack.

Variable parse_duration : string -> option timedelta.
Variable py_int : string -> option Z.
Variable strptime_ymd : string -> option string.
Variable strptime_published : string -> option string.
Variables (api_key search_query channel_id : string).
Variables (start_date end_date : option string).
Variable netloc_valid : string -> bool.
Variable percent_decode : string -> string.

#[local] Abbreviation enrich_items :=
  (enrich_items parse_duration py_int strptime_published).
#[local] Abbreviation fetch_loop :=
  (fetch_loop parse_duration py_int strptime_ymd strptime_published
     api_key search_query channel_id start_date end_date).
#[local] Abbreviation fetch_youtube_data :=
  (fetch_youtube_data parse_duration py_int strptime_ymd strptime_published
     api_key search_query channel_id start_date end_date).

Lemma build_record_URL index total url vd r :
  build_record parse_duration py_int strptime_published index total url vd
  = Some r ->
  URL r = url.
Proof.
  unfold build_record.
  destruct (format_duration _ _); [|discriminate].
  destruct (int_or_zero _ (statistics_viewCount vd)); [|discriminate].
  destruct (int_or_zero _ (statistics_commentCount vd)); [|discriminate].
  destruct (strptime_published _); [|discriminate].
  intros E. injection E as <-. reflexivity.
Qed.

(** The records carry the watch URL of the hit they were built for, a
    hit whose detail request was answered with an item. *)
Lemma enrich_items_urls (P : hit -> Prop) items :
  forall index total acc log acc' log',
  Forall P items ->
  enrich_items index items total acc log = Some (acc', log') ->
  exists new,
    acc' = acc ++ new
    /\ Forall (fun r => exists h vd more,
                   P h /\ details h = DetailsOk (vd :: more)
                   /\ URL r
                      = ("https://www.youtube.com/watch?v=" ++ videoId h)%string)
         new.
Proof.
  induction items as [|h rest IH]; intros index total acc log acc' log' HP E;
    simpl in E.
  - injection E as <- <-. exists []. now rewrite app_nil_r.
  - inversion HP as [|? ? Hh Hrest]; subst.
    destruct (details h) as [e|[|vd more]] eqn:D.
    + now apply IH in E.
    + now apply IH in E.
    + destruct (build_record _ _ _ index total _ vd) as [r|] eqn:B;
        [|discriminate].
      apply IH in E as (new & -> & Hnew); [|exact Hrest].
      exists (r :: new). split; [now rewrite <- app_assoc|].
      constructor; [|exact Hnew]. exists h, vd, more.
      split; [exact Hh|]. split; [exact D|].
      exact (build_record_URL _ _ _ _ _ B).
Qed.

Lemma fetch_loop_urls (P : hit -> Prop) responses :
  forall st,
  Forall (fun r => Forall P (page_hits r)) responses ->
  let Q := fun r => exists h vd more,
               P h /\ details h = DetailsOk (vd :: more)
               /\ URL r
                  = ("https://www.youtube.com/watch?v=" ++ videoId h)%string in
  Forall Q (video_details st) ->
  Forall Q (video_details (snd (fetch_loop responses st))).
Proof.
  induction responses as [|r later IH]; intros st HP Q HQ.
  - exact HQ.
  - inversion HP as [|? ? Hr Hl]; subst.
    destruct r as [e|items token]; [exact HQ|].
    rewrite (fetch_loop_page parse_duration py_int strptime_ymd
               strptime_published api_key search_query channel_id start_date
               end_date).
    destruct (enrich_items _ _ _ _ _) as [[vd' log']|] eqn:E; [|exact HQ].
    apply (enrich_items_urls P) in E as (new & -> & Hnew); [|exact Hr].
    assert (HQ' : Forall Q (video_details st ++ new))
      by (apply Forall_app; split; assumption).
    cbv zeta. destruct (_ || _); [exact HQ'|].
    apply IH; assumption.
Qed.

(** X4.  When the identifiers of the hits are well formed, every URL that
    [fetch_youtube_data] writes into its result is the watch URL of one of
    the hits of the answers, a hit whose detail request was answered with
    an item, and [extract_video_id] reads it back as the identifier of
    this hit: the table of the search is a valid input of the
    summarizer. *)
Theorem fetched_urls_extract_back (responses : list search_response) :
  Forall (fun r => Forall (fun h => video_identifier (videoId h))
                     (page_hits r)) responses ->
  Forall (fun r => exists h vd more,
              In h (flat_map page_hits responses)
              /\ details h = DetailsOk (vd :: more)
              /\ video_identifier (videoId h)
              /\ URL r = ("https://www.youtube.com/watch?v=" ++ videoId h)%string
              /\ extract_video_id netloc_valid percent_decode (PyStr (URL r))
                 = Return (Some (videoId h)))
    (video_details (snd (fetch_youtube_data responses))).
Proof.
  intros HP.
  assert (HP' : Forall (fun r =>
                          Forall (fun h =>
                                    In h (flat_map page_hits responses)
                                    /\ video_identifier (videoId h))
                            (page_hits r)) responses).
  { apply Forall_forall. intros r Hr. apply Forall_forall. intros h Hh.
    split.
    - apply in_flat_map. exists r. split; assumption.
    - rewrite Forall_forall in HP. specialize (HP r Hr).
      rewrite Forall_forall in HP. now apply HP. }
  pose proof (fetch_loop_urls
                (fun h => In h (flat_map page_hits responses)
                          /\ video_identifier (videoId h))
                responses
                {| video_details := [];
                   total_results_fetched := 0;
                   next_page_token := None;
                   log := ("검색 조건으로 유튜브 검색을 시작합니다..."%string
                             :: snd (base_search_url strptime_ymd api_key
                                       search_query channel_id start_date
                                       end_date)) |}
                HP' (Forall_nil _)) as H.
  cbv zeta in H. unfold Youtube_search.fetch_youtube_data.
  eapply Forall_impl; [|exact H].
  intros r (h & vd & more & [Hin Hh] & Hd & Hu). exists h, vd, more.
  split; [exact Hin|]. split; [exact Hd|]. split; [exact Hh|].
  split; [exact Hu|].
  rewrite Hu. apply extract_try_return, extract_watch_url, Hh.
Qed.

End UrlsBack.

Lemma fetched_urls_extract_back_witness :
  Forall (fun r => Forall (fun h => video_identifier (videoId h))
                     (page_hits r)) [last_page10]
  /\ Forall (fun r => exists h vd more,
                 In h (flat_map page_hits [last_page10])
                 /\ details h = DetailsOk (vd :: more)
                 /\ video_identifier (videoId h)
                 /\ URL r
                    = ("https://www.youtube.com/watch?v=" ++ videoId h)%string
                 /\ example_extract (PyStr (URL r)) = Return (Some (videoId h)))
       (video_details (snd (example_fetch [last_page10]))).
Proof.
  assert (H : Forall (fun r => Forall (fun h => video_identifier (videoId h))
                                 (page_hits r)) [last_page10]).
  { constructor; [|constructor]. apply Forall_forall. intros h Hh.
    apply repeat_spec in Hh. subst h. split; [discriminate|reflexivity]. }
  split; [exact H|].
  exact (fetched_urls_extract_back example_parse_duration example_int
           example_strptime example_strptime "KEY"%string "music"%string
           ""%string None None (fun _ => true) (fun s => s) [last_page10] H).
Defined.

End SearchToSummarizer.

(* ===================================================================== *)
(** * The handler of the search button *)
(* ===================================================================== *)

Module RunGuiFacts.
Import Youtube_search SearchSpec SearchFacts RunGuiSpec.

#[local] Open Scope nat_scope.
#[local] Open Scope list_scope.

Section RunGui.

Variable parse_duration : string -> option timedelta.
Variable py_int : string -> option Z.
Variable strptime_ymd : string -> option string.
Variable strptime_published : string -> option string.
Variable today_date : string.
Variable to_excel : string -> list video_record -> option string.
Variable auto_open : string -> option string.
Variable str_raised : string.

#[local] Abbreviation on_run_button_click :=
  (on_run_button_click parse_duration py_int strptime_ymd strptime_published
     today_date to_excel auto_open str_raised).
#[local] Abbreviation accepted := (accepted strptime_ymd).

Lemma eqb_empty_false s : s <> EmptyString -> (s =? "")%string = false.
Proof. apply String.eqb_neq. Qed.

Lemma accepted_guards api_key search_query channel_id start_date_str
    end_date_str :
  accepted api_key search_query channel_id start_date_str end_date_str ->
  (api_key =? "")%string = false
  /\ (search_query =? "")%string && (channel_id =? "")%string = false.
Proof.
  intros (Hk & Hq & _). split; [now apply eqb_empty_false|].
  destruct Hq as [Hq|Hc].
  - now rewrite (eqb_empty_false _ Hq).
  - rewrite (eqb_empty_false _ Hc). apply andb_false_r.
Qed.

(** X5.  Without an API key, without both a search text and a
    channel, or with a date that is given and does not parse, the handler
    shows one error box, enables the button again and is done: whatever
    the catalogue would answer, no request is sent and no file written. *)
Theorem run_gui_rejects (api_key search_query channel_id start_date_str
    end_date_str file_name : string) :
  ~ accepted api_key search_query channel_id start_date_str end_date_str ->
  exists title message,
    forall responses,
      on_run_button_click api_key search_query channel_id start_date_str
        end_date_str file_name responses
      = Some {| status_text := ["설정 값을 확인하는 중입니다..."%string];
                popups := [showerror title message];
                run_button_enabled := true;
                excel_file := None |}.
Proof.
  intros H. unfold Youtube_search.on_run_button_click.
  destruct (api_key =? "")%string eqn:Ek; [do 2 eexists; reflexivity|].
  destruct ((search_query =? "")%string && (channel_id =? "")%string) eqn:Eq;
    [do 2 eexists; reflexivity|].
  destruct (invalid_date strptime_ymd start_date_str end_date_str) eqn:Ed;
    [do 2 eexists; reflexivity|].
  exfalso. apply H. split; [now apply String.eqb_neq|]. split; [|exact Ed].
  apply andb_false_iff in Eq as [Eq|Eq]; apply String.eqb_neq in Eq; tauto.
Qed.

(** A date that passed the check of the form is parsed by
    [fetch_youtube_data] without a warning. *)
Lemma accepted_dates_parse api_key search_query channel_id start_date_str
    end_date_str :
  invalid_date strptime_ymd start_date_str end_date_str = None ->
  snd (base_search_url strptime_ymd api_key search_query channel_id
         (or_none start_date_str) (or_none end_date_str)) = [].
Proof.
  unfold invalid_date, base_search_url, or_none.
  destruct (start_date_str =? "")%string eqn:Es;
    destruct (end_date_str =? "")%string eqn:Ee; cbn [negb truthy];
    rewrite ?Es, ?Ee; cbn [negb].
  - reflexivity.
  - destruct (strptime_ymd end_date_str); [reflexivity|discriminate].
  - destruct (strptime_ymd start_date_str); [reflexivity|discriminate].
  - destruct (strptime_ymd start_date_str); [|discriminate].
    destruct (strptime_ymd end_date_str); [reflexivity|discriminate].
Qed.

Lemma enrich_items_log_grows items :
  forall index total acc log acc' log',
  enrich_items parse_duration py_int strptime_published index items total
    acc log = Some (acc', log') ->
  exists more, log' = log ++ more.
Proof.
  induction items as [|h rest IH]; intros index total acc log acc' log' E;
    simpl in E.
  - injection E as <- <-. exists []. now rewrite app_nil_r.
  - unfold log_callback in E.
    destruct (details h) as [e|[|vd more]].
    + apply IH in E as [m ->]. rewrite <- !app_assoc. eauto.
    + apply IH in E as [m ->]. rewrite <- !app_assoc. eauto.
    + destruct (build_record _ _ _ index total _ vd); [|discriminate].
      apply IH in E as [m ->]. rewrite <- !app_assoc. eauto.
Qed.

Lemma enrich_log_grows items :
  forall index total log,
  exists more,
    enrich_log parse_duration py_int strptime_published index items total log
    = log ++ more.
Proof.
  induction items as [|h rest IH]; intros index total log;
    cbn [enrich_log]; cbv zeta; unfold log_callback.
  - exists []. now rewrite app_nil_r.
  - destruct (details h) as [e|[|vd more]];
      [| |destruct (build_record _ _ _ index total _ vd); [|eauto]];
      match goal with
      | |- context [enrich_log _ _ _ ?i rest ?t ?l] =>
          destruct (IH i t l) as [m ->]
      end; rewrite <- !app_assoc; eauto.
Qed.

Section Log.

Variables (api_key search_query channel_id : string).
Variables (start_date end_date : option string).

(** The first thing a run writes is that it calls the search. *)
Lemma fetch_log_starts responses :
  forall st,
  exists rest,
    fetch_log parse_duration py_int strptime_ymd strptime_published api_key
      search_query channel_id start_date end_date responses st
    = log st ++ "검색 API를 호출하는 중입니다..."%string :: rest.
Proof.
  induction responses as [|r later IH]; intros st.
  - exists []. reflexivity.
  - destruct r as [e|items token].
    + eexists. cbn. unfold log_callback. rewrite <- app_assoc. reflexivity.
    + cbn [fetch_log]. unfold log_callback at 1 2.
      destruct (enrich_items _ _ _ _ _ _ _ _) as [[vd' log']|] eqn:E.
      * apply enrich_items_log_grows in E as [m ->].
        rewrite <- app_assoc.
        destruct (_ || _); [eexists; reflexivity|].
        match goal with
        | |- context [fetch_log _ _ _ _ _ _ _ _ _ later ?s] =>
            destruct (IH s) as [rest ->]
        end.
        cbn [log]. rewrite <- !app_assoc. eexists. reflexivity.
      * destruct (enrich_log_grows items 1 (total_results_fetched st)
                    (log st ++ ["검색 API를 호출하는 중입니다..."%string]))
          as [m ->].
        rewrite <- app_assoc. eexists. reflexivity.
Qed.

End Log.

(** X6.  When the form is accepted, the handler that finishes has
    written, as the first lines of the log box, that it checks the
    settings, that the query starts, that the search starts and that the
    search request is called: [fetch_youtube_data] is reached with dates
    that it parses, so none of its date warnings comes in between. *)
Theorem run_gui_dates_parse (api_key search_query channel_id start_date_str
    end_date_str file_name : string) (responses : list search_response)
    (w : window) :
  accepted api_key search_query channel_id start_date_str end_date_str ->
  on_run_button_click api_key search_query channel_id start_date_str
    end_date_str file_name responses = Some w ->
  snd (base_search_url strptime_ymd api_key search_query channel_id
         (or_none start_date_str) (or_none end_date_str)) = []
  /\ exists rest,
       status_text w
       = ["설정 값을 확인하는 중입니다..."%string;
          "유튜브 데이터 조회를 시작합니다..."%string;
          "검색 조건으로 유튜브 검색을 시작합니다..."%string;
          "검색 API를 호출하는 중입니다..."%string] ++ rest.
Proof.
  intros A H. pose proof A as (_ & _ & Hd).
  destruct (accepted_guards _ _ _ _ _ A) as [Ek Eq].
  pose proof (accepted_dates_parse api_key search_query channel_id _ _ Hd)
    as Hw.
  split; [exact Hw|].
  unfold Youtube_search.on_run_button_click in H.
  rewrite Ek, Eq, Hd, Hw in H. cbv zeta in H.
  match type of H with
  | context [fetch_log ?a ?b ?c ?d ?e ?f ?g ?h ?i responses ?s] =>
      destruct (fetch_log_starts e f g h i responses s) as [rest L];
      rewrite L in H
  end.
  cbn [log app] in H. unfold log_callback in H.
  destruct (fst (fetch_youtube_data _ _ _ _ _ _ _ _ _ _)); [| |discriminate].
  - destruct (video_details _) as [|v vs].
    + injection H as <-. cbn [status_text]. eexists. cbn [app]. reflexivity.
    + destruct (to_excel _ _).
      * injection H as <-. cbn [status_text app]. eexists. reflexivity.
      * destruct (auto_open _); injection H as <-; cbn [status_text app];
          rewrite <- ?app_assoc; cbn [app]; eexists; reflexivity.
  - injection H as <-. cbn [status_text app]. eexists. reflexivity.
Qed.

(** X7.  A handler that finishes has shown exactly one message
    box and enabled the button again.  It has written a spreadsheet
    exactly when the form was accepted, the search returned at least one
    record and [to_excel] did not raise; the file then holds the records
    of the search and is named after the file-name field (or
    [youtube_results]) and the date of the day. *)
Theorem run_gui_outcome (api_key search_query channel_id start_date_str
    end_date_str file_name : string) (responses : list search_response)
    (w : window) :
  on_run_button_click api_key search_query channel_id start_date_str
    end_date_str file_name responses = Some w ->
  let run :=
    fetch_youtube_data parse_duration py_int strptime_ymd strptime_published
      api_key search_query channel_id
      (or_none start_date_str) (or_none end_date_str) responses in
  run_button_enabled w = true
  /\ List.length (popups w) = 1
  /\ (forall file_path videos,
        excel_file w = Some (file_path, videos)
        <-> (accepted api_key search_query channel_id start_date_str
               end_date_str
             /\ fst run = Returned
             /\ videos = video_details (snd run)
             /\ videos <> []
             /\ file_path = spreadsheet_name file_name today_date
             /\ to_excel file_path videos = None)).
Proof.
  intros H. cbv zeta. unfold Youtube_search.on_run_button_click in H.
  assert (R : forall t m,
             Some {| status_text := ["설정 값을 확인하는 중입니다..."%string];
                     popups := [showerror t m];
                     run_button_enabled := true;
                     excel_file := None |} = Some w ->
             ~ accepted api_key search_query channel_id start_date_str
                 end_date_str ->
             run_button_enabled w = true
             /\ List.length (popups w) = 1
             /\ (forall file_path videos,
                   excel_file w = Some (file_path, videos)
                   <-> (accepted api_key search_query channel_id
                          start_date_str end_date_str
                        /\ fst (fetch_youtube_data parse_duration py_int
                                  strptime_ymd strptime_published api_key
                                  search_query channel_id
                                  (or_none start_date_str)
                                  (or_none end_date_str) responses)
                           = Returned
                        /\ videos
                           = video_details
                               (snd (fetch_youtube_data parse_duration py_int
                                       strptime_ymd strptime_published api_key
                                       search_query channel_id
                                       (or_none start_date_str)
                                       (or_none end_date_str) responses))
                        /\ videos <> []
                        /\ file_path = spreadsheet_name file_name today_date
                        /\ to_excel file_path videos = None))).
  { intros t m E N. injection E as <-.
    cbn [run_button_enabled popups excel_file List.length].
    split; [reflexivity|]. split; [reflexivity|].
    intros file_path videos. split; [discriminate|].
    intros (A & _). contradiction. }
  destruct (api_key =? "")%string eqn:Ek.
  { apply (R _ _ H). intros (Hk & _). apply String.eqb_eq in Ek. contradiction. }
  destruct ((search_query =? "")%string && (channel_id =? "")%string) eqn:Eq.
  { apply (R _ _ H). intros (_ & Hq & _).
    apply andb_true_iff in Eq as [E1 E2].
    apply String.eqb_eq in E1, E2. tauto. }
  destruct (invalid_date strptime_ymd start_date_str end_date_str) eqn:Ed.
  { apply (R _ _ H). intros (_ & _ & Hd). congruence. }
  clear R.
  assert (A : accepted api_key search_query channel_id start_date_str
                end_date_str).
  { split; [now apply String.eqb_neq|]. split; [|exact Ed].
    apply andb_false_iff in Eq as [Eq|Eq]; apply String.eqb_neq in Eq; tauto. }
  cbv zeta in H.
  set (run := fetch_youtube_data parse_duration py_int strptime_ymd
                strptime_published api_key search_query channel_id
                (or_none start_date_str) (or_none end_date_str) responses)
    in *.
  destruct (fst run) eqn:Es; [| |discriminate].
  - destruct (video_details (snd run)) as [|v vs] eqn:Ev.
    + injection H as <-. cbn [run_button_enabled popups excel_file List.length].
      split; [reflexivity|]. split; [reflexivity|].
      intros file_path videos. split; [discriminate|].
      intros (_ & _ & -> & N & _). congruence.
    + unfold spreadsheet_name.
      destruct (to_excel _ (v :: vs)) eqn:Et.
      * injection H as <-.
        cbn [run_button_enabled popups excel_file List.length].
        split; [reflexivity|]. split; [reflexivity|].
        intros file_path videos. split; [discriminate|].
        intros (_ & _ & -> & _ & -> & T). congruence.
      * injection H as <-.
        cbn [run_button_enabled popups excel_file List.length].
        split; [reflexivity|]. split; [reflexivity|].
        intros file_path videos. split.
        -- intros E. injection E as <- <-.
           split; [exact A|]. split; [reflexivity|]. split; [reflexivity|].
           split; [discriminate|]. split; [reflexivity|exact Et].
        -- intros (_ & _ & -> & _ & -> & _). reflexivity.
  - injection H as <-. cbn [run_button_enabled popups excel_file List.length].
    split; [reflexivity|]. split; [reflexivity|].
    intros file_path videos. split; [discriminate|].
    intros (_ & E & _). discriminate.
Qed.

End RunGui.

Lemma run_gui_rejects_witness :
  ~ accepted example_strptime "KEY" "" "" "" "" 
  /\ exists title message,
       forall responses,
         example_click "KEY"%string ""%string ""%string ""%string ""%string
           "results"%string responses
         = Some {| status_text := ["설정 값을 확인하는 중입니다..."%string];
                   popups := [showerror title message];
                   run_button_enabled := true;
                   excel_file := None |}.
Proof.
  assert (H : ~ accepted example_strptime "KEY" "" "" "" "").
  { intros (_ & [Hq|Hc] & _); congruence. }
  split; [exact H|].
  exact (run_gui_rejects example_parse_duration example_int example_strptime
           example_strptime "2024-03-23"%string (fun _ _ => None)
           (fun _ => None) "error"%string "KEY"%string ""%string ""%string
           ""%string ""%string "results"%string H).
Defined.

Lemma example_accepted :
  accepted example_strptime "KEY" "music" "" "2024-01-01" "".
Proof. split; [discriminate|]. split; [left; discriminate|reflexivity]. Qed.

Lemma run_gui_dates_parse_witness :
  exists w,
    example_click "KEY"%string "music"%string ""%string "2024-01-01"%string
      ""%string ""%string [last_page10] = Some w
    /\ exists rest,
         status_text w
         = ["설정 값을 확인하는 중입니다..."%string;
            "유튜브 데이터 조회를 시작합니다..."%string;
            "검색 조건으로 유튜브 검색을 시작합니다..."%string;
            "검색 API를 호출하는 중입니다..."%string] ++ rest.
Proof.
  destruct (example_click "KEY"%string "music"%string ""%string
              "2024-01-01"%string ""%string ""%string [last_page10])
    as [w|] eqn:E; [|vm_compute in E; discriminate E].
  exists w. split; [reflexivity|].
  exact (proj2 (run_gui_dates_parse example_parse_duration example_int
                  example_strptime example_strptime "2024-03-23"%string
                  (fun _ _ => None) (fun _ => None) "error"%string
                  "KEY"%string "music"%string ""%string "2024-01-01"%string
                  ""%string ""%string [last_page10] w example_accepted E)).
Defined.

Lemma run_gui_outcome_witness :
  exists w,
    example_click "KEY"%string "music"%string ""%string "2024-01-01"%string
      ""%string ""%string [last_page10] = Some w
    /\ run_button_enabled w = true
    /\ List.length (popups w) = 1
    /\ excel_file w
       = Some ("youtube_results_2024-03-23.xlsx"%string,
               video_details (snd (example_fetch [last_page10]))).
Proof.
  destruct (example_click "KEY"%string "music"%string ""%string
              "2024-01-01"%string ""%string ""%string [last_page10])
    as [w|] eqn:E; [|vm_compute in E; discriminate E].
  exists w. split; [reflexivity|].
  destruct (run_gui_outcome example_parse_duration example_int
              example_strptime example_strptime "2024-03-23"%string
              (fun _ _ => None) (fun _ => None) "error"%string
              "KEY"%string "music"%string ""%string "2024-01-01"%string
              ""%string ""%string [last_page10] w E) as (B & P & _).
  split; [exact B|]. split; [exact P|].
  vm_compute in E. injection E as <-. vm_compute. reflexivity.
Defined.

End RunGuiFacts.

(* ===================================================================== *)
(** * Further properties of the lookups *)
(* ===================================================================== *)

Module SummarizerMore.
Import PyStr excel_summarizer SummarizerSpec SummarizerFacts SummarizerMoreSpec.

#[local] Open Scope nat_scope.
#[local] Open Scope list_scope.

Section Frames.

Context {W : Type} (svc : services W).

Lemma framed_ret {A} (a : A) : framed (@ret W A a).
Proof. intros [w tr]. unfold ret, start. cbn. now rewrite app_nil_r. Qed.

Lemma framed_raise {A} e : framed (@raise W A e).
Proof. intros [w tr]. unfold raise, start. cbn. now rewrite app_nil_r. Qed.

Lemma framed_lift {A} (o : outcome A) : framed (@lift W A o).
Proof. intros [w tr]. unfold lift, start. cbn. now rewrite app_nil_r. Qed.

Lemma framed_emit e : framed (@emit W e).
Proof. intros [w tr]. reflexivity. Qed.

Lemma framed_call {A} e (f : W -> outcome A * W) : framed (call e f).
Proof.
  intros [w tr]. unfold call, start. cbn [world trace].
  destruct (f w) as [r w1]. reflexivity.
Qed.

Lemma framed_bind {A B} (m : @M W A) (k : A -> M B) :
  framed m -> (forall a, framed (k a)) -> framed (bind m k).
Proof.
  intros Hm Hk s. unfold bind. rewrite (Hm s).
  destruct (m (start (world s))) as [[a|e] s1]; cbn [fst snd].
  - rewrite (Hk a). cbn [world trace]. rewrite (Hk a s1). cbn [fst snd world trace].
    now rewrite app_assoc.
  - reflexivity.
Qed.

Lemma framed_try_except {A} (m : @M W A) (handler : exn -> M A) :
  framed m -> (forall e, framed (handler e)) -> framed (try_except m handler).
Proof.
  intros Hm Hh s. unfold try_except. rewrite (Hm s).
  destruct (m (start (world s))) as [[a|e] s1]; cbn [fst snd].
  - reflexivity.
  - rewrite (Hh e). cbn [world trace]. rewrite (Hh e s1).
    cbn [fst snd world trace]. now rewrite app_assoc.
Qed.

Lemma framed_load_api_keys : framed (load_api_keys svc).
Proof.
  intros [w tr]. unfold load_api_keys, start. cbn [world].
  destruct (os_getenv svc "OPENAI_API_KEY" w);
    destruct (os_getenv svc "YOUTUBE_API_KEY" w);
    try (cbn; now rewrite app_nil_r).
  destruct (_ ++ _); cbn; now rewrite app_nil_r.
Qed.

Lemma framed_title_attempt video_id : framed (title_attempt svc video_id).
Proof.
  unfold title_attempt.
  apply framed_bind; [apply framed_load_api_keys|]. intros keys.
  apply framed_bind; [apply framed_call|]. intros [status json].
  destruct (status =? 200); [|apply framed_ret].
  apply framed_bind; [apply framed_lift|]. intros [|[t|] more];
    (apply framed_ret || apply framed_raise).
Qed.

Lemma framed_title_loop attempts video_id :
  framed (title_loop svc attempts video_id).
Proof.
  induction attempts as [|a rest IH]; cbn [title_loop]; [apply framed_ret|].
  apply framed_try_except.
  - apply framed_bind; [apply framed_title_attempt|]. intros t.
    apply framed_ret.
  - intros e. destruct (a <? max_retries - 1); [|apply framed_ret].
    apply framed_bind; [apply framed_emit|]. intros _. exact IH.
Qed.

Lemma framed_get_video_title_async video_id :
  framed (get_video_title_async svc video_id).
Proof. apply framed_title_loop. Qed.

Lemma framed_get_video_summary_async video_id :
  framed (get_video_summary_async svc video_id).
Proof.
  unfold get_video_summary_async, fetch_transcript.
  apply framed_try_except.
  - apply framed_bind.
    + apply framed_try_except.
      * apply framed_bind; [apply framed_call|]. intros t. apply framed_ret.
      * intros [m|m|m]; try apply framed_raise.
        apply framed_try_except.
        -- apply framed_bind; [apply framed_call|]. intros t.
           apply framed_ret.
        -- intros [m'|m'|m']; (apply framed_ret || apply framed_raise).
    + intros [early|transcript]; [apply framed_ret|].
      apply framed_bind; [apply framed_load_api_keys|]. intros keys.
      apply framed_bind; [apply framed_call|]. intros content.
      apply framed_ret.
  - intros [m|m|m]; apply framed_ret.
Qed.

End Frames.

Section Lookups.

Context {W : Type} (svc : services W).

(** [load_api_keys] raises [ValueError] with the names of the keys that
    are not set, and leaves the state as it is. *)
Lemma load_api_keys_missing s :
  ~ keys_set svc (world s) ->
  exists missing,
    (missing = "openai"%string \/ missing = "youtube"%string
     \/ missing = "openai, youtube"%string)
    /\ load_api_keys svc s
       = (Raise (Exception ("다음 API 키가 설정되지 않았습니다: " ++ missing)%string),
          s).
Proof.
  unfold keys_set, load_api_keys. intros N.
  destruct (os_getenv svc "OPENAI_API_KEY" (world s)) as [o|];
    destruct (os_getenv svc "YOUTUBE_API_KEY" (world s)) as [y|];
    cbn [falsy] in *.
  - destruct (o =? "")%string; destruct (y =? "")%string.
    + exists "openai, youtube"%string. split; [tauto|reflexivity].
    + exists "openai"%string. split; [tauto|reflexivity].
    + exists "youtube"%string. split; [tauto|reflexivity].
    + tauto.
  - destruct (o =? "")%string.
    + exists "openai, youtube"%string. split; [tauto|reflexivity].
    + exists "youtube"%string. split; [tauto|reflexivity].
  - destruct (y =? "")%string.
    + exists "openai, youtube"%string. split; [tauto|reflexivity].
    + exists "openai"%string. split; [tauto|reflexivity].
  - exists "openai, youtube"%string. split; [tauto|reflexivity].
Qed.

Lemma title_attempt_without_keys video_id s e :
  load_api_keys svc s = (Raise e, s) ->
  title_attempt svc video_id s = (Raise e, s).
Proof. intros L. unfold title_attempt, bind. now rewrite L. Qed.

(** X8.  When one of the two keys is not set (the key of the completion
    service is enough), the title lookup sends no request at all: each of
    its three attempts stops at [load_api_keys], it waits twice and
    returns the diagnostic string that names the missing keys. *)
Theorem title_lookup_without_keys (video_id : string) (w : W) :
  ~ keys_set svc w ->
  exists missing,
    (missing = "openai"%string \/ missing = "youtube"%string
     \/ missing = "openai, youtube"%string)
    /\ get_video_title_async svc video_id (start w)
       = (Return (Some ("제목 가져오기 실패: 다음 API 키가 설정되지 않았습니다: "
                          ++ missing)%string),
          {| world := w; trace := [sleep_call 1; sleep_call 1] |}).
Proof.
  intros N.
  assert (L : exists missing,
             (missing = "openai"%string \/ missing = "youtube"%string
              \/ missing = "openai, youtube"%string)
             /\ forall tr',
                load_api_keys svc {| world := w; trace := tr' |}
                = (Raise (Exception ("다음 API 키가 설정되지 않았습니다: "
                                       ++ missing)%string),
                   {| world := w; trace := tr' |})).
  { destruct (load_api_keys_missing {| world := w; trace := [] |} N)
      as (missing & Hm & E).
    exists missing. split; [exact Hm|]. intros tr'.
    pose proof (framed_load_api_keys svc {| world := w; trace := tr' |}) as F.
    cbn [world trace] in F. unfold start in F. rewrite E in F.
    cbn [fst snd world trace] in F. now rewrite app_nil_r in F. }
  destruct L as (missing & Hm & E). exists missing. split; [exact Hm|].
  unfold get_video_title_async, start. cbn [seq max_retries title_loop].
  unfold try_except at 1. unfold bind at 1.
  rewrite (title_attempt_without_keys video_id _ _ (E [])).
  cbn [Nat.ltb Nat.leb Nat.sub max_retries]. unfold bind at 1, emit at 1.
  cbn [world trace app].
  unfold try_except at 1. unfold bind at 1.
  rewrite (title_attempt_without_keys video_id _ _ (E _)).
  cbn [Nat.ltb Nat.leb Nat.sub max_retries]. unfold bind at 1, emit at 1.
  cbn [world trace app].
  unfold try_except at 1. unfold bind at 1.
  rewrite (title_attempt_without_keys video_id _ _ (E _)).
  reflexivity.
Qed.

(** X9.  An answer of the catalogue is never asked for again: when the
    title request is answered with a status other than 200 (the body is
    then not read), or with status 200 and no item, the lookup returns the
    fixed string after this one request, without waiting.  Only an
    exception leads to another attempt. *)
Theorem title_lookup_keeps_answer (video_id : string) (w : W)
    (status : nat) (json : outcome (list (option string))) (w1 : W) :
  keys_set svc w ->
  http_get svc (title_url svc video_id w) w = (HttpResponse status json, w1) ->
  status <> 200 \/ json = Return [] ->
  get_video_title_async svc video_id (start w)
  = (Return (Some "제목을 가져올 수 없습니다"%string),
     {| world := w1;
        trace := [http_get_call (title_url svc video_id w)] |}).
Proof.
  intros K H C.
  destruct (load_api_keys_set svc w [] K) as (o & y & Hy & L).
  unfold get_video_title_async, start. cbn [seq max_retries title_loop].
  unfold try_except at 1. unfold bind at 1.
  unfold title_attempt, bind, call. rewrite L. cbn [snd world trace].
  unfold title_url in *. rewrite Hy in *. rewrite H. cbn [app].
  destruct (status =? 200) eqn:S.
  - destruct C as [C| ->]; [apply Nat.eqb_eq in S; contradiction|].
    reflexivity.
  - reflexivity.
Qed.

#[local] Abbreviation ko_call v := (get_transcript_call v "ko").
#[local] Abbreviation en_call v := (get_transcript_call v "en").

(** Whether both keys are set can be told. *)
Lemma classic_keys (s : @state W) :
  keys_set svc (world s) \/ ~ keys_set svc (world s).
Proof.
  unfold keys_set.
  destruct (falsy (os_getenv svc "OPENAI_API_KEY" (world s)));
    destruct (falsy (os_getenv svc "YOUTUBE_API_KEY" (world s)));
    [right|right|right|left]; try (intros [A B]; discriminate); now split.
Qed.

(** What [summarize] returns and asks for: no completion when a key is
    not set; otherwise one request, whose outcome decides what is
    returned. *)
Lemma summarize_shape transcript s :
  let full_text := String.concat " " transcript in
  exists text summary s',
    summarize svc transcript s = (Return (text, summary), s')
    /\ ((trace s' = trace s /\ text = EmptyString
         /\ world s' = world s /\ ~ keys_set svc (world s))
        \/ (trace s' = trace s ++ [chat_completion_call (user_content full_text)]
            /\ keys_set svc (world s)
            /\ match chat_completions_create svc system_content
                       (user_content full_text) (world s) with
               | (Return content, w2) =>
                   text = full_text /\ summary = content /\ world s' = w2
               | (Raise e, w2) =>
                   text = EmptyString /\ summary = summary_diagnostic e
                   /\ world s' = w2
               end)).
Proof.
  cbv zeta.
  destruct (classic_keys s) as [K|N].
  - destruct s as [w tr]. cbn [world trace] in *.
    destruct (chat_completions_create svc system_content
                (user_content (String.concat " " transcript)) w)
      as [[c|e] w2] eqn:C.
    + rewrite (summarize_completion svc transcript w tr c w2 K C).
      do 3 eexists. split; [reflexivity|]. right. cbn [world trace].
      split; [reflexivity|]. split; [exact K|]. repeat split.
    + rewrite (summarize_raise svc transcript w tr e w2 K C).
      do 3 eexists. split; [reflexivity|]. right. cbn [world trace].
      split; [reflexivity|]. split; [exact K|]. repeat split.
  - destruct (load_api_keys_missing s N) as (missing & _ & E).
    unfold SummarizerSpec.summarize, try_except, bind. rewrite E.
    cbn [str_exn]. unfold ret. do 3 eexists. split; [reflexivity|].
    left. split; [reflexivity|]. split; [reflexivity|].
    split; [reflexivity|exact N].
Qed.

(** The calls of a summary and what decides its result. *)
Lemma summary_calls video_id w :
  let after_ko := snd (get_transcript svc video_id "ko" w) in
  let after_en := snd (get_transcript svc video_id "en" after_ko) in
  exists text summary s' lookups completions w1,
    get_video_summary_async svc video_id (start w)
    = (Return (text, summary), s')
    /\ trace s' = lookups ++ completions
    /\ ((lookups = [ko_call video_id] /\ w1 = after_ko)
        \/ (lookups = [ko_call video_id; en_call video_id]
            /\ w1 = after_en))
    /\ ((completions = [] /\ text = EmptyString /\ world s' = w1)
        \/ exists full_text,
             completions = [chat_completion_call (user_content full_text)]
             /\ match chat_completions_create svc system_content
                        (user_content full_text) w1 with
                | (Return content, w2) =>
                    text = full_text /\ summary = content /\ world s' = w2
                | (Raise e, w2) =>
                    text = EmptyString /\ summary = summary_diagnostic e
                    /\ world s' = w2
                end).
Proof.
  cbv zeta.
  destruct (get_transcript svc video_id "ko" w) as [[t|e] w1] eqn:K;
    cbn [snd].
  - rewrite (summary_ko svc _ _ _ _ K).
    destruct (summarize_shape t
                {| world := w1; trace := [ko_call video_id] |})
      as (text & summary & s' & -> & [(T & -> & Hw & _)|(T & _ & Ht)]);
      cbn [trace world] in *.
    + exists EmptyString, summary, s', [ko_call video_id], [], w1.
      rewrite T. repeat split; auto.
    + exists text, summary, s', [ko_call video_id],
        [chat_completion_call (user_content (String.concat " " t))], w1.
      rewrite T. split; [reflexivity|]. split; [reflexivity|].
      split; [now left|]. right. eauto.
  - destruct e as [m|m|m].
    + destruct (get_transcript svc video_id "en" w1) as [[t|e] w2] eqn:E;
        cbn [snd].
      * rewrite (summary_en svc _ _ _ _ _ _ K E).
        destruct (summarize_shape t
                    {| world := w2;
                       trace := [ko_call video_id; en_call video_id] |})
          as (text & summary & s' & -> & [(T & -> & Hw & _)|(T & _ & Ht)]);
          cbn [trace world] in *.
        -- exists EmptyString, summary, s',
             [ko_call video_id; en_call video_id], [], w2.
           rewrite T. repeat split; auto.
        -- exists text, summary, s', [ko_call video_id; en_call video_id],
             [chat_completion_call (user_content (String.concat " " t))], w2.
           rewrite T. split; [reflexivity|]. split; [reflexivity|].
           split; [now right|]. right. eauto.
      * unfold get_video_summary_async, fetch_transcript, try_except, bind,
          call, ret, raise, lift, start.
        cbn [world trace app fst snd]. rewrite K. cbn [world trace app].
        rewrite E.
        destruct e; do 2 eexists;
          exists {| world := w2;
                    trace := [ko_call video_id; en_call video_id] |},
            [ko_call video_id; en_call video_id], [], w2;
          repeat split; auto.
    + unfold get_video_summary_async, fetch_transcript, try_except, bind,
        call, ret, raise, lift, start.
      cbn [world trace app fst snd]. rewrite K.
      do 2 eexists;
        exists {| world := w1; trace := [ko_call video_id] |},
          [ko_call video_id], [], w1;
        repeat split; auto.
    + unfold get_video_summary_async, fetch_transcript, try_except, bind,
        call, ret, raise, lift, start.
      cbn [world trace app fst snd]. rewrite K.
      do 2 eexists;
        exists {| world := w1; trace := [ko_call video_id] |},
          [ko_call video_id], [], w1;
        repeat split; auto.
Qed.

(** X10.  Whatever the services answer, the summary of a video returns a
    pair after one or two transcript requests (Korean, then English)
    followed by at most one completion request, and makes no other call.
    When no completion is requested the first component is the empty
    string.  When one is, its outcome decides: if it returns, the pair is
    the text the request carried and the content returned; if it raises,
    the text is dropped, the first component is the empty string and the
    second the diagnostic string of the exception. *)
Theorem summary_calls_shape (video_id : string) (w : W) :
  let after_ko := snd (get_transcript svc video_id "ko" w) in
  let after_en := snd (get_transcript svc video_id "en" after_ko) in
  exists text summary s' lookups completions w1,
    get_video_summary_async svc video_id (start w)
    = (Return (text, summary), s')
    /\ trace s' = lookups ++ completions
    /\ ((lookups = [ko_call video_id] /\ w1 = after_ko)
        \/ (lookups = [ko_call video_id; en_call video_id]
            /\ w1 = after_en))
    /\ ((completions = [] /\ text = EmptyString /\ world s' = w1)
        \/ exists full_text,
             completions = [chat_completion_call (user_content full_text)]
             /\ match chat_completions_create svc system_content
                        (user_content full_text) w1 with
                | (Return content, w2) =>
                    text = full_text /\ summary = content /\ world s' = w2
                | (Raise e, w2) =>
                    text = EmptyString /\ summary = summary_diagnostic e
                    /\ world s' = w2
                end).
Proof. exact (summary_calls video_id w). Qed.

(** X11.  The keys are read only after the transcript has been fetched:
    when a key is not set, the summary asks for the transcript all the
    same, asks for no completion, and returns the empty text with the
    diagnostic string that names the missing keys. *)
Theorem summary_without_keys (video_id : string) (w : W)
    (t : list string) (w1 : W) :
  get_transcript svc video_id "ko" w = (Return t, w1) ->
  ~ keys_set svc w1 ->
  exists missing,
    (missing = "openai"%string \/ missing = "youtube"%string
     \/ missing = "openai, youtube"%string)
    /\ get_video_summary_async svc video_id (start w)
       = (Return (EmptyString,
                  ("오류가 발생했습니다: 다음 API 키가 설정되지 않았습니다: "
                     ++ missing)%string),
          {| world := w1; trace := [ko_call video_id] |}).
Proof.
  intros K N. rewrite (summary_ko svc _ _ _ _ K).
  destruct (load_api_keys_missing
              {| world := w1; trace := [ko_call video_id] |} N)
    as (missing & Hm & E).
  exists missing. split; [exact Hm|].
  unfold SummarizerSpec.summarize, try_except, bind. rewrite E. reflexivity.
Qed.

End Lookups.

Lemma title_lookup_without_keys_witness :
  ~ keys_set youtube_key_only fresh
  /\ exists missing,
       get_video_title_async youtube_key_only "dQw4w9WgXcQ" (start fresh)
       = (Return (Some ("제목 가져오기 실패: 다음 API 키가 설정되지 않았습니다: "
                          ++ missing)%string),
          {| world := fresh; trace := [sleep_call 1; sleep_call 1] |}).
Proof.
  assert (N : ~ keys_set youtube_key_only fresh)
    by (intros [H _]; discriminate H).
  split; [exact N|].
  destruct (title_lookup_without_keys youtube_key_only "dQw4w9WgXcQ" fresh N)
    as (missing & _ & E).
  exists missing. exact E.
Defined.

Lemma title_lookup_keeps_answer_witness :
  get_video_title_async title_not_found "dQw4w9WgXcQ" (start fresh)
  = (Return (Some "제목을 가져올 수 없습니다"%string),
     {| world := {| http_calls := 1; chat_calls := 0 |};
        trace := [http_get_call
                    (title_url title_not_found "dQw4w9WgXcQ" fresh)] |}).
Proof.
  apply (title_lookup_keeps_answer title_not_found "dQw4w9WgXcQ" fresh 404
           (Raise (Exception "not JSON"))
           {| http_calls := 1; chat_calls := 0 |}).
  - split; reflexivity.
  - reflexivity.
  - left. discriminate.
Defined.

Lemma summary_without_keys_witness :
  ~ keys_set youtube_key_only fresh
  /\ exists missing,
       get_video_summary_async youtube_key_only "dQw4w9WgXcQ" (start fresh)
       = (Return (EmptyString,
                  ("오류가 발생했습니다: 다음 API 키가 설정되지 않았습니다: "
                     ++ missing)%string),
          {| world := fresh;
             trace := [get_transcript_call "dQw4w9WgXcQ" "ko"] |}).
Proof.
  assert (N : ~ keys_set youtube_key_only fresh)
    by (intros [H _]; discriminate H).
  split; [exact N|].
  destruct (summary_without_keys youtube_key_only "dQw4w9WgXcQ" fresh
              ["hello"%string] fresh eq_refl N) as (missing & _ & E).
  exists missing. exact E.
Defined.

End SummarizerMore.

(* ===================================================================== *)
(** * What a batch costs *)
(* ===================================================================== *)

Module BatchMore.
Import PyStr excel_summarizer SummarizerSpec SummarizerFacts.
Import SummarizerMoreSpec SummarizerMore.

#[local] Open Scope nat_scope.
#[local] Open Scope list_scope.




Section Costs.

Context {W : Type} (svc : services W).




End Costs.

Section Batch.

Context {W : Type} (svc : services W).
Variable netloc_valid : string -> bool.
Variable percent_decode : string -> string.
Variable format_cell : pyvalue -> string.

#[local] Abbreviation process_rows :=
  (process_rows svc netloc_valid percent_decode format_cell).



End Batch.

Section Run.

Context {W : Type} (svc : services W) (dsk : desktop W).
Variable netloc_valid : string -> bool.
Variable percent_decode : string -> string.
Variable format_cell : pyvalue -> string.

#[local] Abbreviation process_rows :=
  (process_rows svc netloc_valid percent_decode format_cell).
#[local] Abbreviation process_excel_thread :=
  (process_excel_thread svc dsk netloc_valid percent_decode format_cell).
#[local] Abbreviation not_extracted :=
  (not_extracted netloc_valid percent_decode).


(** A run whose loop came to its end hands the table to the save and
    ends as the save does. *)
Lemma process_excel_thread_complete df output_file auto_open_var s table s1 :
  process_rows (List.length df) 0 df [] s = (Return (true, table), s1) ->
  forall saved w2,
    save_excel dsk table output_file (world s1) = (saved, w2) ->
    process_excel_thread df output_file auto_open_var s
    = (Return (fst (batch_end dsk table output_file auto_open_var saved w2)),
       {| world := w2;
          trace := trace s1
                     ++ snd (batch_end dsk table output_file auto_open_var
                               saved w2) |}).
Proof.
  intros E saved w2 S.
  unfold excel_summarizer.process_excel_thread, try_except.
  unfold bind at 1. rewrite E.
  unfold save_excel_with_formatting, try_except, call.
  unfold bind at 1. rewrite S.
  destruct saved as [u|e]; unfold bind, emit, ret, raise, batch_end,
    completion_calls, failure_calls, save_error;
    cbn [world trace fst snd str_exn]; rewrite <- ?app_assoc; reflexivity.
Qed.





End Run.




(** The rows of a complete run over a valid link, an empty cell and a
    second valid link. *)
Example batch_example :
  fst (example_batch english_only example_desktop)
  = Return
      (Saved
         [{| row_title := Some "a title"%string;
             row_url := PyStr "https://youtu.be/aaaaaaaaaaa";
             row_original_text := "hello";
             row_summary := "a summary" |};
          flagged_row (PyFloat NaN);
          {| row_title := Some "a title"%string;
             row_url := PyStr "https://www.youtube.com/watch?v=ccccccccccc";
             row_original_text := "hello";
             row_summary := "a summary" |}]
         (Some "out.xlsx"%string)).
Proof. vm_compute. reflexivity. Qed.

End BatchMore.

(* ===================================================================== *)
(** * The single-URL mode *)
(* ===================================================================== *)

Module SingleUrl.
Import PyStr excel_summarizer SummarizerSpec SummarizerFacts.
Import SummarizerMoreSpec SummarizerMore.

#[local] Open Scope nat_scope.
#[local] Open Scope list_scope.

Section Single.

Context {W : Type} (svc : services W) (dsk : desktop W).
Variable netloc_valid : string -> bool.
Variable percent_decode : string -> string.
Variable format_cell : pyvalue -> string.

#[local] Abbreviation process_single_url :=
  (process_single_url svc dsk netloc_valid percent_decode).
#[local] Abbreviation process_rows :=
  (process_rows svc netloc_valid percent_decode format_cell).
#[local] Abbreviation process_excel_thread :=
  (process_excel_thread svc dsk netloc_valid percent_decode format_cell).
#[local] Abbreviation not_extracted :=
  (not_extracted netloc_valid percent_decode).

(** The loop of the batch over one valid reference. *)
Lemma batch_valid_row url w c id t s2 out s3 :
  processing_at svc 0 = true ->
  extract_video_id netloc_valid percent_decode (PyStr url)
  = Return (Some (String c id)) ->
  get_video_title_async svc (String c id) (start w) = (Return (Some t), s2) ->
  get_video_summary_async svc (String c id) (start (world s2))
  = (Return out, s3) ->
  exists tr,
    process_rows 1 0 [PyStr url] [] (start w)
    = (Return (true, [{| row_title := Some t;
                         row_url := PyStr url;
                         row_original_text := fst out;
                         row_summary := snd out |}]),
       {| world := world s3; trace := tr |}).
Proof.
  intros F E Et Es.
  cbn [excel_summarizer.process_rows]. rewrite F. cbn [negb].
  unfold bind, lift, emit, ret. rewrite E. unfold start in *.
  cbn [world trace].
  rewrite (framed_get_video_title_async svc (String c id)).
  unfold start. cbn [world trace]. rewrite Et. cbn [fst snd world trace].
  rewrite (framed_get_video_summary_async svc (String c id)).
  unfold start. cbn [world trace]. rewrite Es. cbn [fst snd world trace].
  rewrite app_nil_l. eexists. reflexivity.
Qed.

(** The single-URL mode on a valid reference, up to the save. *)
Lemma single_valid_row url url_output_var auto_open_var w c id t s2 out s3 :
  extract_video_id netloc_valid percent_decode (PyStr url)
  = Return (Some (String c id)) ->
  get_video_title_async svc (String c id) (start w) = (Return (Some t), s2) ->
  get_video_summary_async svc (String c id) (start (world s2))
  = (Return out, s3) ->
  let row := {| row_title := Some t;
                row_url := PyStr url;
                row_original_text := fst out;
                row_summary := snd out |} in
  let file := if (url_output_var =? "")%string
              then default_output_file dsk (world s3)
              else url_output_var in
  exists tr,
    process_single_url url url_output_var auto_open_var (start w)
    = match save_excel dsk [row] file (world s3) with
      | (Return _, w1) =>
          (Return (Summarized (result_text url row) file row
                     (if auto_open_var then Some file else None)),
           {| world := w1; trace := tr |})
      | (Raise e, w1) =>
          (Return (Errored ("처리 중 오류가 발생했습니다: "
                              ++ str_exn (save_error e))%string),
           {| world := w1; trace := tr |})
      end.
Proof.
  intros E Et Es. cbv zeta.
  unfold excel_summarizer.process_single_url, try_except.
  unfold bind at 1. unfold lift at 1. rewrite E.
  unfold bind at 1. unfold emit at 1. unfold bind at 1.
  rewrite (framed_get_video_title_async svc (String c id)).
  unfold start in *. cbn [world trace]. rewrite Et. cbn [fst snd world trace].
  unfold bind at 1.
  rewrite (framed_get_video_summary_async svc (String c id)).
  unfold start. cbn [world trace]. rewrite Es. cbn [fst snd world trace].
  destruct out as [text summary]. cbn [fst snd].
  unfold bind at 1.
  assert (O : forall tr,
             (if (url_output_var =? "")%string
              then fun s : state =>
                     (Return ("youtube_summary_"
                                ++ now_timestamp dsk (world s)
                                ++ ".xlsx")%string, s)
              else ret url_output_var)
               {| world := world s3; trace := tr |}
             = (Return (if (url_output_var =? "")%string
                        then default_output_file dsk (world s3)
                        else url_output_var),
                {| world := world s3; trace := tr |})).
  { intros tr. unfold default_output_file.
    destruct (url_output_var =? "")%string; reflexivity. }
  rewrite O. unfold bind at 1.
  unfold save_excel_with_formatting, try_except, call.
  cbn [world trace].
  destruct (save_excel dsk _ _ (world s3)) as [[u|e] w1].
  - unfold ret. eexists. reflexivity.
  - unfold raise, ret. eexists. reflexivity.
Qed.

(** X13.  The single-URL mode and the batch treat a reference alike up
    to the save.  The batch over this one row, not stopped, hands a table
    of one row to the save and ends as the save does: saved, or failed
    with the error of the save.  For a reference that is not valid this
    row is the flagged row, and the single-URL mode returns the text of
    its summary column, without saving and without calling any service.
    For a valid one, both make the same lookups: the single-URL mode
    hands the same row to the save, in the same world; the text it shows
    is built from the columns of this row, and the file is the output
    field or, when that is empty, [youtube_summary_<timestamp>.xlsx].
    When saving fails, the text shown is the error of the save alone:
    title and summary are lost. *)
Theorem single_url_agrees_with_batch (url url_output_var output_file : string)
    (auto_open_var : bool) (w : W) :
  processing_at svc 0 = true ->
  exists row s1,
    process_rows 1 0 [PyStr url] [] (start w) = (Return (true, [row]), s1)
    /\ (forall saved w2,
          save_excel dsk [row] output_file (world s1) = (saved, w2) ->
          exists s',
            process_excel_thread [PyStr url] output_file auto_open_var
              (start w)
            = (Return (match saved with
                       | Return _ =>
                           Saved [row]
                             (if auto_open_var then Some output_file
                              else None)
                       | Raise e => Failed (save_error e)
                       end), s')
            /\ world s' = w2)
    /\ (not_extracted (PyStr url) ->
        row = flagged_row (PyStr url)
        /\ process_single_url url url_output_var auto_open_var (start w)
           = (Return (Invalid (row_summary row)), start w))
    /\ (~ not_extracted (PyStr url) ->
        forall file,
          file = (if (url_output_var =? "")%string
                  then default_output_file dsk (world s1)
                  else url_output_var) ->
          forall saved w2,
            save_excel dsk [row] file (world s1) = (saved, w2) ->
            exists s',
              process_single_url url url_output_var auto_open_var (start w)
              = (Return
                   (match saved with
                    | Return _ =>
                        Summarized (result_text url row) file row
                          (if auto_open_var then Some file else None)
                    | Raise e =>
                        Errored ("처리 중 오류가 발생했습니다: "
                                   ++ str_exn (save_error e))%string
                    end), s')
              /\ world s' = w2).
Proof.
  intros F.
  assert (B : forall row s1,
             process_rows 1 0 [PyStr url] [] (start w)
             = (Return (true, [row]), s1) ->
             forall saved w2,
               save_excel dsk [row] output_file (world s1) = (saved, w2) ->
               exists s',
                 process_excel_thread [PyStr url] output_file auto_open_var
                   (start w)
                 = (Return (match saved with
                            | Return _ =>
                                Saved [row]
                                  (if auto_open_var then Some output_file
                                   else None)
                            | Raise e => Failed (save_error e)
                            end), s')
                 /\ world s' = w2).
  { intros row s1 E saved w2 S.
    rewrite (BatchMore.process_excel_thread_complete svc dsk netloc_valid
               percent_decode format_cell [PyStr url] output_file
               auto_open_var (start w) [row] s1 E saved w2 S).
    exists {| world := w2;
              trace := trace s1
                         ++ snd (batch_end dsk [row] output_file
                                   auto_open_var saved w2) |}.
    split; [|reflexivity]. destruct saved; reflexivity. }
  destruct (ExtractorTheorems.extract_video_id_returns netloc_valid
              percent_decode (PyStr url)) as [r E].
  assert (I : r = None \/ r = Some EmptyString ->
              exists s1,
                process_rows 1 0 [PyStr url] [] (start w)
                = (Return (true, [flagged_row (PyStr url)]), s1)
                /\ process_single_url url url_output_var auto_open_var
                     (start w)
                   = (Return (Invalid (row_summary (flagged_row (PyStr url)))),
                      start w)).
  { intros Hr.
    unfold excel_summarizer.process_single_url, try_except.
    cbn [List.length excel_summarizer.process_rows]. rewrite F. cbn [negb].
    unfold bind, lift, emit, ret. rewrite E.
    destruct Hr as [-> | ->]; eexists; split; reflexivity. }
  unfold SummarizerSpec.not_extracted. rewrite E.
  destruct r as [[|c id]|].
  - destruct I as (s1 & Eb & Es); [now right|].
    exists (flagged_row (PyStr url)), s1. split; [exact Eb|].
    split; [now apply B|]. split; [intros _; now split|].
    intros N. exfalso. apply N. now right.
  - clear I.
    destruct (get_video_title_async_returns svc (String c id) (start w))
      as (t & s2 & Et & _).
    destruct (get_video_summary_async_total svc (String c id)
                (start (world s2))) as (out & s3 & Es).
    destruct (batch_valid_row url w c id t s2 out s3 F E Et Es)
      as (trb & Eb).
    destruct (single_valid_row url url_output_var auto_open_var w c id t s2
                out s3 E Et Es) as (trs & Ex).
    do 2 eexists. split; [exact Eb|]. split; [now apply B|]. split.
    + intros [H|H]; discriminate H.
    + intros _ file -> saved w2 S. cbn [world] in *. rewrite Ex, S.
      destruct saved; eexists; split; reflexivity.
  - destruct I as (s1 & Eb & Es); [now left|].
    exists (flagged_row (PyStr url)), s1. split; [exact Eb|].
    split; [now apply B|]. split; [intros _; now split|].
    intros N. exfalso. apply N. now left.
Qed.

End Single.

Lemma single_url_agrees_with_batch_witness :
  processing_at english_only 0 = true
  /\ exists row s1,
       excel_summarizer.process_rows english_only (fun _ => true)
         (fun s => s) example_format_cell 1 0
         [PyStr "https://youtu.be/aaaaaaaaaaa"] [] (start fresh)
       = (Return (true, [row]), s1)
       /\ (exists s',
             excel_summarizer.process_excel_thread english_only
               read_only_desktop (fun _ => true) (fun s => s)
               example_format_cell [PyStr "https://youtu.be/aaaaaaaaaaa"]
               "out.xlsx" true (start fresh)
             = (Return (Failed (save_error (Exception "Permission denied"))),
                s'))
       /\ exists s',
            excel_summarizer.process_single_url english_only
              read_only_desktop (fun _ => true) (fun s => s)
              "https://youtu.be/aaaaaaaaaaa" "" true (start fresh)
            = (Return
                 (Errored
                    "처리 중 오류가 발생했습니다: 엑셀 파일 저장 중 오류 발생: Permission denied"),
               s').
Proof.
  split; [reflexivity|].
  destruct (single_url_agrees_with_batch english_only read_only_desktop
              (fun _ => true) (fun s => s) example_format_cell
              "https://youtu.be/aaaaaaaaaaa" "" "out.xlsx" true fresh eq_refl)
    as (row & s1 & Er & Eb & _ & V).
  exists row, s1. split; [exact Er|].
  assert (N : ~ not_extracted (fun _ => true) (fun s => s)
                  (PyStr "https://youtu.be/aaaaaaaaaaa")).
  { intros [H|H]; vm_compute in H; discriminate H. }
  split.
  - destruct (Eb (Raise (Exception "Permission denied")) (world s1) eq_refl)
      as (s' & E & _).
    exists s'. exact E.
  - destruct (V N "youtube_summary_20240323_101500.xlsx"%string eq_refl
                (Raise (Exception "Permission denied")) (world s1) eq_refl)
      as (s' & E & _).
    exists s'. exact E.
Defined.

End SingleUrl.

(* ===================================================================== *)
(** * Opening files and starting a worker *)
(* ===================================================================== *)

Module DesktopFacts.
Import PyStr excel_summarizer SummarizerSpec SummarizerFacts.
Import SummarizerMoreSpec SummarizerMore.

#[local] Open Scope nat_scope.
#[local] Open Scope list_scope.

Section Desktop.

Context {W : Type} (svc : services W) (dsk : desktop W).

(** One pass makes one call of an opener, chosen by the platform. *)
Lemma open_attempt_call filepath w :
  let made := snd (open_attempt dsk filepath w) in
  made = startfile_call filepath
  \/ made = subprocess_run_call ["open"%string; filepath]
  \/ made = subprocess_run_call ["xdg-open"%string; filepath].
Proof.
  cbv zeta. unfold open_attempt.
  destruct (platform_system dsk w =? "Windows")%string.
  - destruct (os_startfile dsk filepath w). now left.
  - destruct (platform_system dsk w =? "Darwin")%string.
    + destruct (subprocess_run dsk _ w). right. now left.
    + destruct (subprocess_run dsk _ w). right. now right.
Qed.

Lemma open_attempt_opener filepath w :
  is_opener (snd (open_attempt dsk filepath w)) = true
  /\ is_time_sleep (snd (open_attempt dsk filepath w)) = false
  /\ is_print (snd (open_attempt dsk filepath w)) = false.
Proof.
  destruct (open_attempt_call filepath w) as [-> |[-> | ->]];
    repeat split.
Qed.

(** The entries of a list of calls, one by one. *)
Ltac each_call :=
  repeat (apply Forall_cons;
          [let H := fresh in
           intro H;
           first [assumption | reflexivity | (cbn in H; discriminate H)
                 | congruence]
          |]);
  apply Forall_nil.

(** The counts and shapes of the calls of [open_file]. *)
Ltac open_file_calls :=
  cbn [filter is_opener is_time_sleep is_print];
  repeat match goal with
         | H : is_opener _ = _ |- _ => rewrite H
         | H : is_time_sleep _ = _ |- _ => rewrite H
         | H : is_print _ = _ |- _ => rewrite H
         end;
  cbn [List.length];
  split; [lia|]; split; [lia|]; split; [each_call|];
  split; [first [intros _; reflexivity | discriminate]|];
  first [intros _; reflexivity | discriminate].

(** One pass is the opener of the platform at work. *)
Lemma open_attempt_platform filepath w :
  open_attempt dsk filepath w
  = (platform_open dsk filepath w, platform_opener dsk filepath w).
Proof.
  unfold open_attempt, platform_open, platform_opener.
  destruct (platform_system dsk w =? "Windows")%string.
  - now destruct (os_startfile dsk filepath w).
  - destruct (platform_system dsk w =? "Darwin")%string.
    + now destruct (subprocess_run dsk _ w).
    + now destruct (subprocess_run dsk _ w).
Qed.

(** X14.  [open_file] returns [True] or [False], never falling off its
    loop.  It calls an opener between one and three times, each time the
    one of the platform (as the platform is at that moment) on the file,
    and waits one second between two calls, so one time less than it
    calls.  It returns [True] after the first call that does not raise
    and prints nothing then; it returns [False] only after three calls
    that raised, and the last thing it does then is to print the message
    of the third exception. *)
Theorem open_file_attempts (filepath : string) (w : W) :
  (exists b w' calls,
      open_file dsk filepath w = (Some b, w', calls)
      /\ 1 <= List.length (filter is_opener calls) <= 3
      /\ List.length (filter is_time_sleep calls) + 1
         = List.length (filter is_opener calls)
      /\ Forall (fun e => is_time_sleep e = true -> e = time_sleep_call 1)
           calls
      /\ (b = true -> filter is_print calls = [])
      /\ (b = false -> List.length (filter is_opener calls) = 3))
  /\ forall r1 w1,
       platform_open dsk filepath w = (r1, w1) ->
       let m1 := platform_opener dsk filepath w in
       match r1 with
       | Return _ => open_file dsk filepath w = (Some true, w1, [m1])
       | Raise e1 =>
           forall r2 w2,
             platform_open dsk filepath w1 = (r2, w2) ->
             let m2 := platform_opener dsk filepath w1 in
             match r2 with
             | Return _ =>
                 open_file dsk filepath w
                 = (Some true, w2, [m1; time_sleep_call 1; m2])
             | Raise e2 =>
                 forall r3 w3,
                   platform_open dsk filepath w2 = (r3, w3) ->
                   let m3 := platform_opener dsk filepath w2 in
                   match r3 with
                   | Return _ =>
                       open_file dsk filepath w
                       = (Some true, w3,
                          [m1; time_sleep_call 1; m2; time_sleep_call 1; m3])
                   | Raise e3 =>
                       open_file dsk filepath w
                       = (Some false, w3,
                          [m1; time_sleep_call 1; m2; time_sleep_call 1; m3;
                           print_call
                             ("파일을 열 수 없습니다: " ++ str_exn e3)%string])
                   end
             end
       end.
Proof.
  split.
  - unfold open_file. cbn [seq open_file_max_retries open_file_loop].
    pose proof (open_attempt_opener filepath w) as (O0 & S0 & P0).
    destruct (open_attempt dsk filepath w) as [[[u0|e0] w1] m0];
      cbn [snd] in O0, S0, P0.
    { exists true, w1, [m0]. split; [reflexivity|]. open_file_calls. }
    cbn [Nat.ltb Nat.leb Nat.sub open_file_max_retries].
    pose proof (open_attempt_opener filepath w1) as (O1 & S1 & P1).
    destruct (open_attempt dsk filepath w1) as [[[u1|e1] w2] m1];
      cbn [snd] in O1, S1, P1.
    { exists true, w2, [m0; time_sleep_call 1; m1].
      split; [reflexivity|]. open_file_calls. }
    cbn [Nat.ltb Nat.leb Nat.sub open_file_max_retries].
    pose proof (open_attempt_opener filepath w2) as (O2 & S2 & P2).
    destruct (open_attempt dsk filepath w2) as [[[u2|e2] w3] m2];
      cbn [snd] in O2, S2, P2.
    { exists true, w3, [m0; time_sleep_call 1; m1; time_sleep_call 1; m2].
      split; [reflexivity|]. open_file_calls. }
    exists false, w3,
      [m0; time_sleep_call 1; m1; time_sleep_call 1; m2;
       print_call ("파일을 열 수 없습니다: " ++ str_exn e2)%string].
    split; [reflexivity|]. open_file_calls.
  - intros r1 w1 E1. cbv zeta.
    unfold open_file. cbn [seq open_file_max_retries open_file_loop].
    rewrite open_attempt_platform, E1.
    destruct r1 as [u1|e1]; [reflexivity|].
    cbn [Nat.ltb Nat.leb Nat.sub open_file_max_retries].
    intros r2 w2 E2. rewrite open_attempt_platform, E2.
    destruct r2 as [u2|e2]; [reflexivity|].
    cbn [Nat.ltb Nat.leb Nat.sub open_file_max_retries].
    intros r3 w3 E3. rewrite open_attempt_platform, E3.
    destruct r3 as [u3|e3]; reflexivity.
Qed.

(** X15.  [start_processing] calls no service and never raises.  It
    starts a worker only when none is running, both keys are set and the
    inputs of the mode are filled in (input and output file for the
    batch, the reference for the single-URL mode); it then starts exactly
    one, for these inputs, marks the window as processing, resets the
    progress and swaps the two buttons of the mode.  In every other case
    the window is left as it was, with at most one error box. *)
Theorem start_processing_guard (mode input_path_var output_path_var
    url_var : string) (g : gui) (s : state) :
  exists g' actions,
    start_processing svc mode input_path_var output_path_var url_var g s
    = (Return (g', actions), s)
    /\ List.length actions <= 1
    /\ ((g' = g /\ filter is_thread_start actions = [])
        \/ (processing g = false
            /\ keys_set svc (world s)
            /\ processing g' = true
            /\ progress_var g' = 0
            /\ ((mode = "excel"%string
                 /\ input_path_var <> EmptyString
                 /\ output_path_var <> EmptyString
                 /\ actions = [thread_start_excel input_path_var
                                 output_path_var]
                 /\ excel_start_button_enabled g' = false
                 /\ excel_stop_button_enabled g' = true
                 /\ url_start_button_enabled g' = url_start_button_enabled g
                 /\ url_stop_button_enabled g' = url_stop_button_enabled g)
                \/ (mode <> "excel"%string
                    /\ url_var <> EmptyString
                    /\ actions = [thread_start_url url_var]
                    /\ url_start_button_enabled g' = false
                    /\ url_stop_button_enabled g' = true
                    /\ excel_start_button_enabled g'
                       = excel_start_button_enabled g
                    /\ excel_stop_button_enabled g'
                       = excel_stop_button_enabled g)))).
Proof.
  unfold start_processing.
  destruct (processing g) eqn:P.
  { exists g, []. split; [reflexivity|]. split; [cbn; lia|]. left. now split. }
  unfold try_except, bind.
  pose proof (load_api_keys_state svc s) as L.
  destruct (load_api_keys svc s) as [[keys|e] s0] eqn:K; cbn [snd] in L;
    subst s0.
  2:{ unfold ret. do 2 eexists. split; [reflexivity|].
      split; [cbn; lia|]. left. now split. }
  assert (Ks : keys_set svc (world s)).
  { destruct (falsy (os_getenv svc "OPENAI_API_KEY" (world s))) eqn:Fo;
      destruct (falsy (os_getenv svc "YOUTUBE_API_KEY" (world s))) eqn:Fy;
      try (split; assumption); exfalso;
      destruct (load_api_keys_missing svc s) as (m & _ & R);
      try (rewrite K in R; discriminate R);
      intros [Ho Hy]; congruence. }
  destruct (mode =? "excel")%string eqn:M.
  - apply String.eqb_eq in M.
    destruct (input_path_var =? "")%string eqn:I;
      [|destruct (output_path_var =? "")%string eqn:O]; cbn [orb].
    + unfold ret. do 2 eexists. split; [reflexivity|].
      split; [cbn; lia|]. left. now split.
    + unfold ret. do 2 eexists. split; [reflexivity|].
      split; [cbn; lia|]. left. now split.
    + apply String.eqb_neq in I, O.
      unfold ret. do 2 eexists. split; [reflexivity|].
      split; [cbn; lia|]. right.
      repeat (split; [first [assumption|reflexivity]|]).
      left. repeat split; assumption.
  - apply String.eqb_neq in M.
    destruct (url_var =? "")%string eqn:U.
    + unfold ret. do 2 eexists. split; [reflexivity|].
      split; [cbn; lia|]. left. now split.
    + apply String.eqb_neq in U.
      unfold ret. do 2 eexists. split; [reflexivity|].
      split; [cbn; lia|]. right.
      repeat (split; [first [assumption|reflexivity]|]).
      right. repeat split; assumption.
Qed.

End Desktop.

End DesktopFacts.

(* ===================================================================== *)
(** * Further properties of the identifier extractor *)
(* ===================================================================== *)

Module ExtractMore.
Import Py PyFacts PyStr excel_summarizer ExtractSpec ExtractFacts UrlFacts.
Import ExtractorTheorems SummarizerSpec.

Lemma all_chars_take_while p s : all_chars p (take_while p s) = true.
Proof.
  induction s as [|c s IH]; simpl; [reflexivity|].
  destruct (p c) eqn:Pc; simpl; [now rewrite Pc|reflexivity].
Qed.

Lemma match_shorts_here_identifier s g :
  match_shorts_here s = Some g -> video_identifier g.
Proof.
  unfold match_shorts_here.
  destruct (starts_with "shorts/" s); [|discriminate].
  destruct (take_while is_id_char (drop 7 s) =? "")%string eqn:E;
    [discriminate|].
  intros H. injection H as <-. split.
  - now apply eqb_empty.
  - apply all_chars_take_while.
Qed.

Lemma re_search_shorts_identifier s g :
  re_search_shorts s = Some g -> video_identifier g.
Proof.
  induction s as [|c s IH]; rewrite re_search_shorts_unfold.
  - destruct (match_shorts_here "") eqn:M; [|discriminate].
    intros H. injection H as <-. exact (match_shorts_here_identifier _ _ M).
  - destruct (match_shorts_here (String c s)) eqn:M; [|exact IH].
    intros H. injection H as <-. exact (match_shorts_here_identifier _ _ M).
Qed.

(** The fields of a query are parsed one after the other. *)
Lemma parse_qsl_app percent_decode a b :
  parse_qsl percent_decode (a ++ String "&" b)
  = (parse_qsl percent_decode a ++ parse_qsl percent_decode b)%list.
Proof. unfold parse_qsl. now rewrite split_app, flat_map_app. Qed.

(** An identifier followed by a slash holds no match of the pattern. *)
Lemma re_search_shorts_trailing_slash id :
  all_chars is_id_char id = true -> re_search_shorts (id ++ "/") = None.
Proof.
  induction id as [|c id IH]; intros A; [reflexivity|].
  simpl in A. apply andb_true_iff in A as [Ac A].
  change (String c id ++ "/") with (String c (id ++ "/")).
  rewrite re_search_shorts_unfold.
  assert (M : match_shorts_here (String c (id ++ "/")) = None).
  { unfold match_shorts_here.
    destruct (starts_with "shorts/" (String c (id ++ "/"))) eqn:S;
      [|reflexivity].
    destruct id as [|c2 [|c3 [|c4 [|c5 [|c6 [|c7 id]]]]]];
      try reflexivity.
    exfalso. cbn [starts_with all_chars] in S, A.
    repeat (apply andb_true_iff in S as [? S]).
    repeat (apply andb_true_iff in A as [? A]).
    match goal with
    | H : ("/" =? ?x)%char = true |- _ => apply Ascii.eqb_eq in H; subst x
    end.
    discriminate. }
  rewrite M. now apply IH.
Qed.

Section Parameters.

Variable netloc_valid : string -> bool.
Variable percent_decode : string -> string.

#[local] Abbreviation extract_video_id :=
  (extract_video_id netloc_valid percent_decode).
#[local] Abbreviation not_extracted :=
  (not_extracted netloc_valid percent_decode).

(** X16.  What the shorts pattern captures is always an identifier: not
    empty and made of letters, digits, [_] and [-].  So a reference with
    a match of the pattern yields this identifier and is never taken for
    an invalid one. *)
Theorem shorts_match_is_identifier (url g : string) :
  re_search_shorts url = Some g ->
  video_identifier g
  /\ extract_video_id (PyStr url) = Return (Some g)
  /\ ~ not_extracted (PyStr url).
Proof.
  intros R. pose proof (re_search_shorts_identifier url g R) as V.
  assert (E : extract_video_id (PyStr url) = Return (Some g))
    by (apply extract_try_return, extract_shorts_first, R).
  split; [exact V|]. split; [exact E|].
  unfold SummarizerSpec.not_extracted. rewrite E.
  intros [H|H]; [discriminate H|].
  injection H as ->. now destruct V as [V _].
Qed.

(** X17.  References that carry more than the identifier.  A short link
    followed by a query without a slash, a shorts link followed by
    anything that starts with a character outside the identifier class,
    and a watch link with further parameters after [v] (without dot and
    slash) all give the identifier.  A short link that ends in a slash
    gives the empty string, which the callers take for an invalid
    reference. *)
Theorem reference_with_parameters (id : string) :
  video_identifier id ->
  (forall query,
      has_char "/" query = false ->
      extract_video_id (PyStr ("https://youtu.be/" ++ id ++ "?" ++ query))
      = Return (Some id))
  /\ (forall c rest,
        is_id_char c = false ->
        extract_video_id
          (PyStr ("https://youtube.com/shorts/" ++ id ++ String c rest))
        = Return (Some id))
  /\ (forall parameters,
        all_chars query_char parameters = true ->
        has_char "." parameters = false ->
        has_char "/" parameters = false ->
        extract_video_id
          (PyStr ("https://www.youtube.com/watch?v=" ++ id ++ "&"
                    ++ parameters))
        = Return (Some id))
  /\ extract_video_id (PyStr ("https://youtu.be/" ++ id ++ "/"))
     = Return (Some EmptyString)
  /\ not_extracted (PyStr ("https://youtu.be/" ++ id ++ "/")).
Proof.
  intros Hv. pose proof Hv as [Hne Hid].
  assert (S1 : forall d t, is_id_char d = false -> has_char d t = false ->
                           forall sep, has_char d (id ++ String sep t)
                                       = (d =? sep)%char).
  { intros d t Hd Ht sep. rewrite has_char_app, (id_lacks d id Hd Hid).
    simpl. now rewrite Ht, orb_false_r. }
  split; [|split; [|split; [|split]]].
  - intros query Hq. apply extract_try_return.
    set (url := "https://youtu.be/" ++ id ++ "?" ++ query).
    assert (L : has_char "/" (id ++ "?" ++ query) = false)
      by (exact (S1 "/"%char query eq_refl Hq "?"%char)).
    assert (R : re_search_shorts url = None).
    { subst url. cbn. now apply re_search_shorts_lacking. }
    assert (C : contains "youtu.be" url = true) by reflexivity.
    rewrite (extract_short_domain netloc_valid percent_decode url R C).
    unfold url.
    change ("https://youtu.be/" ++ id ++ "?" ++ query)
      with ("https://youtu.be" ++ String "/" (id ++ "?" ++ query)).
    rewrite (last_split "/" "https://youtu.be" _ L).
    change (id ++ "?" ++ query) with (id ++ String "?" query).
    rewrite split_app, (split_lacking "?" id)
      by (apply id_lacks; [reflexivity|exact Hid]).
    reflexivity.
  - intros c rest Hc. apply extract_try_return, extract_shorts_first.
    cbn -[take_while].
    rewrite (take_while_app_stop is_id_char id c rest Hid Hc).
    apply eqb_empty in Hne. now rewrite Hne.
  - intros parameters Hq Hdot Hslash. apply extract_try_return.
    set (url := "https://www.youtube.com/watch?v=" ++ id ++ "&" ++ parameters).
    assert (R : re_search_shorts url = None).
    { subst url. cbn. apply re_search_shorts_lacking.
      exact (S1 "/"%char parameters eq_refl Hslash "&"%char). }
    assert (C1 : contains "youtu.be" url = false).
    { subst url. cbn. apply (contains_lacking "."); [reflexivity|].
      exact (S1 "."%char parameters eq_refl Hdot "&"%char). }
    assert (C2 : contains "youtube.com" url = true) by reflexivity.
    assert (Q : urlparse_query netloc_valid url
                = Return ("v=" ++ id ++ "&" ++ parameters)).
    { apply (urlparse_query_url netloc_valid "h" "ttps" "www.youtube.com"
               "watch" ("v=" ++ id ++ "&" ++ parameters)); try reflexivity.
      change ("v=" ++ id ++ "&" ++ parameters)
        with ("v=" ++ (id ++ String "&" parameters)).
      rewrite !all_chars_app. simpl all_chars.
      rewrite (all_chars_impl _ _ _
                 (fun c H => proj1 (id_char_facts c H)) Hid).
      now rewrite Hq. }
    rewrite (extract_canonical netloc_valid percent_decode url R C1 C2), Q.
    change (("v=" ++ id ++ "&" ++ parameters =? "")%string) with false.
    cbv iota.
    change ("v=" ++ id ++ "&" ++ parameters)
      with (("v=" ++ id) ++ String "&" parameters).
    rewrite parse_qsl_app, (parse_qsl_v percent_decode id Hv).
    reflexivity.
  - apply extract_try_return.
    set (url := "https://youtu.be/" ++ id ++ "/").
    assert (R : re_search_shorts url = None).
    { subst url. cbn. now apply re_search_shorts_trailing_slash. }
    assert (C : contains "youtu.be" url = true) by reflexivity.
    rewrite (extract_short_domain netloc_valid percent_decode url R C).
    unfold url.
    change ("https://youtu.be/" ++ id ++ "/")
      with (("https://youtu.be/" ++ id) ++ String "/" "").
    now rewrite (last_split "/" _ "" eq_refl).
  - right. apply extract_try_return.
    set (url := "https://youtu.be/" ++ id ++ "/").
    assert (R : re_search_shorts url = None).
    { subst url. cbn. now apply re_search_shorts_trailing_slash. }
    assert (C : contains "youtu.be" url = true) by reflexivity.
    rewrite (extract_short_domain netloc_valid percent_decode url R C).
    unfold url.
    change ("https://youtu.be/" ++ id ++ "/")
      with (("https://youtu.be/" ++ id) ++ String "/" "").
    now rewrite (last_split "/" _ "" eq_refl).
Qed.

End Parameters.

Lemma shorts_match_is_identifier_witness :
  video_identifier "dQw4w9WgXcQ"
  /\ example_extract
       (PyStr "https://youtube.com/shorts/dQw4w9WgXcQ?feature=share")
     = Return (Some "dQw4w9WgXcQ").
Proof.
  destruct (shorts_match_is_identifier (fun _ => true) (fun s => s)
              "https://youtube.com/shorts/dQw4w9WgXcQ?feature=share"
              "dQw4w9WgXcQ" eq_refl) as (V & E & _).
  split; [exact V|exact E].
Defined.

Lemma reference_with_parameters_witness :
  video_identifier "dQw4w9WgXcQ"
  /\ example_extract (PyStr "https://youtu.be/dQw4w9WgXcQ?t=30")
     = Return (Some "dQw4w9WgXcQ")
  /\ example_extract
       (PyStr "https://www.youtube.com/watch?v=dQw4w9WgXcQ&t=10s")
     = Return (Some "dQw4w9WgXcQ")
  /\ example_extract (PyStr "https://youtu.be/dQw4w9WgXcQ/")
     = Return (Some EmptyString).
Proof.
  assert (H : video_identifier "dQw4w9WgXcQ")
    by (split; [discriminate|reflexivity]).
  split; [exact H|].
  destruct (reference_with_parameters (fun _ => true) (fun s => s)
              "dQw4w9WgXcQ" H) as (Q & _ & P & T & _).
  split; [exact (Q "t=30" eq_refl)|].
  split; [exact (P "t=10s" eq_refl eq_refl eq_refl)|exact T].
Defined.

End ExtractMore.

(* ===================================================================== *)
(** * Negative durations *)
(* ===================================================================== *)

Module DurationMore.
Import Py PyFacts Youtube_search DurationSpec SearchMoreSpec Double DoubleFacts.

#[local] Open Scope Z_scope.

Lemma hms_arith_negative k :
  k < 0 ->
  let H := k / 3600 in
  let M := k mod 3600 / 60 in
  let S := k mod 3600 mod 60 in
  H < 0 /\ 0 <= M < 60 /\ 0 <= S < 60 /\ H * 3600 + M * 60 + S = k.
Proof.
  intros Hk. cbv zeta. Z.to_euclidean_division_equations. lia.
Qed.

(** The three fields for a double that is a whole number, of either
    sign. *)
Lemma clock_fields_int x k :
  - 2 ^ 52 < k < 2 ^ 52 -> (x == inject_Z k)%Q ->
  let hr := float_divmod x (inject_Z 3600) in
  let ms := float_divmod (snd hr) (inject_Z 60) in
  to_int (fst hr) = k / 3600
  /\ to_int (fst ms) = k mod 3600 / 60
  /\ to_int (snd ms) = k mod 3600 mod 60.
Proof.
  intros Hk E. cbv zeta.
  destruct (float_divmod_int x k 3600) as [H1 R1];
    [split; reflexivity|exact Hk|exact E|].
  set (hr := float_divmod x (inject_Z 3600)) in *.
  pose proof (Z.mod_pos_bound k 3600 eq_refl) as B.
  destruct (float_divmod_int (snd hr) (k mod 3600) 60) as [H2 R2];
    [split; reflexivity
    |change (2 ^ 52) with 4503599627370496; lia|exact R1|].
  split; [exact H1|]. split; [exact H2|].
  apply to_int_int. exact R2.
Qed.

Lemma format_timedelta_whole_seconds td :
  timedelta_min <= td <= timedelta_max -> td mod usec_per_sec = 0 ->
  let k := td / usec_per_sec in
  format_timedelta td
  = fmt02 (k / 3600) ++ ":" ++ fmt02 (k mod 3600 / 60) ++ ":"
      ++ fmt02 (k mod 3600 mod 60).
Proof.
  intros H M. cbv zeta.
  pose proof (DurationFormatter.whole_seconds_exact td H M) as E.
  assert (K : - 2 ^ 52 < td / usec_per_sec < 2 ^ 52).
  { unfold timedelta_min, timedelta_max, usec_per_sec in *.
    change (2 ^ 52) with 4503599627370496.
    assert (td / 1000000 < 86400000000000)
      by (apply Z.div_lt_upper_bound; lia).
    assert (- 86399999913600 <= td / 1000000)
      by (apply Z.div_le_lower_bound; lia).
    lia. }
  destruct (clock_fields_int (total_seconds td) _ K E) as (A & B & C).
  unfold format_timedelta.
  destruct (float_divmod (total_seconds td) (inject_Z 3600))
    as [hours remainder].
  cbn [fst snd] in *.
  destruct (float_divmod remainder (inject_Z 60)) as [minutes seconds].
  cbn [fst snd] in *. rewrite A, B, C. reflexivity.
Qed.

(** X18.  A negative duration of a whole number of seconds is not refused
    either.  Its string starts with a minus sign and the number of hours
    rounded down, followed by two-digit minutes and seconds below sixty
    that count upwards from there: [-H:MM:SS] stands for [-H] hours plus
    [MM] minutes and [SS] seconds, so one second below zero reads
    [-1:59:59]. *)
Theorem format_duration_negative
    (parse_duration : string -> option timedelta)
    (duration : string) (td : timedelta) :
  parse_duration duration = Some td ->
  timedelta_min <= td < 0 ->
  td mod usec_per_sec = 0 ->
  exists h mm ss m s,
    format_duration parse_duration duration
    = Some ("-" ++ str_N h ++ ":" ++ mm ++ ":" ++ ss)%string
    /\ (0 < h)%N
    /\ String.length mm = 2%nat
    /\ String.length ss = 2%nat
    /\ decimal_value mm = Some m
    /\ decimal_value ss = Some s
    /\ (m < 60)%N /\ (s < 60)%N
    /\ Z.of_N m * 60 + Z.of_N s - Z.of_N h * 3600 = td / usec_per_sec.
Proof.
  intros Hp Htd Hm.
  assert (R : timedelta_min <= td <= timedelta_max)
    by (unfold timedelta_max, usec_per_sec; lia).
  assert (Hk : td / usec_per_sec < 0)
    by (apply Z.div_lt_upper_bound; [reflexivity|lia]).
  destruct (hms_arith_negative _ Hk) as (HH & HM & HS & Hsum).
  unfold format_duration. rewrite Hp.
  rewrite (format_timedelta_whole_seconds td R Hm). cbv zeta.
  set (k := td / usec_per_sec) in *.
  set (H := k / 3600) in *.
  set (M := k mod 3600 / 60) in *.
  set (S := k mod 3600 mod 60) in *.
  destruct H as [|p|p] eqn:EH; try lia.
  exists (Npos p), (fmt02 M), (fmt02 S), (Z.to_N M), (Z.to_N S).
  split; [reflexivity|]. split; [lia|].
  split; [apply fmt02_length_two; lia|].
  split; [apply fmt02_length_two; lia|].
  split; [apply fmt02_value; lia|].
  split; [apply fmt02_value; lia|].
  split; [lia|]. split; [lia|].
  rewrite <- Hsum. rewrite !Z2N.id by lia. lia.
Qed.

Lemma format_duration_negative_witness :
  negative_parse "-PT1S" = Some (- usec_per_sec)
  /\ timedelta_min <= - usec_per_sec < 0
  /\ (- usec_per_sec) mod usec_per_sec = 0
  /\ exists h mm ss m s,
       format_duration negative_parse "-PT1S"
       = Some ("-" ++ str_N h ++ ":" ++ mm ++ ":" ++ ss)%string
       /\ (0 < h)%N
       /\ String.length mm = 2%nat
       /\ String.length ss = 2%nat
       /\ decimal_value mm = Some m
       /\ decimal_value ss = Some s
       /\ (m < 60)%N /\ (s < 60)%N
       /\ Z.of_N m * 60 + Z.of_N s - Z.of_N h * 3600
          = - usec_per_sec / usec_per_sec.
Proof.
  split; [reflexivity|].
  split; [unfold timedelta_min, usec_per_sec; lia|].
  split; [reflexivity|].
  apply (format_duration_negative negative_parse "-PT1S" (- usec_per_sec)).
  - reflexivity.
  - unfold timedelta_min, usec_per_sec; lia.
  - reflexivity.
Defined.

(** One second below zero; and a duration past 2^34 seconds whose double
    is the whole number of seconds above it. *)
Example format_duration_minus_one_second :
  format_duration negative_parse "-PT1S" = Some "-1:59:59"%string
  /\ format_timedelta (- 17179948800000001) = "-4772208:00:00"%string.
Proof. split; vm_compute; reflexivity. Qed.

End DurationMore.

(* ===================================================================== *)
(** * A video that does not convert *)
(* ===================================================================== *)

Module AbortFacts.
Import Youtube_search SearchSpec SearchFacts SearchMoreSpec SearchMore.
Import RunGuiSpec RunGuiFacts.

#[local] Open Scope nat_scope.
#[local] Open Scope list_scope.

Section Abort.

Variable parse_duration : string -> option timedelta.
Variable py_int : string -> option Z.
Variable strptime_ymd : string -> option string.
Variable strptime_published : string -> option string.
Variable today_date : string.
Variable to_excel : string -> list video_record -> option string.
Variable auto_open : string -> option string.
Variable str_raised : string.

#[local] Abbreviation well_formed :=
  (well_formed parse_duration py_int strptime_published).
#[local] Abbreviation convertible :=
  (convertible parse_duration py_int strptime_published).
#[local] Abbreviation enrich_items :=
  (enrich_items parse_duration py_int strptime_published).
#[local] Abbreviation on_run_button_click :=
  (on_run_button_click parse_duration py_int strptime_ymd strptime_published
     today_date to_excel auto_open str_raised).

Lemma build_record_not_convertible index total url vd :
  convertible vd = false ->
  build_record parse_duration py_int strptime_published index total url vd
  = None.
Proof.
  unfold SearchSpec.convertible, Youtube_search.build_record.
  destruct (format_duration _ _); [|reflexivity].
  destruct (int_or_zero _ (statistics_viewCount vd)); [|reflexivity].
  destruct (int_or_zero _ (statistics_commentCount vd)); [|reflexivity].
  destruct (strptime_published _); [discriminate|reflexivity].
Qed.

(** One item that does not convert makes the loop over its page raise,
    wherever in the page it stands. *)
Lemma enrich_items_ill_formed items :
  forall index total acc log,
  forallb well_formed items = false ->
  enrich_items index items total acc log = None.
Proof.
  induction items as [|h rest IH]; intros index total acc log W;
    [discriminate W|].
  cbn [forallb] in W. cbn [Youtube_search.enrich_items]. cbv zeta.
  unfold SearchSpec.well_formed in W.
  destruct (details h) as [e|[|vd more]]; cbn [andb] in W;
    try (apply IH; exact W).
  destruct (convertible vd) eqn:C.
  - destruct (Youtube_search.build_record _ _ _ _ _ _ _); [|reflexivity].
    apply IH. exact W.
  - now rewrite build_record_not_convertible.
Qed.

(** X19.  One video whose duration, counts or date do not convert aborts
    the whole run.  Wherever it stands in its page and however many pages
    were gathered before, [fetch_youtube_data] is left by the exception
    instead of returning; the handler of the button then shows the error
    box and writes no spreadsheet, so the records gathered so far are
    lost. *)
Theorem malformed_video_aborts_run
    (api_key search_query channel_id start_date_str end_date_str
       file_name : string)
    (before after : list search_response) (items : list hit)
    (token : option string) :
  accepted strptime_ymd api_key search_query channel_id start_date_str
    end_date_str ->
  fst (fetch_youtube_data parse_duration py_int strptime_ymd
         strptime_published api_key search_query channel_id
         (or_none start_date_str) (or_none end_date_str) before)
  = AwaitingResponse ->
  forallb well_formed items = false ->
  let responses := before ++ SearchOk items token :: after in
  fst (fetch_youtube_data parse_duration py_int strptime_ymd
         strptime_published api_key search_query channel_id
         (or_none start_date_str) (or_none end_date_str) responses)
  = Raised
  /\ exists w,
       on_run_button_click api_key search_query channel_id start_date_str
         end_date_str file_name responses = Some w
       /\ excel_file w = None
       /\ popups w
          = [showerror "에러"
               ("데이터 조회 또는 저장 중 오류가 발생했습니다."
                  ++ String "010" (String "010" str_raised))%string]
       /\ run_button_enabled w = true.
Proof.
  intros A H W. cbv zeta.
  assert (R : fst (fetch_youtube_data parse_duration py_int strptime_ymd
                     strptime_published api_key search_query channel_id
                     (or_none start_date_str) (or_none end_date_str)
                     (before ++ SearchOk items token :: after))
              = Raised).
  { unfold Youtube_search.fetch_youtube_data in *.
    destruct (fetch_loop_awaiting_app parse_duration py_int strptime_ymd
                strptime_published api_key search_query channel_id
                (or_none start_date_str) (or_none end_date_str)
                before _ (SearchOk items token :: after) H)
      as (st' & E & _).
    rewrite E.
    rewrite (fetch_loop_page parse_duration py_int strptime_ymd
               strptime_published api_key search_query channel_id
               (or_none start_date_str) (or_none end_date_str)).
    now rewrite enrich_items_ill_formed. }
  split; [exact R|].
  pose proof A as (_ & _ & Hd).
  destruct (accepted_guards strptime_ymd _ _ _ _ _ A) as [Ek Eq].
  unfold Youtube_search.on_run_button_click.
  rewrite Ek, Eq, Hd. cbv zeta. rewrite R.
  eexists. split; [reflexivity|]. repeat split.
Qed.

End Abort.

Lemma malformed_video_aborts_run_witness :
  fst (example_fetch [page50; page_malformed]) = Raised
  /\ exists w,
       example_click "KEY"%string "music"%string ""%string ""%string
         ""%string ""%string [page50; page_malformed] = Some w
       /\ excel_file w = None.
Proof.
  assert (A : accepted example_strptime "KEY" "music" "" "" "").
  { split; [discriminate|]. split; [left; discriminate|reflexivity]. }
  destruct (malformed_video_aborts_run example_parse_duration example_int
              example_strptime example_strptime "2024-03-23"%string
              (fun _ _ => None) (fun _ => None) "error"%string
              "KEY"%string "music"%string ""%string ""%string ""%string
              ""%string [page50] [] [hit_ok; hit_malformed] None A)
    as (R & w & E & F & _).
  - vm_compute. reflexivity.
  - vm_compute. reflexivity.
  - split; [exact R|]. exists w. split; [exact E|exact F].
Defined.

End AbortFacts.
